(** * Sleeposcope: the per-subject preprocessing pipeline

    A shallow embedding of [sleeposcope_modules/sanity_check_module.py],
    [sleeposcope_modules/preprocessing_module.py] and of the parts of
    [pre_process_subject_data.py] that sequence them, followed by the
    properties proved about them.

    Conventions of the embedding.
    - A raised Python exception is the [Raise] case of [result]; code that
      returns normally is [Ok].
    - A pandas [NaN] / [NaT] cell is [None]; a filled cell is [Some].
    - A tz-aware [Timestamp] is its absolute instant in whole seconds since
      the Unix epoch together with the name of its zone; the recording is
      sampled at 1 Hz and its raw time stamps carry whole seconds.
    - The pandas operations are modelled with the behaviour of the pandas
      release line the module was written for (0.20, 2017): [reindex] on a
      set, [to_datetime (utc=True)] on a Series returning naive values, and
      [.loc] with a list of labels raising [KeyError] only when none of the
      labels is present.
    - The US/Pacific clock is the one of the daylight rule in force since
      2007; a statement that places a noon boundary on the calendar carries
      the hypothesis that the recording starts in 2007 or later
      ([pacific_2007]).
    - A column of time stamps has one awareness, and comparisons are made
      between time stamps of the same awareness; a statement that gives the
      onsets or the day numbers in closed form carries the hypothesis that
      the start is US/Pacific-aware, which is what [read_data] produces.
    - The parser [pd.to_datetime] is a parameter with two outcomes per
      text, an instant or [ValueError]; the texts pandas reads as [NaT]
      without raising (the empty text and the spellings of [NaT] and
      [NaN]) are outside it, and a statement that characterises the
      outcomes of the conversion excludes them ([nat_text]).
    - Re-indexing carries the cells as they are; the upcast of an integer
      signal column that receives [NaN] rows is left out. *)

From Stdlib Require Import ZArith List String Ascii Bool Lia DecimalString.
From Stdlib Require Import FinFun.
From Stdlib Require Import DecimalPos.
Import ListNotations.
Open Scope Z_scope.

Set Implicit Arguments.

(** ** Exceptions and results *)

Inductive exn : Type :=
| DateTimeColumnIsDefectiveError
| SubjectExistsInDBError
| DataFileOrFolderDoesNotExistError
| DataFileIsDefectiveError
| FileIsNotCorrectDataFileError
| QuerryFailedError
| DBConnectionFailedOrNonexistentError
| FailedToReadCSVError
| DataFrameIsEmpty
| DataFrameIsNone
| DataFrameContainsNans
| Subject_num_does_not_match_subject_files_path
| ValueError
| KeyError
| TypeError
| AttributeError.

Inductive result (A : Type) : Type :=
| Ok (a : A)
| Raise (e : exn).

Arguments Ok {A} a.
Arguments Raise {A} e.

Definition bind {A B : Type} (m : result A) (k : A -> result B) : result B :=
  match m with
  | Ok a => k a
  | Raise e => Raise e
  end.

Notation "x <- m ;; k" := (bind m (fun x => k))
  (at level 61, m at next level, right associativity).
Notation "m ;;; k" := (bind m (fun _ => k))
  (at level 61, right associativity).

(** [try: m except e => h] runs [m]; the handler [h] replaces the outcome
    only when [m] raised exactly [e]. *)
Definition exn_eqb (a b : exn) : bool :=
  match a, b with
  | DateTimeColumnIsDefectiveError, DateTimeColumnIsDefectiveError
  | SubjectExistsInDBError, SubjectExistsInDBError
  | DataFileOrFolderDoesNotExistError, DataFileOrFolderDoesNotExistError
  | DataFileIsDefectiveError, DataFileIsDefectiveError
  | FileIsNotCorrectDataFileError, FileIsNotCorrectDataFileError
  | QuerryFailedError, QuerryFailedError
  | DBConnectionFailedOrNonexistentError, DBConnectionFailedOrNonexistentError
  | FailedToReadCSVError, FailedToReadCSVError
  | DataFrameIsEmpty, DataFrameIsEmpty
  | DataFrameIsNone, DataFrameIsNone
  | DataFrameContainsNans, DataFrameContainsNans
  | Subject_num_does_not_match_subject_files_path,
    Subject_num_does_not_match_subject_files_path
  | ValueError, ValueError
  | KeyError, KeyError
  | TypeError, TypeError
  | AttributeError, AttributeError => true
  | _, _ => false
  end.

Definition try_except {A : Type} (m : result A) (e : exn) (h : result A)
  : result A :=
  match m with
  | Ok a => Ok a
  | Raise e' => if exn_eqb e' e then h else Raise e'
  end.

(** ** Frames

    Every table the pipeline passes to [check_if_data_frame_is_valid]
    answers two questions: how many rows it has and whether any cell is
    null. *)

Class FrameLike (F : Type) : Type := {
  frame_len : F -> nat;
  frame_any_null : F -> bool
}.

(** A cell of a freshly read csv file: its text, or [None] for [NaN]. *)
Definition cell : Type := option string.

(** The table [pd.read_csv] returns: the header and the rows under it. *)
Record RawFrame : Type := mkRawFrame {
  raw_columns : list string;
  raw_rows : list (list cell)
}.

Definition is_null {A : Type} (c : option A) : bool :=
  match c with
  | None => true
  | Some _ => false
  end.

#[export] Instance RawFrame_FrameLike : FrameLike RawFrame := {
  frame_len df := List.length (raw_rows df);
  frame_any_null df := existsb (existsb (@is_null string)) (raw_rows df)
}.

(** ** sanity_check_module.py *)

Module sanity_check_module.

(** Python's [str] on an [int]. *)
Definition str (n : Z) : string := NilZero.string_of_int (Z.to_int n).

(** Python's [s[-n:]] for [n >= 1]: the last [n] characters, or all of [s]
    when it is shorter than [n]. *)
Definition slice_last (n : nat) (s : string) : string :=
  if (n <=? String.length s)%nat
  then substring (String.length s - n) n s
  else s.

Definition check_if_subject_num_matches_subject_files_path
    (subject_num : Z) (subject_files_path : string) : result unit :=
  let subject_num_str := str subject_num in
  if String.eqb
       (slice_last (String.length subject_num_str) subject_files_path)
       subject_num_str
  then Ok tt
  else Raise Subject_num_does_not_match_subject_files_path.

Definition check_if_data_frame_is_valid {F : Type} `{FrameLike F}
    (df : option F) : result unit :=
  match df with
  | None => Raise DataFrameIsNone
  | Some d =>
      if (frame_len d =? 0)%nat then Raise DataFrameIsEmpty
      else if frame_any_null d then Raise DataFrameContainsNans
      else Ok tt
  end.

Definition expected_columns : list string :=
  ["name"; "time"; "meas_sig_str"; "status"]%string.

Definition check_file_df_content (file_df : option RawFrame) : result unit :=
  match check_if_data_frame_is_valid file_df with
  | Raise DataFrameIsNone => Raise FailedToReadCSVError
  | Raise DataFrameIsEmpty => Raise DataFileIsDefectiveError
  | Raise DataFrameContainsNans => Raise DataFileIsDefectiveError
  | Raise e => Raise e
  | Ok _ =>
      match file_df with
      | Some d =>
          if list_eq_dec string_dec (raw_columns d) expected_columns
          then Ok tt
          else Raise FileIsNotCorrectDataFileError
      | None => Raise FailedToReadCSVError
      end
  end.

End sanity_check_module.

(** ** Calendar and time zones

    What the pipeline asks of [pandas.Timestamp]: the proleptic Gregorian
    calendar on day numbers counted from 1970-01-01, and the two zones the
    module names. *)

Module Calendar.

Definition secs_per_day : Z := 86400.

(** Day number of the civil date [y]-[m]-[d]. *)
Definition days_from_civil (y m d : Z) : Z :=
  let y' := if m <=? 2 then y - 1 else y in
  let era := y' / 400 in
  let yoe := y' - era * 400 in
  let mp := (m + 9) mod 12 in
  let doy := (153 * mp + 2) / 5 + d - 1 in
  let doe := yoe * 365 + yoe / 4 - yoe / 100 + doy in
  era * 146097 + doe - 719468.

(** Civil date [(y, m, d)] of a day number. *)
Definition civil_from_days (z : Z) : Z * Z * Z :=
  let z' := z + 719468 in
  let era := z' / 146097 in
  let doe := z' - era * 146097 in
  let yoe := (doe - doe / 1460 + doe / 36524 - doe / 146096) / 365 in
  let doy := doe - (365 * yoe + yoe / 4 - yoe / 100) in
  let mp := (5 * doy + 2) / 153 in
  let d := doy - (153 * mp + 2) / 5 + 1 in
  let m := if mp <? 10 then mp + 3 else mp - 9 in
  let y := yoe + era * 400 in
  (if m <=? 2 then y + 1 else y, m, d).

Definition year_of_day (z : Z) : Z := fst (fst (civil_from_days z)).

Definition is_leap (y : Z) : bool :=
  ((y mod 4 =? 0) && negb (y mod 100 =? 0)) || (y mod 400 =? 0).

Definition days_in_month (y m : Z) : Z :=
  if m =? 2 then (if is_leap y then 29 else 28)
  else if (m =? 4) || (m =? 6) || (m =? 9) || (m =? 11) then 30
  else 31.

(** Day of the week of a day number, Sunday being 0 (1970-01-01 was a
    Thursday). *)
Definition weekday (z : Z) : Z := (z + 4) mod 7.

Definition first_sunday_on_or_after (z : Z) : Z := z + (7 - weekday z) mod 7.

Inductive tzinfo : Type := UTC | US_Pacific.

(** Daylight saving time in US/Pacific under the rule in force since 2007:
    from 02:00 PST on the second Sunday of March (10:00 UTC) to 02:00 PDT on
    the first Sunday of November (09:00 UTC). *)
Definition dst_start (y : Z) : Z :=
  first_sunday_on_or_after (days_from_civil y 3 8) * secs_per_day + 10 * 3600.

Definition dst_end (y : Z) : Z :=
  first_sunday_on_or_after (days_from_civil y 11 1) * secs_per_day + 9 * 3600.

(** Offset from UTC, in seconds, that zone [z] observes at instant [t]. *)
Definition utcoffset (z : tzinfo) (t : Z) : Z :=
  match z with
  | UTC => 0
  | US_Pacific =>
      let y := year_of_day (t / secs_per_day) in
      if (dst_start y <=? t) && (t <? dst_end y)
      then (-7) * 3600 else (-8) * 3600
  end.

(** A [Timestamp]: [tz = None] is a naive value whose [value] is wall-clock
    seconds; otherwise [value] is the absolute instant. *)
Record Timestamp : Type := mkTimestamp {
  value : Z;
  tz : option tzinfo
}.

(** Wall-clock seconds shown by a time stamp. *)
Definition wall (ts : Timestamp) : Z :=
  match tz ts with
  | None => value ts
  | Some z => value ts + utcoffset z (value ts)
  end.

(** [Timestamp.hour]. *)
Definition hour (ts : Timestamp) : Z := (wall ts mod secs_per_day) / 3600.

(** [Timestamp.date()], as a day number. *)
Definition date (ts : Timestamp) : Z := wall ts / secs_per_day.

(** [Timestamp + Timedelta(seconds)]: absolute arithmetic, zone kept. *)
Definition add_seconds (ts : Timestamp) (s : Z) : Timestamp :=
  mkTimestamp (value ts + s) (tz ts).

(** [a < b] and [a >= b] on time stamps of the same awareness. *)
Definition ltb (a b : Timestamp) : bool := value a <? value b.
Definition geb (a b : Timestamp) : bool := value b <=? value a.

(** [(a - b).total_seconds()] truncated by [int]. *)
Definition seconds_between (a b : Timestamp) : Z := value a - value b.

(** [Timestamp.tz_localize]: attaches a zone to a naive value, choosing the
    instant whose wall clock in that zone is the given one; refuses a value
    that is already aware, and a wall-clock reading that the zone shows
    twice or never. *)
Definition tz_localize (z : tzinfo) (ts : Timestamp) : result Timestamp :=
  match tz ts with
  | Some _ => Raise TypeError
  | None =>
      match z with
      | UTC => Ok (mkTimestamp (value ts) (Some UTC))
      | US_Pacific =>
          let t_std := value ts + 8 * 3600 in
          let t_dst := value ts + 7 * 3600 in
          let std_ok := utcoffset US_Pacific t_std =? (-8) * 3600 in
          let dst_ok := utcoffset US_Pacific t_dst =? (-7) * 3600 in
          if std_ok && negb dst_ok then Ok (mkTimestamp t_std (Some US_Pacific))
          else if dst_ok && negb std_ok
               then Ok (mkTimestamp t_dst (Some US_Pacific))
               else Raise ValueError
      end
  end.

(** [Timestamp.tz_convert]: same instant, another zone; refuses a naive
    value. *)
Definition tz_convert (z : tzinfo) (ts : Timestamp) : result Timestamp :=
  match tz ts with
  | None => Raise TypeError
  | Some _ => Ok (mkTimestamp (value ts) (Some z))
  end.

(** The text [yyyy-mm-dd hh:mm:ss] read as a naive time stamp: the strict
    reading of the documented format (pandas' own parser accepts this
    format and more). *)
Definition digit (c : ascii) : option Z :=
  let n := Z.of_nat (nat_of_ascii c) in
  if (48 <=? n) && (n <=? 57) then Some (n - 48) else None.

Fixpoint number (acc : Z) (cs : list ascii) : option Z :=
  match cs with
  | [] => Some acc
  | c :: cs' =>
      match digit c with
      | Some d => number (acc * 10 + d) cs'
      | None => None
      end
  end.

Definition civil_seconds (y m d hh mm ss : Z) : Z :=
  days_from_civil y m d * secs_per_day + hh * 3600 + mm * 60 + ss.

Definition valid_civil (y m d hh mm ss : Z) : bool :=
  (1 <=? m) && (m <=? 12) && (1 <=? d) && (d <=? days_in_month y m)
  && (hh <? 24) && (mm <? 60) && (ss <? 60).

Definition to_datetime_iso (s : string) : option Z :=
  match list_ascii_of_string s with
  | [y1; y2; y3; y4; a; m1; m2; b; d1; d2; sp; h1; h2; c; n1; n2; e; s1; s2] =>
      if (Ascii.eqb a "-" && Ascii.eqb b "-" && Ascii.eqb sp " "
          && Ascii.eqb c ":" && Ascii.eqb e ":")%char
      then
        match number 0 [y1; y2; y3; y4], number 0 [m1; m2],
              number 0 [d1; d2], number 0 [h1; h2],
              number 0 [n1; n2], number 0 [s1; s2] with
        | Some y, Some m, Some d, Some hh, Some mm, Some ss =>
            if valid_civil y m d hh mm ss
            then Some (civil_seconds y m d hh mm ss)
            else None
        | _, _, _, _, _, _ => None
        end
      else None
  | _ => None
  end.

End Calendar.

(** ** Labelled tables

    A pandas Series or DataFrame is kept as the list of its rows in frame
    order, each paired with its index label. *)

Module Pandas.

Fixpoint mapM {A B : Type} (f : A -> result B) (l : list A)
  : result (list B) :=
  match l with
  | [] => Ok []
  | x :: t => y <- f x ;; ys <- mapM f t ;; Ok (y :: ys)
  end.

Fixpoint foldM {A S : Type} (f : S -> A -> result S) (l : list A) (s : S)
  : result S :=
  match l with
  | [] => Ok s
  | x :: t => s' <- f s x ;; foldM f t s'
  end.

Definition mem (x : Z) (l : list Z) : bool := existsb (Z.eqb x) l.

(** [range(a, b)]. *)
Definition range (a b : Z) : list Z :=
  map (fun i => a + Z.of_nat i) (seq 0 (Z.to_nat (b - a))).

Fixpoint has_dup (l : list Z) : bool :=
  match l with
  | [] => false
  | x :: t => mem x t || has_dup t
  end.

Section Labelled.
Variable R : Type.

Definition frame : Type := list (Z * R).

Definition index (df : frame) : list Z := map fst df.

(** The row carrying label [l] (the first one, should there be several). *)
Fixpoint at_label (l : Z) (df : frame) : option R :=
  match df with
  | [] => None
  | (l', r) :: t => if l =? l' then Some r else at_label l t
  end.

(** [df.reindex(target)]: a row per target label, taken from [df] where the
    label exists and all-null elsewhere; refused when [df] repeats a label
    and the target is not empty.  The cells are carried as they are: the
    upcast of an integer column that receives null rows is left out. *)
Definition reindex (nan : R) (df : frame) (target : list Z) : result frame :=
  if has_dup (index df) && negb (List.length target =? 0)%nat
  then Raise ValueError
  else Ok (map (fun l => (l, match at_label l df with
                             | Some r => r
                             | None => nan
                             end)) target).

Section Column.
Variable A : Type.

(** [df.loc[labels, col]] as a getter: absent labels read as null, and the
    lookup fails only if no label at all is present. *)
Definition loc_get (col : R -> option A) (df : frame) (labels : list Z)
  : result (list (option A)) :=
  if negb (List.length labels =? 0)%nat
     && forallb (fun l => negb (mem l (index df))) labels
  then Raise KeyError
  else Ok (map (fun l => match at_label l df with
                         | Some r => col r
                         | None => None
                         end) labels).

Fixpoint lookup (l : Z) (kvs : list (Z * A)) : option A :=
  match kvs with
  | [] => None
  | (l', v) :: t => if l =? l' then Some v else lookup l t
  end.

(** [df.loc[labels, col] = vals] with an array on the right: the rows
    labelled [labels] receive [vals], position for position. *)
Definition loc_set (upd : R -> A -> R) (df : frame) (labels : list Z)
    (vals : list A) : result frame :=
  if negb (forallb (fun l => mem l (index df)) labels) then Raise KeyError
  else if negb (List.length labels =? List.length vals)%nat
  then Raise ValueError
  else Ok (map (fun lr : Z * R =>
                  match lookup (fst lr) (combine labels vals) with
                  | Some v => (fst lr, upd (snd lr) v)
                  | None => lr
                  end) df).

(** [df.loc[labels, col] = v] with a scalar on the right. *)
Definition loc_set_scalar (upd : R -> A -> R) (df : frame) (labels : list Z)
    (v : A) : result frame :=
  loc_set upd df labels (repeat v (List.length labels)).

End Column.
End Labelled.

(** [series.shift(1)]: every value moves one row down, the first row is
    null. *)
Definition shift1 {A : Type} (l : list A) : list (option A) :=
  match l with
  | [] => []
  | _ :: _ => None :: map Some (removelast l)
  end.

(** [series.cumsum()]. *)
Fixpoint cumsum_from (acc : Z) (l : list Z) : list Z :=
  match l with
  | [] => []
  | x :: t => (acc + x) :: cumsum_from (acc + x) t
  end.

Definition cumsum (l : list Z) : list Z := cumsum_from 0 l.

(** [a != b] between a shifted cell and a cell; a null never equals. *)
Definition ne_cell (a : option Z) (b : Z) : bool :=
  match a with
  | None => true
  | Some x => negb (x =? b)
  end.

(** Keys of [groupby]: each distinct key once, in ascending order. *)
Definition key_eqb (a b : Z * Z) : bool :=
  (fst a =? fst b) && (snd a =? snd b).

Definition key_ltb (a b : Z * Z) : bool :=
  (fst a <? fst b) || ((fst a =? fst b) && (snd a <? snd b)).

Fixpoint insert_key (k : Z * Z) (l : list (Z * Z)) : list (Z * Z) :=
  match l with
  | [] => [k]
  | x :: t =>
      if key_eqb k x then l
      else if key_ltb k x then k :: l
      else x :: insert_key k t
  end.

Definition sorted_keys (ks : list (Z * Z)) : list (Z * Z) :=
  fold_right insert_key [] ks.

End Pandas.

(** ** preprocessing_module.py *)

Module preprocessing_module.
Import sanity_check_module Calendar Pandas.

Section Pipeline.

(** The numeric type of a signal value; the pipeline only moves such values
    around. *)
Variable V : Type.

(** [pd.to_datetime] on one string: the naive reading in seconds, or [None]
    where pandas raises [ValueError].  The texts pandas reads as [NaT]
    without raising are not among its arguments (see [nat_text]). *)
Variable to_datetime_scalar : string -> option Z.

(** [pd.to_numeric] on one string: the number (possibly [NaN]), or [None]
    where pandas raises [ValueError]. *)
Variable to_numeric_scalar : string -> option (option V).

(** A record of the subject table: columns [meas_sig_str], [status] and
    [date_time]. *)
Record Row : Type := mkRow {
  meas_sig_str : option V;
  status : cell;
  date_time : option Timestamp
}.

Definition row_any_null (r : Row) : bool :=
  is_null (meas_sig_str r) || is_null (status r) || is_null (date_time r).

#[export] Instance Rows_FrameLike : FrameLike (list Row) := {
  frame_len df := List.length df;
  frame_any_null df := existsb row_any_null df
}.

#[export] Instance Frame_FrameLike : FrameLike (frame Row) := {
  frame_len df := List.length df;
  frame_any_null df := existsb (fun lr => row_any_null (snd lr)) df
}.

(** *** Columns of a raw frame, by name *)

Fixpoint col_index (name : string) (cols : list string) : option nat :=
  match cols with
  | [] => None
  | c :: t =>
      if String.eqb name c then Some O
      else option_map S (col_index name t)
  end.

Definition remove_nth {A : Type} (n : nat) (l : list A) : list A :=
  firstn n l ++ skipn (S n) l.

(** [del df[name]]. *)
Definition del_column (name : string) (df : RawFrame) : result RawFrame :=
  match col_index name (raw_columns df) with
  | None => Raise KeyError
  | Some i =>
      Ok (mkRawFrame (remove_nth i (raw_columns df))
                     (map (remove_nth i) (raw_rows df)))
  end.

(** [df[name]]. *)
Definition get_column (name : string) (df : RawFrame) : result (list cell) :=
  match col_index name (raw_columns df) with
  | None => Raise KeyError
  | Some i => Ok (map (fun r => nth i r None) (raw_rows df))
  end.

Definition cell_is (text : string) (c : cell) : bool :=
  match c with
  | Some s => String.eqb s text
  | None => false
  end.

(** [pd.concat(dfs, ignore_index=True)] on frames that share one header:
    their rows one batch after the other; nothing to concatenate is an
    error. *)
Definition concat (dfs : list RawFrame) : result RawFrame :=
  match dfs with
  | [] => Raise ValueError
  | d :: _ => Ok (mkRawFrame (raw_columns d) (flat_map raw_rows dfs))
  end.

(** *** clean_up *)

Definition clean_up (subject_df : RawFrame) : result RawFrame :=
  subject_df <- del_column "name" subject_df ;;
  time <- get_column "time" subject_df ;;
  let mask := map (fun c => negb (cell_is "time" c)) time in
  let subject_df :=
    mkRawFrame (raw_columns subject_df)
               (map snd (filter fst (combine mask (raw_rows subject_df)))) in
  check_if_data_frame_is_valid (Some subject_df) ;;;
  Ok subject_df.

(** *** convert_to_local_time *)

(** [x.replace(old, new)] for a one-character [old]. *)
Fixpoint replace (old : ascii) (new : string) (x : string) : string :=
  match x with
  | EmptyString => EmptyString
  | String c x' =>
      if Ascii.eqb c old then (new ++ replace old new x')%string
      else String c (replace old new x')
  end.

Definition strip_ZT (x : string) : string :=
  replace "T" " " (replace "Z" EmptyString x).

(** [pd.to_datetime(series, utc=True)]: all strings or none. *)
Definition to_datetime (series : list string) : result (list Timestamp) :=
  mapM (fun x => match to_datetime_scalar x with
                 | Some t => Ok (mkTimestamp t None)
                 | None => Raise ValueError
                 end) series.

Definition convert_to_local_time (time_stamps : list string)
  : result (list Timestamp) :=
  let date_time := map strip_ZT time_stamps in
  date_time <- try_except (to_datetime date_time) ValueError
                 (Raise DateTimeColumnIsDefectiveError) ;;
  date_time <- mapM (tz_localize UTC) date_time ;;
  mapM (tz_convert US_Pacific) date_time.

(** *** read_data

    The csv files of the subject folder arrive as the frames [pd.read_csv]
    made of them, each with its file name, in the order of the listing.
    The second component of the result of the loop is what was printed. *)

Definition read_files_body (acc : list RawFrame * list string)
    (file : string * option RawFrame) : result (list RawFrame * list string) :=
  let file_dfs := fst acc in
  let printed := snd acc in
  let file_name := fst file in
  let file_df := snd file in
  try_except
    (check_file_df_content file_df ;;;
     match file_df with
     | Some d => Ok (file_dfs ++ [d], printed)
     | None => Raise FailedToReadCSVError
     end)
    FileIsNotCorrectDataFileError
    (Ok (file_dfs, printed ++ [file_name])).

Definition read_files (files : list (string * option RawFrame))
  : result (list RawFrame * list string) :=
  foldM read_files_body files ([], []).

Definition to_numeric (series : list cell) : result (list (option V)) :=
  mapM (fun c => match c with
                 | None => Ok None
                 | Some s =>
                     match to_numeric_scalar s with
                     | Some v => Ok v
                     | None => Raise ValueError
                     end
                 end) series.

Fixpoint zip_rows (ms : list (option V)) (ss : list cell)
    (ds : list Timestamp) : list Row :=
  match ms, ss, ds with
  | m :: ms', s :: ss', d :: ds' => mkRow m s (Some d) :: zip_rows ms' ss' ds'
  | _, _, _ => []
  end.

Definition read_data (files : list (string * option RawFrame))
  : result (list Row) :=
  loaded <- read_files files ;;
  let file_dfs := fst loaded in
  subject_df <- concat file_dfs ;;
  check_if_data_frame_is_valid (Some subject_df) ;;;
  subject_df <- clean_up subject_df ;;
  time <- get_column "time" subject_df ;;
  time <- mapM (fun c : cell => match c with
                                | Some s => Ok s
                                | None => Raise AttributeError
                                end) time ;;
  date_time <- convert_to_local_time time ;;
  subject_df <- del_column "time" subject_df ;;
  meas <- get_column "meas_sig_str" subject_df ;;
  meas <- to_numeric meas ;;
  status <- get_column "status" subject_df ;;
  let subject_df := zip_rows meas status date_time in
  check_if_data_frame_is_valid (Some subject_df) ;;;
  Ok subject_df.

(** *** num_seconds *)

Definition ts_lt (a b : option Timestamp) : bool :=
  match a, b with
  | Some x, Some y => ltb x y
  | _, _ => false
  end.

(** Python's built-in [min] over time stamps: the running minimum gives way
    only to an item that compares smaller, which a [NaT] never does and
    which nothing does against a [NaT]. *)
Definition py_min (l : list (option Timestamp)) : result (option Timestamp) :=
  match l with
  | [] => Raise ValueError
  | x :: t =>
      Ok (fold_left (fun cur item => if ts_lt item cur then item else cur) t x)
  end.

(** Python's built-in [max] over integers. *)
Definition py_max (l : list Z) : result Z :=
  match l with
  | [] => Raise ValueError
  | x :: t => Ok (fold_left Z.max t x)
  end.

Definition num_seconds (pandas_time_stamp : list (option Timestamp))
  : result (list Z) :=
  m <- py_min pandas_time_stamp ;;
  mapM (fun t => match t, m with
                 | Some a, Some b => Ok (seconds_between a b)
                 | _, _ => Raise ValueError
                 end) pandas_time_stamp.

(** *** fill_missing_time_stamps *)

Definition nan_row : Row := mkRow None None None.

Definition set_date_time (r : Row) (t : option Timestamp) : Row :=
  mkRow (meas_sig_str r) (status r) t.

Definition set_meas_sig_str (r : Row) (v : option V) : Row :=
  mkRow v (status r) (date_time r).

Definition fill_missing_time_stamps (full_subject_df : frame Row)
    (missing_secs : list Z) : result (frame Row) :=
  m <- py_min (map (fun lr => date_time (snd lr)) full_subject_df) ;;
  let missing_times :=
    map (fun s => option_map (fun t => add_seconds t s) m) missing_secs in
  loc_set set_date_time full_subject_df missing_secs missing_times.

(** *** fill_missing_signal_values *)

(** A row of the scratch table [sig_str_df]. *)
Record SigRow : Type := mkSigRow {
  sig_str : option V;
  newcol : Z;
  block : Z;
  block_length : Z;
  copy_sig : option V
}.

Definition set_newcol (r : SigRow) (v : Z) : SigRow :=
  mkSigRow (sig_str r) v (block r) (block_length r) (copy_sig r).

Definition set_block (r : SigRow) (v : Z) : SigRow :=
  mkSigRow (sig_str r) (newcol r) v (block_length r) (copy_sig r).

Definition set_block_length (r : SigRow) (v : Z) : SigRow :=
  mkSigRow (sig_str r) (newcol r) (block r) v (copy_sig r).

Definition set_copy_sig (r : SigRow) (v : option V) : SigRow :=
  mkSigRow (sig_str r) (newcol r) (block r) (block_length r) v.

(** [full_subject_df['meas_sig_str'].to_frame()]: a copy of the signal
    column under the same index; the other columns are added later and
    start here at the values those later assignments give them. *)
Definition to_frame (full_subject_df : frame Row) : frame SigRow :=
  map (fun lr => (fst lr, mkSigRow (meas_sig_str (snd lr)) 0 0 0 None))
      full_subject_df.

(** [df[col] = series] for a series on the index of [df]. *)
Definition set_column {R A : Type} (upd : R -> A -> R) (df : frame R)
    (vals : list A) : frame R :=
  map (fun p : (Z * R) * A => (fst (fst p), upd (snd (fst p)) (snd p)))
      (combine df vals).

(** [(newcol.shift(1) != newcol).astype(int).cumsum()]. *)
Definition change_points (nc : list Z) : list Z :=
  map (fun p : option Z * Z => if ne_cell (fst p) (snd p) then 1 else 0)
      (combine (shift1 nc) nc).

Definition block_ids (nc : list Z) : list Z := cumsum (change_points nc).

Definition key (r : SigRow) : Z * Z := (block r, newcol r).

(** [df.groupby(['block', 'newcol'])], as iterated: for each key in
    ascending order, the index of the rows that carry it. *)
Definition groupby (df : frame SigRow) : list ((Z * Z) * list Z) :=
  map (fun k =>
         (k, index (filter (fun lr : Z * SigRow => key_eqb (key (snd lr)) k)
                           df)))
      (sorted_keys (map (fun lr : Z * SigRow => key (snd lr)) df)).

Record FillState : Type := mkFillState {
  st_sig_str_df : frame SigRow;
  st_full_subject_df : frame Row;
  st_missing_seg_length : list nat
}.

(** The body of the loop over the groups. *)
Definition fill_block (missing_secs : list Z) (st : FillState)
    (grp : (Z * Z) * list Z) : result FillState :=
  let j := snd (fst grp) in
  let missing_block_inds := snd grp in
  let n := List.length missing_block_inds in
  if j =? -1000 then
    sig <- loc_set_scalar set_block_length (st_sig_str_df st)
             missing_block_inds (Z.of_nat n) ;;
    if (n <=? 5 * 60)%nat then
      let shape_filler_ind :=
        map (fun i => i - Z.of_nat n) missing_block_inds in
      filler <- loc_get sig_str sig shape_filler_ind ;;
      sig <- loc_set set_copy_sig sig missing_block_inds filler ;;
      vals <- loc_get copy_sig sig missing_secs ;;
      full <- loc_set set_meas_sig_str (st_full_subject_df st)
                missing_secs vals ;;
      Ok (mkFillState sig full (st_missing_seg_length st ++ [n]))
    else
      Ok (mkFillState sig (st_full_subject_df st)
                      (st_missing_seg_length st ++ [n]))
  else Ok st.

(** The scratch table as the loop finds it. *)
Definition make_sig_str_df (full_subject_df : frame Row)
    (missing_secs : list Z) : result (frame SigRow) :=
  let sig := to_frame full_subject_df in
  sig <- loc_set_scalar set_newcol sig missing_secs (-1000) ;;
  let nc := map (fun lr : Z * SigRow => newcol (snd lr)) sig in
  Ok (set_column set_block sig (block_ids nc)).

Definition fill_missing_signal_values (full_subject_df : frame Row)
    (missing_secs : list Z) : result (frame Row) :=
  sig <- make_sig_str_df full_subject_df missing_secs ;;
  let block_groups := groupby sig in
  st <- foldM (fill_block missing_secs) block_groups
          (mkFillState sig full_subject_df []) ;;
  Ok (st_full_subject_df st).

(** *** fill_missing_data *)

Definition fill_missing_data (subject_df : list Row) : result (frame Row) :=
  secs <- num_seconds (map date_time subject_df) ;;
  let subject_df : frame Row := combine secs subject_df in
  mx <- py_max (index subject_df) ;;
  (* [set(range(0, mx))] lists its elements in ascending order. *)
  let continuous_secs := range 0 mx in
  full_subject_df <- reindex nan_row subject_df continuous_secs ;;
  let missing_secs :=
    filter (fun s => negb (mem s secs)) continuous_secs in
  full_subject_df <-
    (if (List.length missing_secs =? 0)%nat then Ok subject_df
     else
       full_subject_df <-
         fill_missing_time_stamps full_subject_df missing_secs ;;
       fill_missing_signal_values full_subject_df missing_secs) ;;
  try_except (check_if_data_frame_is_valid (Some full_subject_df))
    DataFrameContainsNans (Ok tt) ;;;
  Ok full_subject_df.

(** *** divide_to_24_hour_periods *)

Definition day : Z := 24 * 3600.

(** [pd.to_datetime(str(ts.date()) + ' 12:00:00')]: noon of the calendar
    date the time stamp shows, as a naive value. *)
Definition noon_of_date (ts : Timestamp) : Timestamp :=
  mkTimestamp (date ts * secs_per_day + 12 * 3600) None.

(** The [while] loop, on the pair [(day_onsets, next_day_onset)]. *)
Fixpoint collect_onsets (fuel : nat) (end_of_time : option Timestamp)
    (acc : list Timestamp * Timestamp) : list Timestamp * Timestamp :=
  match fuel with
  | O => acc
  | S fuel' =>
      if ts_lt (Some (snd acc)) end_of_time
      then collect_onsets fuel' end_of_time
             (fst acc ++ [snd acc], add_seconds (snd acc) day)
      else acc
  end.

(** Iterations that suffice for the loop to reach its exit test. *)
Definition onsets_fuel (next_day_onset : Timestamp)
    (end_of_time : option Timestamp) : nat :=
  match end_of_time with
  | None => O
  | Some e => Z.to_nat ((value e - value next_day_onset) / day + 1)
  end.

(** One round of the [for] loop over [d]. *)
Definition assign_day (day_onsets : list Timestamp)
    (next_day_onset : Timestamp) (date_time : list (option Timestamp))
    (day_nums : list (option Z)) (d : nat) : list (option Z) :=
  let tomorrow :=
    if Z.of_nat d + 1 <? Z.of_nat (List.length day_onsets) - 1
    then nth (d + 1) day_onsets next_day_onset
    else next_day_onset in
  let onset := nth d day_onsets next_day_onset in
  map (fun p : option Timestamp * option Z =>
         match fst p with
         | Some t =>
             if geb t onset && ltb t tomorrow
             then Some (Z.of_nat d + 1) else snd p
         | None => snd p
         end)
      (combine date_time day_nums).

(** The onsets and the boundary the [while] loop stops at. *)
Definition day_onsets_of (full_subject_df : frame Row)
  : result (list Timestamp * Timestamp) :=
  let date_time := map (fun lr : Z * Row => (fst lr, date_time (snd lr)))
                       full_subject_df in
  first <- match lookup 0 date_time with
           | Some t => Ok t
           | None => Raise KeyError
           end ;;
  end_of_time <- match lookup (Z.of_nat (List.length date_time) - 1)
                         date_time with
                 | Some t => Ok t
                 | None => Raise KeyError
                 end ;;
  first <- match first with
           | Some t => Ok t
           | None => Raise ValueError
           end ;;
  let next_day_onset :=
    if hour first <? 12 then noon_of_date first
    else add_seconds (noon_of_date first) day in
  next_day_onset <- tz_localize US_Pacific next_day_onset ;;
  Ok (collect_onsets (onsets_fuel next_day_onset end_of_time) end_of_time
        ([first], next_day_onset)).

(** The result is the input table with the column [num_days] beside it. *)
Definition divide_to_24_hour_periods (full_subject_df : frame Row)
  : result (list ((Z * Row) * option Z)) :=
  onsets <- day_onsets_of full_subject_df ;;
  let day_onsets := fst onsets in
  let next_day_onset := snd onsets in
  let date_time := map (fun lr : Z * Row => date_time (snd lr))
                       full_subject_df in
  let day_nums :=
    fold_left (assign_day day_onsets next_day_onset date_time)
      (seq 0 (List.length day_onsets))
      (repeat None (List.length date_time)) in
  Ok (combine full_subject_df day_nums).

(** *** pre_process_subject_data.py

    [main] without its database collaborators: the path guard, then the
    three stages, then the row handed to the store. *)

Record OutRow : Type := mkOutRow {
  out_secs : Z;
  out_meas_sig_str : option V;
  out_status : cell;
  out_num_days : option Z;
  out_subject_num : Z
}.

Definition main (subject_num : Z) (subject_files_path : string)
    (files : list (string * option RawFrame)) : result (list OutRow) :=
  check_if_subject_num_matches_subject_files_path
    subject_num subject_files_path ;;;
  subject_data <- read_data files ;;
  subject_data <- fill_missing_data subject_data ;;
  subject_data <- divide_to_24_hour_periods subject_data ;;
  Ok (map (fun r : (Z * Row) * option Z =>
             mkOutRow (fst (fst r)) (meas_sig_str (snd (fst r)))
                      (status (snd (fst r))) (snd r) subject_num)
          subject_data).

End Pipeline.

End preprocessing_module.

(** ** Vocabulary of the statements *)

Module Vocabulary.
Import sanity_check_module Calendar Pandas preprocessing_module.

(** A batch whose header is the expected one. *)
Definition shape_ok (d : RawFrame) : bool :=
  if list_eq_dec string_dec (raw_columns d) expected_columns
  then true else false.

Definition keeps (file : string * option RawFrame) : bool :=
  match snd file with
  | Some d => shape_ok d
  | None => false
  end.

(** The batches that reach the concatenation, and the names printed for
    the others. *)
Definition survivors (files : list (string * option RawFrame))
  : list RawFrame :=
  flat_map (fun f => match snd f with
                     | Some d => if shape_ok d then [d] else []
                     | None => []
                     end) files.

Definition dropped (files : list (string * option RawFrame)) : list string :=
  flat_map (fun f => if keeps f then [] else [fst f]) files.

Definition passes_validity (file : string * option RawFrame) : Prop :=
  check_if_data_frame_is_valid (snd file) = Ok tt.

(** What [check_file_df_content] makes of a failed validity check. *)
Definition fatal_for (e : exn) : exn :=
  match e with
  | DataFrameIsNone => FailedToReadCSVError
  | _ => DataFileIsDefectiveError
  end.

(** [pd.to_numeric] restricted to unsigned decimal literals. *)
Definition to_numeric_digits (s : string) : option (option Z) :=
  match s with
  | EmptyString => None
  | _ => option_map Some (number 0 (list_ascii_of_string s))
  end.

(** A calendar reading and its text [yyyy-mm-ddThh:mm:ssZ]. *)
Record civil : Type := mkCivil {
  c_year : Z;
  c_month : Z;
  c_day : Z;
  c_hour : Z;
  c_minute : Z;
  c_second : Z
}.

(** The readings pandas can hold (its time stamps span 1677 to 2262). *)
Definition well_formed (c : civil) : bool :=
  (1678 <=? c_year c) && (c_year c <=? 2261)
  && valid_civil (c_year c) (c_month c) (c_day c)
       (c_hour c) (c_minute c) (c_second c)
  && (0 <=? c_hour c) && (0 <=? c_minute c) && (0 <=? c_second c).

Definition digit_char (d : Z) : ascii := ascii_of_nat (48 + Z.to_nat d).

Definition two_digits (n : Z) (rest : string) : string :=
  String (digit_char (n / 10)) (String (digit_char (n mod 10)) rest).

Definition four_digits (n : Z) (rest : string) : string :=
  String (digit_char (n / 1000))
    (String (digit_char ((n / 100) mod 10))
       (String (digit_char ((n / 10) mod 10))
          (String (digit_char (n mod 10)) rest))).

Definition format_iso (c : civil) : string :=
  four_digits (c_year c) (String "-"
    (two_digits (c_month c) (String "-"
      (two_digits (c_day c) (String "T"
        (two_digits (c_hour c) (String ":"
          (two_digits (c_minute c) (String ":"
            (two_digits (c_second c) (String "Z" EmptyString))))))))))).

Definition instant_of (c : civil) : Z :=
  civil_seconds (c_year c) (c_month c) (c_day c)
    (c_hour c) (c_minute c) (c_second c).


(** The first instant of 2007 on the US/Pacific clock (08:00 UTC on
    2007-01-01); from it on the daylight rule of [utcoffset] is the one in
    force. *)
Definition pacific_2007 : Z :=
  days_from_civil 2007 1 1 * secs_per_day + 8 * 3600.

(** *** Day numbers *)

(** A record at or after every upper bound the masks use is in no mask. *)
Definition beyond (next : Timestamp) (t : option Timestamp)
    (dn : option Z) : Prop :=
  forall t', t = Some t' -> value next <= value t' -> dn = None.

(** The test of one round of the [for] loop, and the round on one record. *)
Definition in_mask (onsets : list Timestamp) (next : Timestamp) (d : nat)
    (t : Timestamp) : bool :=
  geb t (nth d onsets next)
  && ltb t (if Z.of_nat d + 1 <? Z.of_nat (List.length onsets) - 1
            then nth (d + 1) onsets next else next).

Definition day_step (onsets : list Timestamp) (next : Timestamp)
    (t : option Timestamp) (cur : option Z) (d : nat) : option Z :=
  match t with
  | Some t' => if in_mask onsets next d t' then Some (Z.of_nat d + 1) else cur
  | None => cur
  end.

(** The block numbers, computed front to back. *)
Fixpoint blocks_from (prev : option Z) (acc : Z) (xs : list Z) : list Z :=
  match xs with
  | [] => []
  | x :: t =>
      let a := acc + (if ne_cell prev x then 1 else 0) in
      a :: blocks_from (Some x) a t
  end.

Section DenseVocabulary.
Variable V : Type.

(** A table given by its rows as a function of the label. *)
Definition tabulate {R : Type} (F : Z -> R) (L : list Z) : frame R :=
  map (fun l => (l, F l)) L.

Definition newcol_of (missing : list Z) (l : Z) : Z :=
  if mem l missing then -1000 else 0.

Definition block_of (n : Z) (missing : list Z) (l : Z) : Z :=
  nth (Z.to_nat l) (block_ids (map (newcol_of missing) (range 0 n))) 0.

Definition key_of (n : Z) (missing : list Z) (l : Z) : Z * Z :=
  (block_of n missing l, newcol_of missing l).

Definition group_with (n : Z) (missing : list Z) (k : Z * Z) : list Z :=
  filter (fun l => key_eqb (key_of n missing l) k) (range 0 n).

Definition group_of (n : Z) (missing : list Z) (l : Z) : list Z :=
  group_with n missing (key_of n missing l).

Definition source_at (n : Z) (rowf : Z -> Row V) (x : Z) : option V :=
  if mem x (range 0 n) then meas_sig_str (rowf x) else None.

Definition copy_sig_after (n : Z) (rowf : Z -> Row V) (missing : list Z)
    (done : list (Z * Z)) (l : Z) : option V :=
  if existsb (key_eqb (key_of n missing l)) done
     && (newcol_of missing l =? -1000)
     && (List.length (group_of n missing l) <=? 5 * 60)%nat
  then source_at n rowf
         (l - Z.of_nat (List.length (group_of n missing l)))
  else None.

Definition sig_state (n : Z) (rowf : Z -> Row V) (missing : list Z)
    (done : list (Z * Z)) (BL : Z -> Z) : frame (SigRow V) :=
  tabulate (fun l => mkSigRow (meas_sig_str (rowf l)) (newcol_of missing l)
                       (block_of n missing l) (BL l)
                       (copy_sig_after n rowf missing done l))
           (range 0 n).

Definition full_state (n : Z) (rowf : Z -> Row V) (missing : list Z)
    (done : list (Z * Z)) : frame (Row V) :=
  tabulate (fun l => if mem l missing
                     then set_meas_sig_str (rowf l)
                            (copy_sig_after n rowf missing done l)
                     else rowf l)
           (range 0 n).

Definition loop_invariant (n : Z) (rowf : Z -> Row V) (missing : list Z)
    (done : list (Z * Z)) (st : FillState V) : Prop :=
  exists BL,
    st_sig_str_df st = sig_state n rowf missing done BL
    /\ st_full_subject_df st = full_state n rowf missing done.

(** The signal column after the loop, row by row. *)
Definition filled_value (n : Z) (rowf : Z -> Row V) (missing : list Z)
    (l : Z) : option V :=
  if (List.length (group_of n missing l) <=? 5 * 60)%nat
  then source_at n rowf (l - Z.of_nat (List.length (group_of n missing l)))
  else None.

(** The input table under its index of seconds, read by label. *)
Definition row_at (secs : list Z) (subject_df : list (Row V)) (l : Z)
  : Row V :=
  match at_label l (combine secs subject_df) with
  | Some r => r
  | None => nan_row V
  end.

Definition measured_at (secs : list Z) (subject_df : list (Row V)) (l : Z)
  : option V :=
  meas_sig_str (row_at secs subject_df l).

Definition missing_secs_of (secs : list Z) (mx : Z) : list Z :=
  filter (fun s => negb (mem s secs)) (range 0 mx).

(** The dense table [fill_missing_data] returns when seconds are missing,
    given the rows [rowf] it has after the time stamps are filled. *)
Definition filled_frame (secs : list Z) (mx : Z) (rowf : Z -> Row V)
  : frame (Row V) :=
  tabulate (fun l => if mem l (missing_secs_of secs mx)
                     then set_meas_sig_str (rowf l)
                            (filled_value mx rowf (missing_secs_of secs mx) l)
                     else rowf l)
           (range 0 mx).

(** A missing block: [len] consecutive seconds from [m] on that the input
    lacks, with a recorded second on either side. *)
Definition missing_block (secs : list Z) (m len : Z) : Prop :=
  0 < len
  /\ In (m - 1) secs
  /\ (forall l, m <= l < m + len -> ~ In l secs)
  /\ In (m + len) secs.

End DenseVocabulary.

(** *** Vocabulary of the further properties *)

(** The last character of a text, if it has one. *)
Fixpoint last_char (s : string) : option ascii :=
  match s with
  | EmptyString => None
  | String c EmptyString => Some c
  | String _ s' => last_char s'
  end.

Definition is_digit (c : ascii) : bool :=
  (48 <=? nat_of_ascii c)%nat && (nat_of_ascii c <=? 57)%nat.

(** Whether a character occurs in a text. *)
Fixpoint occurs (c : ascii) (s : string) : bool :=
  match s with
  | EmptyString => false
  | String c' s' => Ascii.eqb c' c || occurs c s'
  end.

(** The day number the partition gives a time stamp, in closed form. *)
Definition day_number_of (first noon : Timestamp) (k : nat)
    (t : option Timestamp) : option Z :=
  match t with
  | None => None
  | Some t' =>
      if (value first <=? value t')
         && (value t' <? value noon + Z.of_nat k * day)
      then Some (if value t' <? value noon then 1
                 else (value t' - value noon) / day + 2)
      else None
  end.

(** A row that repeats the header: its [time] cell reads "time". *)
Definition repeats_header (r : list cell) : bool :=
  cell_is "time" (nth 1 r None).

(** The rows [clean_up] keeps, with their [name] cell still in front. *)
Definition data_rows (rows : list (list cell)) : list (list cell) :=
  filter (fun r => negb (repeats_header r)) rows.

(** The texts [pd.to_datetime] reads as [NaT] without raising: the empty
    text and the spellings pandas keeps in [nat_strings]. *)
Definition nat_text (s : string) : bool :=
  match s with
  | EmptyString => true
  | _ => existsb (String.eqb s)
           ["NaT"; "nat"; "NAT"; "nan"; "NaN"; "NAN"]%string
  end.

End Vocabulary.

(** ** Sample inputs *)

Module Samples.
Import sanity_check_module Calendar Pandas preprocessing_module Vocabulary.
Local Open Scope string_scope.

Definition good_batch : RawFrame :=
  mkRawFrame expected_columns
    [ [Some "s"; Some "2017-05-25T18:59:58Z"; Some "10"; Some "ok"];
      [Some "name"; Some "time"; Some "meas_sig_str"; Some "status"];
      [Some "s"; Some "2017-05-25T18:59:59Z"; Some "11"; Some "ok"] ].

Definition misshapen_batch : RawFrame :=
  mkRawFrame ["name"; "time"; "meas_sig_str"; "status"; "extra"]
    [ [Some "s"; Some "2017-05-25T19:00:00Z"; Some "12"; Some "ok"; Some "x"] ].

Definition empty_batch : RawFrame := mkRawFrame expected_columns [].

Definition batch_with_nan : RawFrame :=
  mkRawFrame expected_columns
    [ [Some "s"; Some "2017-05-25T19:00:01Z"; None; Some "ok"] ].

Definition read_sample := read_data to_datetime_iso to_numeric_digits.

Definition kept_and_dropped : list (string * option RawFrame) :=
  [("c.csv", Some misshapen_batch); ("a.csv", Some good_batch)].

Definition with_empty_batch : list (string * option RawFrame) :=
  [("a.csv", Some good_batch); ("b.csv", Some empty_batch)].

Definition with_nan_batch : list (string * option RawFrame) :=
  [("a.csv", Some good_batch); ("b.csv", Some batch_with_nan)].

Definition only_good_batch : list (string * option RawFrame) :=
  [("a.csv", Some good_batch)].

Definition only_misshapen_batch : list (string * option RawFrame) :=
  [("c.csv", Some misshapen_batch)].

Definition good_rows : list (Row Z) :=
  [ mkRow (Some 10) (Some "ok")
      (Some (mkTimestamp 1495738798 (Some US_Pacific)));
    mkRow (Some 11) (Some "ok")
      (Some (mkTimestamp 1495738799 (Some US_Pacific))) ].

(** A recording of one reading per second that starts at 11:59:58 on the
    US/Pacific clock (2017-05-25, daylight time). *)
Definition reading (t v : Z) : Row Z :=
  mkRow (Some v) (Some "ok") (Some (mkTimestamp t (Some US_Pacific))).

Definition ends_at_noon : list (Row Z) :=
  [ reading 1495738798 10; reading 1495738799 11; reading 1495738800 12 ].

Definition ends_at_noon_dense : frame (Row Z) :=
  [ (0, reading 1495738798 10); (1, reading 1495738799 11);
    (2, reading 1495738800 12) ].

Definition ends_after_noon : frame (Row Z) :=
  [ (0, reading 1495738798 10); (1, reading 1495738799 11);
    (2, reading 1495738800 12); (3, reading 1495738801 13) ].

(** Recordings with gaps; the readings are numbered by their second. *)
Definition start : Z := 1495738798.

Definition gap_at_second_1 : list (Row Z) :=
  [ reading start 10; reading (start + 2) 12 ].

Definition gap_after_first_second : list (Row Z) :=
  [ reading start 10; reading (start + 3) 13 ].

Definition repeated_second : list (Row Z) :=
  [ reading start 10; reading start 11; reading (start + 3) 13 ].

Definition gap_after_two_seconds : list (Row Z) :=
  [ reading start 10; reading (start + 1) 11; reading (start + 4) 14 ].

Definition gap_of_301_seconds : list (Row Z) :=
  [ reading start 10; reading (start + 302) 12 ].

(** The same gap after a second that was recorded twice. *)
Definition long_gap_after_repeated_second : list (Row Z) :=
  [ reading start 10; reading start 11; reading (start + 302) 12 ].


(** Two readings taken at one instant. *)
Definition one_instant : list (Row Z) :=
  [ reading start 10; reading start 11 ].

End Samples.

(* ================================================================== *)
(** * Properties *)

Section SubjectPathGuard.
Import sanity_check_module.
Open Scope string_scope.

Lemma substring_all (s : string) : substring 0 (String.length s) s = s.
Proof.
  induction s as [|c s IH]; simpl; [reflexivity | now rewrite IH].
Qed.

Lemma substring_append_right (p s : string) :
  substring (String.length p) (String.length s) (p ++ s) = s.
Proof.
  induction p as [|c p IH]; simpl.
  - apply substring_all.
  - exact IH.
Qed.

Lemma length_append (p s : string) :
  String.length (p ++ s) = (String.length p + String.length s)%nat.
Proof.
  induction p as [|c p IH]; simpl; [reflexivity | now rewrite IH].
Qed.

Lemma slice_last_append (p s : string) :
  slice_last (String.length s) (p ++ s) = s.
Proof.
  unfold slice_last. rewrite length_append.
  destruct (Nat.leb_spec (String.length s)
              (String.length p + String.length s)) as [_|Hlt]; [|lia].
  replace (String.length p + String.length s - String.length s)%nat
    with (String.length p) by lia.
  apply substring_append_right.
Qed.

(** C10. The guard [check_if_subject_num_matches_subject_files_path] accepts
    every path whose trailing characters are the decimal digits of
    [subject_num], whatever precedes them; in particular, for subject 2 it
    accepts a directory named for subject 12. *)
Theorem subject_path_guard_accepts_any_suffix :
  (forall (subject_num : Z) (prefix : string),
      check_if_subject_num_matches_subject_files_path
        subject_num (prefix ++ str subject_num) = Ok tt)
  /\ check_if_subject_num_matches_subject_files_path 2 "../data/Subject12"
     = Ok tt
  /\ check_if_subject_num_matches_subject_files_path 2 "../data/Subject2"
     = Ok tt
  /\ check_if_subject_num_matches_subject_files_path 2 "../data/Subject3"
     = Raise Subject_num_does_not_match_subject_files_path.
Proof.
  split; [|repeat split; reflexivity].
  intros n p. unfold check_if_subject_num_matches_subject_files_path.
  rewrite slice_last_append, String.eqb_refl. reflexivity.
Qed.

End SubjectPathGuard.

(** ** The loader *)

Section Loader.
Import sanity_check_module Calendar Pandas preprocessing_module Vocabulary.

Variable V : Type.
Variable to_datetime_scalar : string -> option Z.
Variable to_numeric_scalar : string -> option (option V).

Lemma passes_validity_some (f : string * option RawFrame) :
  passes_validity f -> exists d, snd f = Some d.
Proof.
  unfold passes_validity. destruct (snd f) as [d|]; simpl.
  - intros _. now exists d.
  - discriminate.
Qed.

Lemma read_files_body_valid acc f :
  passes_validity f ->
  read_files_body acc f
  = Ok (fst acc ++ survivors [f], snd acc ++ dropped [f]).
Proof.
  intros Hv. destruct (passes_validity_some Hv) as [d Hd].
  unfold read_files_body, check_file_df_content, survivors, dropped, keeps.
  unfold passes_validity in Hv. rewrite Hv. simpl. rewrite Hd.
  unfold shape_ok.
  destruct (list_eq_dec string_dec (raw_columns d) expected_columns); simpl.
  - now rewrite !app_nil_r.
  - now rewrite !app_nil_r.
Qed.

Lemma survivors_cons f files :
  survivors (f :: files) = survivors [f] ++ survivors files.
Proof. unfold survivors. simpl. now rewrite app_nil_r. Qed.

Lemma dropped_cons f files :
  dropped (f :: files) = dropped [f] ++ dropped files.
Proof. unfold dropped. simpl. now rewrite app_nil_r. Qed.

Lemma read_files_from files : forall acc,
  Forall passes_validity files ->
  foldM read_files_body files acc
  = Ok (fst acc ++ survivors files, snd acc ++ dropped files).
Proof.
  induction files as [|f files IH]; intros acc Hall.
  - simpl. rewrite !app_nil_r. now destruct acc.
  - inversion Hall as [|? ? Hf Hrest]; subst.
    cbn [foldM]. rewrite (read_files_body_valid acc Hf).
    cbn [bind]. rewrite IH by assumption. cbn [fst snd].
    rewrite (survivors_cons f files), (dropped_cons f files), !app_assoc.
    reflexivity.
Qed.

Lemma read_files_valid files :
  Forall passes_validity files ->
  read_files files = Ok (survivors files, dropped files).
Proof.
  intros H. unfold read_files. now rewrite read_files_from.
Qed.

Lemma foldM_app {A S : Type} (f : S -> A -> result S) l1 l2 s :
  foldM f (l1 ++ l2) s = (s' <- foldM f l1 s ;; foldM f l2 s').
Proof.
  revert s. induction l1 as [|x l1 IH]; intros s; simpl; [reflexivity|].
  destruct (f s x); simpl; [apply IH | reflexivity].
Qed.

Lemma validity_raises_three {F : Type} `{FrameLike F} (df : option F) e :
  check_if_data_frame_is_valid df = Raise e ->
  e = DataFrameIsNone \/ e = DataFrameIsEmpty \/ e = DataFrameContainsNans.
Proof.
  unfold check_if_data_frame_is_valid. destruct df as [d|].
  - destruct (frame_len d =? 0)%nat; [intros [= <-]; auto|].
    destruct (frame_any_null d); [intros [= <-]; auto | discriminate].
  - intros [= <-]; auto.
Qed.

Lemma read_files_body_invalid acc f e :
  check_if_data_frame_is_valid (snd f) = Raise e ->
  read_files_body acc f = Raise (fatal_for e).
Proof.
  intros He. unfold read_files_body, check_file_df_content.
  rewrite He.
  destruct (validity_raises_three _ He) as [-> | [-> | ->]]; reflexivity.
Qed.

Lemma read_files_invalid files bad rest e :
  Forall passes_validity files ->
  check_if_data_frame_is_valid (snd bad) = Raise e ->
  read_files (files ++ bad :: rest) = Raise (fatal_for e).
Proof.
  intros Hall He. unfold read_files.
  rewrite foldM_app, read_files_from by assumption. simpl.
  now rewrite (read_files_body_invalid _ _ He).
Qed.

Lemma survivors_filter_keeps files :
  survivors (filter keeps files) = survivors files.
Proof.
  induction files as [|f files IH]; [reflexivity|].
  rewrite (survivors_cons f files). cbn [filter].
  destruct (keeps f) eqn:Hk.
  - rewrite survivors_cons. now rewrite IH.
  - rewrite IH. unfold survivors, keeps in *. cbn [flat_map].
    destruct (snd f) as [d|]; [|reflexivity].
    now rewrite Hk.
Qed.

Lemma passes_validity_filter files :
  Forall passes_validity files -> Forall passes_validity (filter keeps files).
Proof.
  intros H. apply Forall_forall. intros f Hin.
  apply filter_In in Hin. destruct Hin as [Hin _].
  rewrite Forall_forall in H. now apply H.
Qed.

(** C7 (as amended). With every batch passing the validity check, the loop
    keeps exactly the batches with the expected header, prints the names of
    the others, and the run goes on as if only the kept batches had been
    given; when none is kept the run aborts.  A batch that fails the
    validity check (not imported, empty, or holding a null) is not dropped:
    it aborts the run with [FailedToReadCSVError] or
    [DataFileIsDefectiveError]. *)
Theorem read_data_drops_misshapen_batches_only
    (files : list (string * option RawFrame)) :
  Forall passes_validity files ->
  read_files files = Ok (survivors files, dropped files)
  /\ read_data to_datetime_scalar to_numeric_scalar files
     = read_data to_datetime_scalar to_numeric_scalar (filter keeps files)
  /\ (survivors files = [] ->
      exists e, read_data to_datetime_scalar to_numeric_scalar files
                = Raise e)
  /\ (forall bad rest e,
        check_if_data_frame_is_valid (snd bad) = Raise e ->
        (fatal_for e = FailedToReadCSVError
         \/ fatal_for e = DataFileIsDefectiveError)
        /\ read_files (files ++ bad :: rest) = Raise (fatal_for e)
        /\ read_data to_datetime_scalar to_numeric_scalar
             (files ++ bad :: rest) = Raise (fatal_for e)).
Proof.
  intros Hall. split; [now apply read_files_valid|].
  split.
  { unfold read_data.
    rewrite (read_files_valid Hall).
    rewrite (read_files_valid (passes_validity_filter Hall)).
    simpl. now rewrite survivors_filter_keeps. }
  split.
  { intros Hnone. exists ValueError. unfold read_data.
    rewrite (read_files_valid Hall). simpl. now rewrite Hnone. }
  intros bad rest e He. split.
  { destruct (validity_raises_three _ He) as [-> | [-> | ->]]; simpl; auto. }
  split; [now apply read_files_invalid|].
  unfold read_data. now rewrite (read_files_invalid _ _ Hall He).
Qed.

End Loader.

Section LoaderSamples.
Import sanity_check_module Calendar Pandas preprocessing_module Vocabulary.
Import Samples.

(** C7, the claim as stated fails.  The good batch alone is loaded, yet the
    same batch followed by an empty one, or by one holding a null, aborts
    the run instead of going on without it; and a run in which no batch
    survives does not end in [DataFrameIsEmpty]. *)
Lemma invalid_batch_is_fatal_not_dropped :
  read_sample only_good_batch = Ok good_rows
  /\ read_sample with_empty_batch = Raise DataFileIsDefectiveError
  /\ read_sample with_nan_batch = Raise DataFileIsDefectiveError
  /\ read_sample only_misshapen_batch <> Raise DataFrameIsEmpty.
Proof.
  repeat split; try reflexivity.
  vm_compute. discriminate.
Qed.

Lemma read_data_drops_misshapen_batches_only_witness :
  Forall passes_validity kept_and_dropped
  /\ read_files kept_and_dropped = Ok ([good_batch], ["c.csv"%string])
  /\ read_sample kept_and_dropped = read_sample only_good_batch.
Proof.
  assert (H : Forall passes_validity kept_and_dropped)
    by (repeat constructor).
  split; [exact H|].
  pose proof (read_data_drops_misshapen_batches_only
                to_datetime_iso to_numeric_digits H) as [H1 [H2 _]].
  split; [exact H1 | exact H2].
Defined.

End LoaderSamples.

(** ** Time normalization *)

Section TimeNormalizer.
Import sanity_check_module Calendar Pandas preprocessing_module Vocabulary.

Variable to_datetime_scalar : string -> option Z.

Lemma mapM_ok {A B : Type} (f : A -> result B) (g : A -> B) (l : list A) :
  (forall x, In x l -> f x = Ok (g x)) -> mapM f l = Ok (map g l).
Proof.
  induction l as [|x l IH]; intros H; simpl; [reflexivity|].
  rewrite (H x) by now left. simpl.
  rewrite IH by (intros y Hy; apply H; now right). reflexivity.
Qed.

Lemma mapM_raise {A B : Type} (f : A -> result B) (e : exn) (l : list A) :
  (forall x, In x l -> f x = Raise e \/ exists y, f x = Ok y) ->
  (exists x, In x l /\ f x = Raise e) ->
  mapM f l = Raise e.
Proof.
  induction l as [|x l IH]; intros Hall [x0 [Hin Hx0]]; [destruct Hin|].
  simpl. destruct (Hall x (or_introl eq_refl)) as [Hx | [y Hy]].
  - now rewrite Hx.
  - rewrite Hy. simpl. rewrite IH; [reflexivity | |].
    + intros z Hz. apply Hall. now right.
    + destruct Hin as [<- | Hin]; [congruence|]. now exists x0.
Qed.

Lemma to_datetime_all (series : list string) (instants : list Z) :
  Forall2 (fun x t => to_datetime_scalar x = Some t) series instants ->
  to_datetime to_datetime_scalar series
  = Ok (map (fun t => mkTimestamp t None) instants).
Proof.
  unfold to_datetime.
  induction 1 as [|x t xs ts Hx _ IH]; simpl; [reflexivity|].
  rewrite Hx. simpl. now rewrite IH.
Qed.

Lemma to_datetime_defective (series : list string) (x : string) :
  In x series -> to_datetime_scalar x = None ->
  to_datetime to_datetime_scalar series = Raise ValueError.
Proof.
  intros Hin Hx. unfold to_datetime. apply mapM_raise.
  - intros y _. destruct (to_datetime_scalar y) as [t|]; eauto.
  - exists x. split; [assumption|]. now rewrite Hx.
Qed.

(** C8. One raw time stamp that the parser refuses makes
    [convert_to_local_time] raise [DateTimeColumnIsDefectiveError]: the
    whole column is refused, whatever the other rows hold, and no converted
    value is returned. *)
Theorem convert_to_local_time_defective
    (time_stamps : list string) (x : string) :
  In x time_stamps ->
  to_datetime_scalar (strip_ZT x) = None ->
  convert_to_local_time to_datetime_scalar time_stamps
  = Raise DateTimeColumnIsDefectiveError.
Proof.
  intros Hin Hx. unfold convert_to_local_time.
  rewrite (@to_datetime_defective (map strip_ZT time_stamps) (strip_ZT x)).
  - reflexivity.
  - now apply in_map.
  - assumption.
Qed.

Lemma convert_parsed (time_stamps : list string) (instants : list Z) :
  Forall2 (fun x t => to_datetime_scalar (strip_ZT x) = Some t)
          time_stamps instants ->
  convert_to_local_time to_datetime_scalar time_stamps
  = Ok (map (fun t => mkTimestamp t (Some US_Pacific)) instants).
Proof.
  intros H. unfold convert_to_local_time.
  rewrite (@to_datetime_all (map strip_ZT time_stamps) instants).
  - simpl.
    rewrite (mapM_ok (tz_localize UTC)
               (fun ts => mkTimestamp (value ts) (Some UTC))).
    + simpl.
      rewrite (mapM_ok (tz_convert US_Pacific)
                 (fun ts => mkTimestamp (value ts) (Some US_Pacific))).
      * now rewrite !map_map.
      * intros ts Hts. rewrite in_map_iff in Hts.
        destruct Hts as [ts' [<- _]]. reflexivity.
    + intros ts Hts. rewrite in_map_iff in Hts.
      destruct Hts as [t [<- _]]. reflexivity.
  - clear -H. induction H; simpl; constructor; assumption.
Qed.

End TimeNormalizer.

(** ** The text of a time stamp *)

Section IsoText.
Import sanity_check_module Calendar Pandas preprocessing_module Vocabulary.


Lemma digit_range (d : Z) :
  0 <= d < 10 ->
  d = 0 \/ d = 1 \/ d = 2 \/ d = 3 \/ d = 4 \/ d = 5 \/ d = 6 \/ d = 7
  \/ d = 8 \/ d = 9.
Proof. lia. Qed.

Ltac each_digit H :=
  apply digit_range in H;
  repeat (destruct H as [H | H]; [subst; reflexivity|]); subst; reflexivity.

Lemma digit_of_digit_char (d : Z) : 0 <= d < 10 -> digit (digit_char d) = Some d.
Proof. intros H. each_digit H. Qed.

Lemma digit_char_not_Z (d : Z) :
  0 <= d < 10 -> Ascii.eqb (digit_char d) "Z" = false.
Proof. intros H. each_digit H. Qed.

Lemma digit_char_not_T (d : Z) :
  0 <= d < 10 -> Ascii.eqb (digit_char d) "T" = false.
Proof. intros H. each_digit H. Qed.

Lemma replace_cons_ne (old : ascii) (new : string) (c : ascii) (rest : string) :
  Ascii.eqb c old = false ->
  replace old new (String c rest) = String c (replace old new rest).
Proof. intros H. cbn [replace]. now rewrite H. Qed.

Lemma replace_cons_eq (old : ascii) (new : string) (rest : string) :
  replace old new (String old rest) = (new ++ replace old new rest)%string.
Proof. cbn [replace]. now rewrite Ascii.eqb_refl. Qed.

Lemma well_formed_bounds (c : civil) :
  well_formed c = true ->
  1678 <= c_year c <= 2261 /\ 1 <= c_month c <= 12 /\ 1 <= c_day c <= 31
  /\ 0 <= c_hour c < 24 /\ 0 <= c_minute c < 60 /\ 0 <= c_second c < 60.
Proof.
  intros Hwf. unfold well_formed, valid_civil in Hwf.
  repeat (apply andb_prop in Hwf; destruct Hwf as [Hwf ?]).
  repeat match goal with
         | H : (_ <=? _) = true |- _ => apply Z.leb_le in H
         | H : (_ <? _) = true |- _ => apply Z.ltb_lt in H
         | H : _ && _ = true |- _ => apply andb_prop in H; destruct H
         end.
  assert (days_in_month (c_year c) (c_month c) <= 31).
  { unfold days_in_month.
    destruct (c_month c =? 2); [destruct (is_leap _); lia|].
    destruct (_ || _); lia. }
  lia.
Qed.

Ltac digit_bound := Z.div_mod_to_equations; lia.

Lemma strip_format (c : civil) :
  well_formed c = true ->
  strip_ZT (format_iso c)
  = four_digits (c_year c) (String "-"
      (two_digits (c_month c) (String "-"
        (two_digits (c_day c) (String " "
          (two_digits (c_hour c) (String ":"
            (two_digits (c_minute c) (String ":"
              (two_digits (c_second c) EmptyString)))))))))).
Proof.
  intros Hwf. apply well_formed_bounds in Hwf.
  unfold strip_ZT, format_iso, four_digits, two_digits.
  repeat first
    [ rewrite replace_cons_eq
    | rewrite replace_cons_ne
        by first [ reflexivity
                 | apply digit_char_not_Z; digit_bound
                 | apply digit_char_not_T; digit_bound ] ].
  reflexivity.
Qed.

Lemma number_two (a b : Z) :
  0 <= a < 10 -> 0 <= b < 10 ->
  number 0 [digit_char a; digit_char b] = Some (a * 10 + b).
Proof.
  intros Ha Hb. cbn [number].
  rewrite !digit_of_digit_char by assumption. reflexivity.
Qed.

Lemma number_four (a b c d : Z) :
  0 <= a < 10 -> 0 <= b < 10 -> 0 <= c < 10 -> 0 <= d < 10 ->
  number 0 [digit_char a; digit_char b; digit_char c; digit_char d]
  = Some (((a * 10 + b) * 10 + c) * 10 + d).
Proof.
  intros Ha Hb Hc Hd. cbn [number].
  rewrite !digit_of_digit_char by assumption. reflexivity.
Qed.

Lemma to_datetime_iso_format (c : civil) :
  well_formed c = true ->
  to_datetime_iso (strip_ZT (format_iso c)) = Some (instant_of c).
Proof.
  intros Hwf. rewrite (strip_format c Hwf).
  pose proof (well_formed_bounds c Hwf) as Hb.
  unfold to_datetime_iso, four_digits, two_digits.
  cbn [list_ascii_of_string Ascii.eqb Bool.eqb andb].
  rewrite number_four by digit_bound.
  rewrite !number_two by digit_bound.
  replace (((c_year c / 1000 * 10 + c_year c / 100 mod 10) * 10
            + c_year c / 10 mod 10) * 10 + c_year c mod 10)
    with (c_year c) by digit_bound.
  replace (c_month c / 10 * 10 + c_month c mod 10)
    with (c_month c) by digit_bound.
  replace (c_day c / 10 * 10 + c_day c mod 10)
    with (c_day c) by digit_bound.
  replace (c_hour c / 10 * 10 + c_hour c mod 10)
    with (c_hour c) by digit_bound.
  replace (c_minute c / 10 * 10 + c_minute c mod 10)
    with (c_minute c) by digit_bound.
  replace (c_second c / 10 * 10 + c_second c mod 10)
    with (c_second c) by digit_bound.
  unfold well_formed in Hwf.
  repeat (apply andb_prop in Hwf; destruct Hwf as [Hwf ?]).
  match goal with H : valid_civil _ _ _ _ _ _ = true |- _ => rewrite H end.
  reflexivity.
Qed.



End IsoText.

Section TimeNormalizerSamples.
Import sanity_check_module Calendar Pandas preprocessing_module Vocabulary.
Import Samples.
Open Scope string_scope.


Lemma convert_to_local_time_defective_witness :
  In "2017-05-25 23.59.59" ["2017-05-25T23:59:58Z"; "2017-05-25 23.59.59"]
  /\ to_datetime_iso (strip_ZT "2017-05-25 23.59.59") = None
  /\ convert_to_local_time to_datetime_iso
       ["2017-05-25T23:59:58Z"; "2017-05-25 23.59.59"]
     = Raise DateTimeColumnIsDefectiveError.
Proof.
  split; [right; left; reflexivity|].
  split; [reflexivity|].
  apply (@convert_to_local_time_defective to_datetime_iso
           ["2017-05-25T23:59:58Z"; "2017-05-25 23.59.59"]
           "2017-05-25 23.59.59").
  - right; left; reflexivity.
  - reflexivity.
Defined.

End TimeNormalizerSamples.

(** ** Day onsets *)

Section DayOnsets.
Import sanity_check_module Calendar Pandas preprocessing_module Vocabulary.

Variable V : Type.

Lemma utcoffset_pacific_same_day (D s : Z) :
  10 * 3600 <= s < secs_per_day ->
  utcoffset US_Pacific (D * secs_per_day + s)
  = if (first_sunday_on_or_after (days_from_civil (year_of_day D) 3 8) <=? D)
       && (D <? first_sunday_on_or_after
                  (days_from_civil (year_of_day D) 11 1))
    then (-7) * 3600 else (-8) * 3600.
Proof.
  intros Hs. unfold utcoffset.
  assert (Hday : (D * secs_per_day + s) / secs_per_day = D).
  { unfold secs_per_day in *. Z.div_mod_to_equations. lia. }
  rewrite Hday. unfold dst_start, dst_end.
  set (S := first_sunday_on_or_after _).
  set (E := first_sunday_on_or_after _).
  unfold secs_per_day in *.
  destruct (Z.leb_spec (S * 86400 + 10 * 3600) (D * 86400 + s));
  destruct (Z.ltb_spec (D * 86400 + s) (E * 86400 + 9 * 3600));
  destruct (Z.leb_spec S D); destruct (Z.ltb_spec D E);
  try reflexivity; lia.
Qed.

(** Noon of any calendar day exists exactly once on the US/Pacific clock. *)
Lemma noon_localizes (D : Z) :
  exists t,
    tz_localize US_Pacific (mkTimestamp (D * secs_per_day + 12 * 3600) None)
    = Ok (mkTimestamp t (Some US_Pacific))
    /\ t + utcoffset US_Pacific t = D * secs_per_day + 12 * 3600.
Proof.
  unfold tz_localize. cbn [tz value].
  replace (D * secs_per_day + 12 * 3600 + 8 * 3600)
    with (D * secs_per_day + 20 * 3600) by lia.
  replace (D * secs_per_day + 12 * 3600 + 7 * 3600)
    with (D * secs_per_day + 19 * 3600) by lia.
  rewrite !utcoffset_pacific_same_day by (unfold secs_per_day; lia).
  destruct ((first_sunday_on_or_after (days_from_civil (year_of_day D) 3 8)
             <=? D)
            && (D <? first_sunday_on_or_after
                       (days_from_civil (year_of_day D) 11 1))) eqn:Hc.
  - exists (D * secs_per_day + 19 * 3600). split; [reflexivity|].
    rewrite utcoffset_pacific_same_day by (unfold secs_per_day; lia).
    rewrite Hc. lia.
  - exists (D * secs_per_day + 20 * 3600). split; [reflexivity|].
    rewrite utcoffset_pacific_same_day by (unfold secs_per_day; lia).
    rewrite Hc. lia.
Qed.

Lemma utcoffset_pacific_range (t : Z) :
  utcoffset US_Pacific t = (-7) * 3600 \/ utcoffset US_Pacific t = (-8) * 3600.
Proof. unfold utcoffset. destruct (_ && _); auto. Qed.

(** From 02:00 PST on, a UTC day shows one offset. *)
Lemma utcoffset_pacific_afternoon (D s s' : Z) :
  10 * 3600 <= s < secs_per_day -> 10 * 3600 <= s' < secs_per_day ->
  utcoffset US_Pacific (D * secs_per_day + s)
  = utcoffset US_Pacific (D * secs_per_day + s').
Proof.
  intros Hs Hs'. now rewrite !utcoffset_pacific_same_day.
Qed.

Lemma noon_instant (D : Z) :
  exists t,
    tz_localize US_Pacific (mkTimestamp (D * secs_per_day + 12 * 3600) None)
    = Ok (mkTimestamp t (Some US_Pacific))
    /\ t = D * secs_per_day + 12 * 3600
           - utcoffset US_Pacific (D * secs_per_day + 19 * 3600).
Proof.
  destruct (noon_localizes D) as [t [Hloc Hwall]].
  exists t. split; [exact Hloc|].
  assert (Ht : 19 * 3600 <= t - D * secs_per_day <= 20 * 3600).
  { destruct (utcoffset_pacific_range t) as [E | E]; rewrite E in Hwall; lia. }
  rewrite (@utcoffset_pacific_afternoon D (19 * 3600) (t - D * secs_per_day))
    by (unfold secs_per_day in *; lia).
  replace (D * secs_per_day + (t - D * secs_per_day)) with t by lia.
  lia.
Qed.

(** The first noon boundary lies after a US/Pacific start, at most 25 hours
    later. *)
Lemma first_noon_after_start (first : Timestamp) (t : Z) :
  tz first = Some US_Pacific ->
  tz_localize US_Pacific
    (if hour first <? 12 then noon_of_date first
     else add_seconds (noon_of_date first) day)
  = Ok (mkTimestamp t (Some US_Pacific)) ->
  value first < t <= value first + 25 * 3600.
Proof.
  intros Htz Hloc.
  set (D := date first + (if hour first <? 12 then 0 else 1)).
  destruct (noon_instant D) as [t' [Hloc' Ht']].
  assert (Harg : (if hour first <? 12 then noon_of_date first
                  else add_seconds (noon_of_date first) day)
                 = mkTimestamp (D * secs_per_day + 12 * 3600) None).
  { unfold D, noon_of_date, add_seconds, day. cbn [value tz].
    destruct (hour first <? 12); f_equal; unfold secs_per_day; lia. }
  rewrite Harg, Hloc' in Hloc. injection Hloc as <-. subst t'.
  unfold D, hour, date, wall in *. rewrite Htz in *.
  set (v := value first) in *. set (o := utcoffset US_Pacific v) in *.
  assert (Ho : o = (-7) * 3600 \/ o = (-8) * 3600)
    by apply utcoffset_pacific_range.
  pose proof (Z.div_mod (v + o) secs_per_day ltac:(unfold secs_per_day; lia))
    as Hdm.
  pose proof (Z.mod_pos_bound (v + o) secs_per_day
                ltac:(unfold secs_per_day; lia)) as Hr.
  set (Dw := (v + o) / secs_per_day) in *.
  set (r := (v + o) mod secs_per_day) in *.
  destruct (Z.ltb_spec (r / 3600) 12) as [Hh | Hh].
  - assert (Hr12 : r < 12 * 3600).
    { destruct (Z.lt_ge_cases r (12 * 3600)) as [H | H]; [exact H|].
      assert (12 <= r / 3600) by (apply Z.div_le_lower_bound; lia). lia. }
    rewrite Z.add_0_r.
    destruct (utcoffset_pacific_range (Dw * secs_per_day + 19 * 3600))
      as [E | E]; rewrite E.
    + (* noon in daylight time *)
      destruct Ho as [Ho | Ho]; [unfold secs_per_day in *; lia|].
      destruct (Z.lt_ge_cases (r + 8 * 3600) (19 * 3600)) as [Hs | Hs];
        [unfold secs_per_day in *; lia|].
      exfalso.
      assert (Hv : v = Dw * secs_per_day + (r + 8 * 3600)) by lia.
      assert (Ho' : utcoffset US_Pacific v = (-7) * 3600).
      { rewrite Hv, <- E. apply utcoffset_pacific_afternoon;
          unfold secs_per_day in *; lia. }
      fold o in Ho'. lia.
    + unfold secs_per_day in *. lia.
  - assert (Hr12 : 12 * 3600 <= r).
    { destruct (Z.lt_ge_cases r (12 * 3600)) as [H | H]; [|exact H].
      assert (r / 3600 < 12) by (apply Z.div_lt_upper_bound; lia). lia. }
    destruct (utcoffset_pacific_range ((Dw + 1) * secs_per_day + 19 * 3600))
      as [E | E]; rewrite E; unfold secs_per_day in *; lia.
Qed.

Lemma add_seconds_0 (ts : Timestamp) : add_seconds ts 0 = ts.
Proof. destruct ts. unfold add_seconds. cbn. now rewrite Z.add_0_r. Qed.

Lemma add_seconds_add (ts : Timestamp) (a b : Z) :
  add_seconds (add_seconds ts a) b = add_seconds ts (a + b).
Proof. unfold add_seconds. cbn. f_equal. lia. Qed.

(** The [while] loop: with the fuel [day_onsets_of] gives it, it stops at
    its own exit test, having appended the boundaries before [last]. *)
Lemma collect_onsets_spec (last : Timestamp) :
  forall (fuel : nat) (acc : list Timestamp) (next : Timestamp),
    (value last - value next) / day + 1 <= Z.of_nat fuel ->
    exists k : nat,
      collect_onsets fuel (Some last) (acc, next)
      = (acc ++ map (fun i => add_seconds next (Z.of_nat i * day)) (seq 0 k),
         add_seconds next (Z.of_nat k * day))
      /\ (forall i, (i < k)%nat ->
            value next + Z.of_nat i * day < value last)
      /\ value last <= value next + Z.of_nat k * day.
Proof.
  induction fuel as [|fuel IH]; intros acc next Hfuel.
  - exists O. cbn [collect_onsets seq map]. rewrite app_nil_r.
    rewrite add_seconds_0. repeat split; [intros i Hi; lia|].
    unfold day in *. Z.div_mod_to_equations. lia.
  - cbn [collect_onsets ts_lt snd fst]. unfold ltb.
    destruct (Z.ltb_spec (value next) (value last)) as [Hlt | Hge].
    + destruct (IH (acc ++ [next]) (add_seconds next day)) as [k [Heq [Hlo Hhi]]].
      { cbn [add_seconds value]. unfold day in *.
        Z.div_mod_to_equations. lia. }
      exists (S k). rewrite Heq. cbn [seq map]. split.
      { f_equal.
        - rewrite <- app_assoc. cbn [app]. f_equal.
          rewrite add_seconds_0. f_equal.
          rewrite <- seq_shift, map_map. apply map_ext. intros i.
          rewrite add_seconds_add. f_equal. lia.
        - rewrite add_seconds_add. f_equal. lia. }
      cbn [add_seconds value] in Hlo, Hhi. split.
      * intros [|i] Hi; [lia|].
        specialize (Hlo i ltac:(lia)). lia.
      * lia.
    + exists O. cbn [seq map]. rewrite app_nil_r, add_seconds_0.
      repeat split; [intros i Hi; lia | lia].
Qed.

(** The onsets in closed form. *)
Lemma day_onsets_of_eq (full : frame (Row V)) (first last : Timestamp) :
  lookup 0 (map (fun lr : Z * Row V => (fst lr, date_time (snd lr))) full)
  = Some (Some first) ->
  lookup (Z.of_nat (List.length full) - 1)
         (map (fun lr : Z * Row V => (fst lr, date_time (snd lr))) full)
  = Some (Some last) ->
  exists (t : Z) (k : nat),
    tz_localize US_Pacific
      (if hour first <? 12 then noon_of_date first
       else add_seconds (noon_of_date first) day)
    = Ok (mkTimestamp t (Some US_Pacific))
    /\ t + utcoffset US_Pacific t
       = (date first + (if hour first <? 12 then 0 else 1)) * secs_per_day
         + 12 * 3600
    /\ day_onsets_of full
       = Ok (first :: map (fun i => add_seconds
                                      (mkTimestamp t (Some US_Pacific))
                                      (Z.of_nat i * day))
                          (seq 0 k),
             add_seconds (mkTimestamp t (Some US_Pacific))
                         (Z.of_nat k * day))
    /\ (forall i, (i < k)%nat -> t + Z.of_nat i * day < value last)
    /\ value last <= t + Z.of_nat k * day.
Proof.
  intros Hfirst Hlast.
  destruct (noon_localizes
              (date first + (if hour first <? 12 then 0 else 1)))
    as [t [Hloc Hwall]].
  set (noon := mkTimestamp t (Some US_Pacific)).
  destruct (collect_onsets_spec last
              (onsets_fuel noon (Some last)) [first] noon)
    as [k [Hloop [Hlo Hhi]]].
  { unfold onsets_fuel. lia. }
  assert (Hnext :
    tz_localize US_Pacific
      (if hour first <? 12 then noon_of_date first
       else add_seconds (noon_of_date first) day)
    = Ok noon).
  { fold noon in Hloc. rewrite <- Hloc. f_equal.
    unfold noon_of_date, add_seconds, day. cbn [value tz].
    destruct (hour first <? 12); f_equal; unfold secs_per_day; lia. }
  exists t, k. split; [exact Hnext|]. split; [exact Hwall|].
  split; [|split; assumption].
  unfold day_onsets_of. rewrite Hfirst. cbn [bind].
  rewrite length_map, Hlast. cbn [bind].
  rewrite Hnext. cbn [bind]. rewrite Hloop. reflexivity.
Qed.


End DayOnsets.

(** ** Day numbers *)

Section DayNumbers.
Import sanity_check_module Calendar Pandas preprocessing_module Vocabulary.
Variable V : Type.

Lemma length_assign_day (onsets : list Timestamp) (next : Timestamp)
    (dts : list (option Timestamp)) (dn : list (option Z)) (d : nat) :
  List.length dn = List.length dts ->
  List.length (assign_day onsets next dts dn d) = List.length dts.
Proof.
  intros H. unfold assign_day. rewrite length_map, length_combine. lia.
Qed.

Lemma length_assign_days (onsets : list Timestamp) (next : Timestamp)
    (dts : list (option Timestamp)) (ds : list nat) :
  forall dn, List.length dn = List.length dts ->
    List.length (fold_left (assign_day onsets next dts) ds dn)
    = List.length dts.
Proof.
  induction ds as [|d ds IH]; intros dn H; [exact H|].
  cbn [fold_left]. apply IH. now apply length_assign_day.
Qed.

Lemma assign_day_beyond (onsets : list Timestamp) (next : Timestamp)
    (dts : list (option Timestamp)) (dn : list (option Z)) (d : nat) :
  (forall o, In o onsets -> value o <= value next) ->
  Forall2 (beyond next) dts dn ->
  Forall2 (beyond next) dts (assign_day onsets next dts dn d).
Proof.
  intros Hons H. unfold assign_day.
  set (tomorrow := if Z.of_nat d + 1 <? Z.of_nat (List.length onsets) - 1
                   then nth (d + 1) onsets next else next).
  assert (Htom : value tomorrow <= value next).
  { unfold tomorrow. destruct (_ <? _); [|lia].
    destruct (nth_in_or_default (d + 1) onsets next) as [Hin | ->];
      [now apply Hons | lia]. }
  clearbody tomorrow.
  induction H as [|t x dts' dn' Htx _ IH]; [constructor|].
  cbn [combine map fst snd]. constructor; [|exact IH].
  intros t' -> Hge.
  unfold ltb. destruct (Z.ltb_spec (value t') (value tomorrow)); [lia|].
  rewrite andb_false_r. now apply (Htx t').
Qed.

Lemma assign_days_beyond (onsets : list Timestamp) (next : Timestamp)
    (dts : list (option Timestamp)) (ds : list nat) :
  (forall o, In o onsets -> value o <= value next) ->
  forall dn, Forall2 (beyond next) dts dn ->
    Forall2 (beyond next) dts
            (fold_left (assign_day onsets next dts) ds dn).
Proof.
  intros Hons. induction ds as [|d ds IH]; intros dn H; [exact H|].
  cbn [fold_left]. apply IH. now apply assign_day_beyond.
Qed.

Lemma Forall2_repeat_none (next : Timestamp) (dts : list (option Timestamp)) :
  Forall2 (beyond next) dts (repeat None (List.length dts)).
Proof.
  induction dts as [|t dts IH]; cbn [List.length repeat]; constructor;
    [|exact IH].
  intros t' _ _. reflexivity.
Qed.

Lemma map_fst_combine (A B : Type) (l : list A) (l' : list B) :
  List.length l' = List.length l -> map fst (combine l l') = l.
Proof.
  revert l'. induction l as [|x l IH]; intros [|y l'] H;
    try reflexivity; try discriminate.
  cbn [combine map fst]. f_equal. apply IH. simpl in H. lia.
Qed.

Lemma Forall2_map_combine (A B C : Type) (P : C -> B -> Prop) (f : A -> C)
    (l : list A) (l' : list B) :
  Forall2 P (map f l) l' ->
  forall x y, In (x, y) (combine l l') -> P (f x) y.
Proof.
  revert l'. induction l as [|a l IH]; intros l' H x y Hin;
    [destruct Hin|].
  inversion H as [|? b ? l'' Hab Hrest]; subst.
  cbn [combine] in Hin. destruct Hin as [[= <- <-] | Hin];
    [assumption | now apply (IH l'')].
Qed.

Lemma lookup_In (A : Type) (l : Z) (v : A) (kvs : list (Z * A)) :
  lookup l kvs = Some v -> In (l, v) kvs.
Proof.
  induction kvs as [|[l' v'] kvs IH]; simpl; [discriminate|].
  destruct (Z.eqb_spec l l') as [-> | Hne].
  - intros [= ->]. now left.
  - intros H. right. now apply IH.
Qed.

(** C3, on the code.  When the last time stamp of the timeline is the
    boundary at which the onset loop stops (the recording ends exactly on a
    24-hour boundary), the partition still returns one entry per record,
    but no record at that boundary receives a day number: its entry stays
    unset. *)
Theorem record_on_final_boundary_gets_no_day
    (full : frame (Row V)) (first last next : Timestamp)
    (onsets : list Timestamp) :
  lookup 0 (map (fun lr : Z * Row V => (fst lr, date_time (snd lr))) full)
  = Some (Some first) ->
  lookup (Z.of_nat (List.length full) - 1)
         (map (fun lr : Z * Row V => (fst lr, date_time (snd lr))) full)
  = Some (Some last) ->
  day_onsets_of full = Ok (onsets, next) ->
  value last = value next ->
  value first <= value last ->
  exists days,
    divide_to_24_hour_periods full = Ok days
    /\ map fst days = full
    /\ (forall lr dn t,
          In (lr, dn) days -> date_time (snd lr) = Some t ->
          value last <= value t -> dn = None)
    /\ exists row,
         date_time row = Some last
         /\ In ((Z.of_nat (List.length full) - 1, row), None) days.
Proof.
  intros Hfirst Hlast Hons Hbound Horder.
  destruct (day_onsets_of_eq full Hfirst Hlast)
    as [t [k [_ [_ [Heq [Hlo Hhi]]]]]].
  rewrite Heq in Hons. injection Hons as <- <-.
  cbn [add_seconds value] in Hbound.
  unfold divide_to_24_hour_periods. rewrite Heq. cbn [bind fst snd].
  eexists. split; [reflexivity|].
  set (onsets := first :: _). set (next := add_seconds _ _).
  set (dts := map (fun lr : Z * Row V => date_time (snd lr)) full).
  assert (Hlen : List.length
                   (fold_left (assign_day onsets next dts)
                      (seq 0 (List.length onsets))
                      (repeat None (List.length dts)))
                 = List.length full).
  { rewrite length_assign_days; [apply length_map | apply repeat_length]. }
  split; [now apply map_fst_combine|].
  assert (Hnext : value next = t + Z.of_nat k * day) by reflexivity.
  assert (Hnone : forall lr dn t',
            In (lr, dn)
               (combine full
                  (fold_left (assign_day onsets next dts)
                     (seq 0 (List.length onsets))
                     (repeat None (List.length dts)))) ->
            date_time (snd lr) = Some t' ->
            value last <= value t' -> dn = None).
  2:{ split; [exact Hnone|].
      apply lookup_In in Hlast. apply in_map_iff in Hlast.
      destruct Hlast as [[l row] [[= -> Hrow] Hin]]. cbn [snd] in Hrow.
      exists row. split; [exact Hrow|].
      assert (Hfst : In (Z.of_nat (List.length full) - 1, row)
                        (map fst (combine full
                           (fold_left (assign_day onsets next dts)
                              (seq 0 (List.length onsets))
                              (repeat None (List.length dts))))))
        by (rewrite map_fst_combine; assumption).
      apply in_map_iff in Hfst. destruct Hfst as [[lr dn] [Heq' Hin']].
      cbn [fst] in Heq'. subst lr.
      rewrite (Hnone _ dn last Hin' Hrow ltac:(lia)) in Hin'.
      exact Hin'. }
  assert (Hbelow : forall o, In o onsets -> value o <= value next).
  { intros o [<- | Ho]; [lia|].
    apply in_map_iff in Ho. destruct Ho as [i [<- Hi]].
    apply in_seq in Hi. cbn [add_seconds value].
    specialize (Hlo i ltac:(lia)). lia. }
  pose proof (@assign_days_beyond onsets next dts
                (seq 0 (List.length onsets)) Hbelow _
                (Forall2_repeat_none next dts)) as Hall.
  intros lr dn t' Hin Ht Hge.
  apply (Forall2_map_combine _ _ Hall lr dn Hin t' Ht). lia.
Qed.


(** The complement: a record from the start on and strictly before the
    final boundary is in a mask, so it receives a day number. *)
Lemma combine_map_combine (A B C : Type) (g : A * B -> C) (l : list A) :
  forall l' : list B,
    combine l (map g (combine l l'))
    = map (fun p => (fst p, g p)) (combine l l').
Proof.
  induction l as [|x l IH]; intros [|y l']; try reflexivity.
  cbn [combine map fst]. f_equal. apply IH.
Qed.

Lemma map_snd_combine (A B : Type) (l : list A) (l' : list B) :
  List.length l' = List.length l -> map snd (combine l l') = l'.
Proof.
  revert l'. induction l as [|x l IH]; intros [|y l'] H;
    try reflexivity; try discriminate.
  cbn [combine map snd]. f_equal. apply IH. simpl in H. lia.
Qed.

(** The [for] loop, record by record. *)
Lemma assign_days_pointwise (onsets : list Timestamp) (next : Timestamp)
    (dts : list (option Timestamp)) (ds : list nat) :
  forall dn, List.length dn = List.length dts ->
    fold_left (assign_day onsets next dts) ds dn
    = map (fun p => fold_left (day_step onsets next (fst p)) ds (snd p))
          (combine dts dn).
Proof.
  induction ds as [|d ds IH]; intros dn Hlen.
  - cbn [fold_left]. symmetry.
    rewrite (map_ext _ snd) by reflexivity. now apply map_snd_combine.
  - cbn [fold_left]. rewrite IH by now apply length_assign_day.
    unfold assign_day at 1. rewrite combine_map_combine, map_map.
    apply map_ext. intros [t cur]. cbn [fst snd]. reflexivity.
Qed.

Lemma day_step_keeps_some (onsets : list Timestamp) (next : Timestamp)
    (t : option Timestamp) (ds : list nat) :
  forall cur, cur <> None ->
    fold_left (day_step onsets next t) ds cur <> None.
Proof.
  induction ds as [|d ds IH]; intros cur H; [exact H|].
  cbn [fold_left]. apply IH. unfold day_step.
  destruct t as [t'|]; [|exact H].
  destruct (in_mask onsets next d t'); [discriminate | exact H].
Qed.

Lemma day_step_covered (onsets : list Timestamp) (next : Timestamp)
    (t : Timestamp) (d : nat) (ds : list nat) :
  In d ds -> in_mask onsets next d t = true ->
  forall cur, fold_left (day_step onsets next (Some t)) ds cur <> None.
Proof.
  induction ds as [|d' ds IH]; intros Hin Hmask cur; [destruct Hin|].
  cbn [fold_left]. destruct Hin as [-> | Hin].
  - apply day_step_keeps_some. unfold day_step. rewrite Hmask. discriminate.
  - now apply IH.
Qed.

(** The masks cover the stretch from the start to the final boundary. *)
Lemma masks_cover (first : Timestamp) (t0 : Z) (k : nat) (t : Timestamp) :
  value first <= value t < t0 + Z.of_nat k * day ->
  exists d,
    (d < S k)%nat
    /\ in_mask
         (first :: map (fun i => add_seconds (mkTimestamp t0 (Some US_Pacific))
                                   (Z.of_nat i * day)) (seq 0 k))
         (add_seconds (mkTimestamp t0 (Some US_Pacific)) (Z.of_nat k * day))
         d t = true.
Proof.
  intros [Hlo Hhi].
  set (noon := mkTimestamp t0 (Some US_Pacific)).
  set (onsets := first :: _). set (next := add_seconds _ _).
  assert (Hlen : List.length onsets = S k)
    by (unfold onsets; cbn [List.length]; now rewrite length_map, length_seq).
  assert (Hnth : forall i, (i < k)%nat ->
            value (nth (S i) onsets next) = t0 + Z.of_nat i * day).
  { intros i Hi. unfold onsets. cbn [nth].
    rewrite (nth_indep _ next (add_seconds noon (Z.of_nat 0 * day)))
      by (rewrite length_map, length_seq; lia).
    rewrite (map_nth (fun i => add_seconds noon (Z.of_nat i * day))).
    rewrite seq_nth by assumption. reflexivity. }
  assert (Hnext : value next = t0 + Z.of_nat k * day) by reflexivity.
  unfold in_mask, geb, ltb. rewrite Hlen.
  destruct (Z.lt_ge_cases (value t) t0) as [Hbefore | Hafter].
  - exists O. split; [lia|].
    change (nth 0 onsets next) with first.
    change (0 + 1)%nat with 1%nat.
    destruct (Z.ltb_spec (Z.of_nat 0 + 1) (Z.of_nat (S k) - 1)).
    + rewrite (Hnth O) by lia.
      apply andb_true_iff. split; [apply Z.leb_le | apply Z.ltb_lt]; lia.
    + apply andb_true_iff. split; [apply Z.leb_le | apply Z.ltb_lt]; lia.
  - assert (Hday : 0 < day) by (unfold day; lia).
    set (i := (value t - t0) / day).
    assert (Hi : 0 <= i /\ t0 + i * day <= value t < t0 + (i + 1) * day).
    { unfold i. split; [apply Z.div_pos; lia|].
      pose proof (Z.div_mod (value t - t0) day ltac:(lia)).
      pose proof (Z.mod_pos_bound (value t - t0) day Hday). nia. }
    assert (Hik : i < Z.of_nat k) by nia.
    exists (S (Z.to_nat i)). split; [lia|].
    rewrite (Hnth (Z.to_nat i)) by lia. rewrite Z2Nat.id by lia.
    destruct (Z.ltb_spec (Z.of_nat (S (Z.to_nat i)) + 1)
                         (Z.of_nat (S k) - 1)).
    + replace (S (Z.to_nat i) + 1)%nat with (S (S (Z.to_nat i))) by lia.
      rewrite (Hnth (S (Z.to_nat i))) by lia.
      apply andb_true_iff. split; [apply Z.leb_le | apply Z.ltb_lt]; lia.
    + apply andb_true_iff. split; [apply Z.leb_le | apply Z.ltb_lt]; nia.
Qed.

Lemma In_combine_pointwise (A B C D : Type) (f : A -> B) (c : C)
    (h : B * C -> D) (l : list A) (x : A) (y : D) :
  In (x, y)
     (combine l (map h (combine (map f l) (repeat c (List.length l))))) ->
  y = h (f x, c).
Proof.
  induction l as [|a l IH]; intros Hin; [destruct Hin|].
  cbn [List.length repeat map combine] in Hin.
  destruct Hin as [[= <- <-] | Hin]; [reflexivity | now apply IH].
Qed.

Lemma record_before_boundary_gets_day
    (full : frame (Row V)) (first last next : Timestamp)
    (onsets : list Timestamp) :
  lookup 0 (map (fun lr : Z * Row V => (fst lr, date_time (snd lr))) full)
  = Some (Some first) ->
  lookup (Z.of_nat (List.length full) - 1)
         (map (fun lr : Z * Row V => (fst lr, date_time (snd lr))) full)
  = Some (Some last) ->
  day_onsets_of full = Ok (onsets, next) ->
  exists days,
    divide_to_24_hour_periods full = Ok days
    /\ forall lr dn t,
         In (lr, dn) days -> date_time (snd lr) = Some t ->
         value first <= value t < value next -> dn <> None.
Proof.
  intros Hfirst Hlast Hons.
  destruct (day_onsets_of_eq full Hfirst Hlast)
    as [t0 [k [_ [_ [Heq _]]]]].
  rewrite Heq in Hons. injection Hons as <- <-.
  unfold divide_to_24_hour_periods. rewrite Heq. cbn [bind fst snd].
  eexists. split; [reflexivity|].
  intros lr dn t Hin Ht Hrange. cbn [add_seconds value] in Hrange.
  rewrite assign_days_pointwise in Hin by apply repeat_length.
  rewrite length_map in Hin.
  apply In_combine_pointwise in Hin. cbn [fst snd] in Hin.
  rewrite Ht in Hin. subst dn.
  destruct (@masks_cover first t0 k t Hrange) as [d [Hd Hmask]].
  apply (@day_step_covered _ _ t d); [|exact Hmask].
  apply in_seq. cbn [List.length]. rewrite length_map, length_seq. lia.
Qed.

End DayNumbers.

Section DayPartitionerSamples.
Import sanity_check_module Calendar Pandas preprocessing_module Vocabulary.
Import Samples.


Lemma record_on_final_boundary_gets_no_day_witness :
  fill_missing_data ends_at_noon = Ok ends_at_noon_dense
  /\ lookup 0 (map (fun lr : Z * Row Z => (fst lr, date_time (snd lr)))
                   ends_at_noon_dense)
     = Some (Some (mkTimestamp 1495738798 (Some US_Pacific)))
  /\ lookup (Z.of_nat (List.length ends_at_noon_dense) - 1)
            (map (fun lr : Z * Row Z => (fst lr, date_time (snd lr)))
                 ends_at_noon_dense)
     = Some (Some (mkTimestamp 1495738800 (Some US_Pacific)))
  /\ day_onsets_of ends_at_noon_dense
     = Ok ([mkTimestamp 1495738798 (Some US_Pacific)],
           mkTimestamp 1495738800 (Some US_Pacific))
  /\ exists days,
       divide_to_24_hour_periods ends_at_noon_dense = Ok days
       /\ map snd days = [Some 1; Some 1; None]
       /\ exists row,
            date_time row = Some (mkTimestamp 1495738800 (Some US_Pacific))
            /\ In ((Z.of_nat (List.length ends_at_noon_dense) - 1, row), None)
                  days.
Proof.
  split; [reflexivity|]. split; [reflexivity|]. split; [reflexivity|].
  split; [reflexivity|].
  destruct (@record_on_final_boundary_gets_no_day Z ends_at_noon_dense
              (mkTimestamp 1495738798 (Some US_Pacific))
              (mkTimestamp 1495738800 (Some US_Pacific))
              (mkTimestamp 1495738800 (Some US_Pacific))
              [mkTimestamp 1495738798 (Some US_Pacific)])
    as [days [Hdiv [_ [_ Hlast]]]].
  - reflexivity.
  - reflexivity.
  - reflexivity.
  - reflexivity.
  - cbn [value]. lia.
  - exists days. split; [exact Hdiv|]. split; [|exact Hlast].
    assert (Hc : divide_to_24_hour_periods ends_at_noon_dense
                 = Ok (combine ends_at_noon_dense [Some 1; Some 1; None]))
      by reflexivity.
    rewrite Hc in Hdiv. injection Hdiv as <-. reflexivity.
Defined.

End DayPartitionerSamples.


(** ** Labelled tables *)

Section TableFacts.
Import sanity_check_module Calendar Pandas preprocessing_module Vocabulary.

Lemma mem_In (x : Z) (l : list Z) : mem x l = true <-> In x l.
Proof.
  unfold mem. rewrite existsb_exists. split.
  - intros [y [Hy Heq]]. apply Z.eqb_eq in Heq. now subst.
  - intros H. exists x. split; [assumption | apply Z.eqb_refl].
Qed.

Lemma mem_false (x : Z) (l : list Z) : mem x l = false <-> ~ In x l.
Proof.
  rewrite <- mem_In. destruct (mem x l); split; intros; congruence.
Qed.

Lemma has_dup_false (l : list Z) : has_dup l = false <-> NoDup l.
Proof.
  induction l as [|x l IH]; simpl.
  - split; [constructor | reflexivity].
  - rewrite orb_false_iff, IH, mem_false. split.
    + intros [H1 H2]. now constructor.
    + intros H. inversion H; subst. now split.
Qed.

Lemma In_range (a b x : Z) : In x (range a b) <-> a <= x < b.
Proof.
  unfold range. rewrite in_map_iff. split.
  - intros [i [<- Hi]]. apply in_seq in Hi. lia.
  - intros H. exists (Z.to_nat (x - a)). split; [lia|].
    apply in_seq. lia.
Qed.

Lemma NoDup_range (a b : Z) : NoDup (range a b).
Proof.
  unfold range. apply Injective_map_NoDup.
  - intros i j H. lia.
  - apply seq_NoDup.
Qed.

Lemma length_range (a b : Z) : List.length (range a b) = Z.to_nat (b - a).
Proof. unfold range. now rewrite length_map, length_seq. Qed.

Variable R : Type.

Lemma at_label_None (l : Z) (df : frame R) :
  at_label l df = None <-> ~ In l (index df).
Proof.
  induction df as [|[l' r] df IH]; simpl.
  - tauto.
  - destruct (Z.eqb_spec l l') as [-> | Hne].
    + split; [discriminate | intros H; exfalso; apply H; now left].
    + rewrite IH. split; intros H; [intros [H' | H']; [congruence|tauto] | tauto].
Qed.

Lemma at_label_Some_In (l : Z) (r : R) (df : frame R) :
  at_label l df = Some r -> In (l, r) df.
Proof.
  induction df as [|[l' r'] df IH]; simpl; [discriminate|].
  destruct (Z.eqb_spec l l') as [-> | Hne].
  - intros [= ->]. now left.
  - intros H. right. now apply IH.
Qed.

Lemma at_label_In_index (l : Z) (df : frame R) :
  In l (index df) -> exists r, at_label l df = Some r.
Proof.
  intros H. destruct (at_label l df) as [r|] eqn:E; [now exists r|].
  apply at_label_None in E. contradiction.
Qed.

Lemma lookup_combine_map (A : Type) (f : Z -> A) (l : Z) (g : list Z) :
  lookup l (combine g (map f g)) = if mem l g then Some (f l) else None.
Proof.
  induction g as [|x g IH]; simpl; [reflexivity|].
  destruct (Z.eqb_spec l x) as [-> | Hne]; simpl; [reflexivity | exact IH].
Qed.

Lemma lookup_combine_repeat (A : Type) (v : A) (l : Z) (g : list Z) :
  lookup l (combine g (repeat v (List.length g)))
  = if mem l g then Some v else None.
Proof.
  induction g as [|x g IH]; simpl; [reflexivity|].
  destruct (Z.eqb_spec l x) as [-> | Hne]; simpl; [reflexivity | exact IH].
Qed.

(** [loc_set] as one pass over the rows. *)
Lemma loc_set_eq (A : Type) (upd : R -> A -> R) (df : frame R)
    (labels : list Z) (vals : list A) :
  (forall l, In l labels -> In l (index df)) ->
  List.length labels = List.length vals ->
  loc_set upd df labels vals
  = Ok (map (fun lr => (fst lr,
                        match lookup (fst lr) (combine labels vals) with
                        | Some v => upd (snd lr) v
                        | None => snd lr
                        end)) df).
Proof.
  intros Hin Hlen. unfold loc_set.
  assert (Hall : forallb (fun l => mem l (index df)) labels = true).
  { apply forallb_forall. intros l Hl. apply mem_In. now apply Hin. }
  rewrite Hall, Hlen, Nat.eqb_refl. cbn [negb]. f_equal.
  apply map_ext. intros [l r]. cbn [fst snd].
  now destruct (lookup l (combine labels vals)).
Qed.

Lemma loc_get_eq (A : Type) (col : R -> option A) (df : frame R)
    (labels : list Z) (l0 : Z) :
  In l0 labels -> In l0 (index df) ->
  loc_get col df labels
  = Ok (map (fun l => match at_label l df with
                      | Some r => col r
                      | None => None
                      end) labels).
Proof.
  intros Hl Hi. unfold loc_get.
  assert (Hsome : forallb (fun l => negb (mem l (index df))) labels = false).
  { apply not_true_is_false. intros Hall.
    rewrite forallb_forall in Hall. specialize (Hall l0 Hl).
    apply mem_In in Hi. rewrite Hi in Hall. discriminate. }
  rewrite Hsome, andb_false_r. reflexivity.
Qed.

End TableFacts.

(** ** Block numbers *)

Section BlockIds.
Import sanity_check_module Calendar Pandas preprocessing_module Vocabulary.

Lemma cumsum_change_points (xs : list Z) : forall prev acc,
  cumsum_from acc
    (map (fun p : option Z * Z => if ne_cell (fst p) (snd p) then 1 else 0)
         (combine (prev :: map Some (removelast xs)) xs))
  = blocks_from prev acc xs.
Proof.
  induction xs as [|x t IH]; intros prev acc; [reflexivity|].
  destruct t as [|y t'].
  - reflexivity.
  - change (removelast (x :: y :: t')) with (x :: removelast (y :: t')).
    cbn [map combine cumsum_from fst snd blocks_from]. f_equal.
    apply IH.
Qed.

Lemma block_ids_blocks_from (xs : list Z) :
  block_ids xs = blocks_from None 0 xs.
Proof.
  unfold block_ids, cumsum, change_points, shift1.
  destruct xs as [|x t]; [reflexivity|].
  apply cumsum_change_points.
Qed.

Lemma length_blocks_from (xs : list Z) : forall prev acc,
  List.length (blocks_from prev acc xs) = List.length xs.
Proof.
  induction xs as [|x t IH]; intros prev acc; simpl; [reflexivity|].
  now rewrite IH.
Qed.

Lemma nth_blocks_from_succ (xs : list Z) : forall (i : nat) prev acc,
  (S i < List.length xs)%nat ->
  nth (S i) (blocks_from prev acc xs) 0
  = nth i (blocks_from prev acc xs) 0
    + (if nth i xs 0 =? nth (S i) xs 0 then 0 else 1).
Proof.
  induction xs as [|x t IH]; intros i prev acc Hi; [simpl in Hi; lia|].
  destruct i as [|i].
  - destruct t as [|y t']; [simpl in Hi; lia|].
    cbn [blocks_from nth ne_cell]. destruct (x =? y); reflexivity.
  - cbn [blocks_from]. cbn [nth]. apply IH. simpl in Hi. lia.
Qed.

Lemma length_block_ids (xs : list Z) :
  List.length (block_ids xs) = List.length xs.
Proof. rewrite block_ids_blocks_from. apply length_blocks_from. Qed.

Lemma nth_block_ids_succ (xs : list Z) (i : nat) :
  (S i < List.length xs)%nat ->
  nth (S i) (block_ids xs) 0
  = nth i (block_ids xs) 0 + (if nth i xs 0 =? nth (S i) xs 0 then 0 else 1).
Proof. rewrite block_ids_blocks_from. apply nth_blocks_from_succ. Qed.

End BlockIds.

(** ** Tables given row by row *)

Section TabulateFacts.
Import sanity_check_module Calendar Pandas preprocessing_module Vocabulary.
Variable R : Type.

Lemma index_tabulate (F : Z -> R) (L : list Z) : index (tabulate F L) = L.
Proof. unfold index, tabulate. rewrite map_map. apply map_id. Qed.

Lemma at_label_tabulate (F : Z -> R) (L : list Z) (l : Z) :
  at_label l (tabulate F L) = if mem l L then Some (F l) else None.
Proof.
  induction L as [|x L IH]; simpl; [reflexivity|].
  destruct (Z.eqb_spec l x) as [-> | Hne]; simpl; [reflexivity | exact IH].
Qed.

Lemma tabulate_ext (F G : Z -> R) (L : list Z) :
  (forall l, In l L -> F l = G l) -> tabulate F L = tabulate G L.
Proof.
  intros H. unfold tabulate. apply map_ext_in. intros l Hl.
  now rewrite H.
Qed.

Lemma loc_set_tabulate (A : Type) (upd : R -> A -> R) (F : Z -> R)
    (L labels : list Z) (vals : list A) :
  (forall l, In l labels -> In l L) ->
  List.length labels = List.length vals ->
  loc_set upd (tabulate F L) labels vals
  = Ok (tabulate (fun l => match lookup l (combine labels vals) with
                           | Some v => upd (F l) v
                           | None => F l
                           end) L).
Proof.
  intros Hin Hlen. rewrite loc_set_eq.
  - unfold tabulate. now rewrite map_map.
  - now rewrite index_tabulate.
  - assumption.
Qed.

Lemma loc_get_tabulate (A : Type) (col : R -> option A) (F : Z -> R)
    (L labels : list Z) (l0 : Z) :
  In l0 labels -> In l0 L ->
  loc_get col (tabulate F L) labels
  = Ok (map (fun l => if mem l L then col (F l) else None) labels).
Proof.
  intros Hl Hi. rewrite (@loc_get_eq R A col _ labels l0).
  - f_equal. apply map_ext. intros l. rewrite at_label_tabulate.
    now destruct (mem l L).
  - assumption.
  - now rewrite index_tabulate.
Qed.

Lemma index_filter_tabulate (P : Z * R -> bool) (F : Z -> R) (L : list Z) :
  index (filter P (tabulate F L)) = filter (fun l => P (l, F l)) L.
Proof.
  induction L as [|x L IH]; simpl; [reflexivity|].
  destruct (P (x, F x)); simpl; now rewrite IH.
Qed.

Lemma combine_map_seq (A B : Type) (g : nat -> A) (d : B) (bs : list B) :
  forall (a : nat),
    combine (map g (seq a (List.length bs))) bs
    = map (fun i => (g i, nth (i - a) bs d)) (seq a (List.length bs)).
Proof.
  induction bs as [|b bs IH]; intros a; [reflexivity|].
  cbn [List.length seq map combine]. f_equal.
  - now rewrite Nat.sub_diag.
  - rewrite IH. apply map_ext_in. intros i Hi. apply in_seq in Hi.
    replace (i - a)%nat with (S (i - S a)) by lia. reflexivity.
Qed.

Lemma set_column_tabulate (A : Type) (upd : R -> A -> R) (F : Z -> R)
    (n : Z) (bs : list A) (d : A) :
  List.length bs = Z.to_nat n ->
  set_column upd (tabulate F (range 0 n)) bs
  = tabulate (fun l => upd (F l) (nth (Z.to_nat l) bs d)) (range 0 n).
Proof.
  intros Hlen. unfold set_column, tabulate, range.
  rewrite Z.sub_0_r, <- Hlen, !map_map.
  rewrite (combine_map_seq (fun i => (0 + Z.of_nat i, F (0 + Z.of_nat i))) d bs 0).
  rewrite map_map. apply map_ext. intros i. cbn [fst snd].
  rewrite Nat.sub_0_r. repeat f_equal. lia.
Qed.

End TabulateFacts.

(** ** The loop over the blocks *)

Section FillLoop.
Import sanity_check_module Calendar Pandas preprocessing_module Vocabulary.
Variable V : Type.
Variable n : Z.
Variable rowf : Z -> Row V.
Variable missing : list Z.
Hypothesis missing_inside : forall l, In l missing -> 0 < l < n.
Hypothesis missing_nan :
  forall l, In l missing -> meas_sig_str (rowf l) = None.
Hypothesis missing_nonempty : missing <> [].

Lemma key_eqb_eq (a b : Z * Z) : key_eqb a b = true <-> a = b.
Proof.
  unfold key_eqb. destruct a as [a1 a2], b as [b1 b2]. cbn [fst snd].
  rewrite andb_true_iff, !Z.eqb_eq. split.
  - intros [-> ->]. reflexivity.
  - intros [= -> ->]. auto.
Qed.

Lemma group_with_inside (k : Z * Z) (l : Z) :
  In l (group_with n missing k) -> In l (range 0 n).
Proof. unfold group_with. intros H. now apply filter_In in H. Qed.

Lemma mem_group_with (k : Z * Z) (l : Z) :
  In l (range 0 n) ->
  mem l (group_with n missing k) = key_eqb (key_of n missing l) k.
Proof.
  intros Hl. destruct (key_eqb (key_of n missing l) k) eqn:E.
  - apply mem_In. unfold group_with. apply filter_In. now split.
  - apply mem_false. unfold group_with. rewrite filter_In.
    intros [_ H]. congruence.
Qed.

Lemma copy_sig_after_cons (done : list (Z * Z)) (k : Z * Z) (l : Z) :
  copy_sig_after n rowf missing (k :: done) l
  = if key_eqb (key_of n missing l) k && (snd k =? -1000)
       && (List.length (group_with n missing k) <=? 5 * 60)%nat
    then source_at n rowf
           (l - Z.of_nat (List.length (group_with n missing k)))
    else copy_sig_after n rowf missing done l.
Proof.
  unfold copy_sig_after. cbn [existsb].
  destruct (key_eqb (key_of n missing l) k) eqn:E; cbn [orb andb].
  - apply key_eqb_eq in E. unfold group_of. rewrite E.
    replace (newcol_of missing l) with (snd k)
      by (rewrite <- E; reflexivity).
    destruct (snd k =? -1000); cbn [andb];
      [|now rewrite andb_false_r].
    destruct (List.length (group_with n missing k) <=? 5 * 60)%nat;
      [reflexivity | now rewrite andb_false_r].
  - reflexivity.
Qed.

Lemma fill_block_step (done : list (Z * Z)) (st : FillState V) (k : Z * Z) :
  loop_invariant n rowf missing done st ->
  (snd k = -1000 ->
   exists l0, In l0 (group_with n missing k)
              /\ In (l0 - Z.of_nat (List.length (group_with n missing k)))
                    (range 0 n)) ->
  exists st',
    fill_block missing st (k, group_with n missing k) = Ok st'
    /\ loop_invariant n rowf missing (k :: done) st'.
Proof.
  intros [BL [Hsig Hfull]] Hsrc.
  unfold fill_block. cbn [fst snd].
  set (g := group_with n missing k).
  destruct (Z.eqb_spec (snd k) (-1000)) as [Hk | Hk].
  2:{ exists st. split; [reflexivity|]. exists BL. split.
      - rewrite Hsig. apply tabulate_ext. intros l _.
        rewrite copy_sig_after_cons.
        apply Z.eqb_neq in Hk. rewrite Hk, andb_false_r. reflexivity.
      - rewrite Hfull. apply tabulate_ext. intros l _.
        rewrite copy_sig_after_cons.
        apply Z.eqb_neq in Hk. rewrite Hk, andb_false_r. reflexivity. }
  destruct (Hsrc Hk) as [l0 [Hl0 Hl0src]]. fold g in Hl0, Hl0src.
  rewrite Hsig. unfold loc_set_scalar, sig_state.
  rewrite loc_set_tabulate;
    [| intros l Hl; now apply (group_with_inside k) | now rewrite repeat_length].
  cbn [bind].
  destruct (Nat.leb_spec (List.length g) (5 * 60)) as [Hshort | Hlong].
  2:{ eexists. split; [reflexivity|].
      exists (fun l => if mem l g then Z.of_nat (List.length g) else BL l).
      cbn [st_sig_str_df st_full_subject_df]. split.
      - apply tabulate_ext. intros l Hl.
        rewrite lookup_combine_repeat, copy_sig_after_cons. fold g.
        destruct (Nat.leb_spec (List.length g) (5 * 60)); [lia|].
        rewrite andb_false_r. now destruct (mem l g).
      - rewrite Hfull. apply tabulate_ext. intros l _.
        rewrite copy_sig_after_cons. fold g.
        destruct (Nat.leb_spec (List.length g) (5 * 60)); [lia|].
        rewrite andb_false_r. reflexivity. }
  rewrite (@loc_get_tabulate _ _ _ _ _ _ (l0 - Z.of_nat (List.length g)));
    [| apply in_map_iff; now exists l0 | assumption].
  cbn [bind]. rewrite map_map.
  rewrite (map_ext _ (fun i => source_at n rowf (i - Z.of_nat (List.length g)))).
  2:{ intros i. unfold source_at. rewrite lookup_combine_repeat.
      destruct (mem (i - Z.of_nat (List.length g)) (range 0 n));
        [|reflexivity].
      now destruct (mem (i - Z.of_nat (List.length g)) g). }
  rewrite loc_set_tabulate;
    [| intros l Hl; now apply (group_with_inside k) | now rewrite length_map].
  cbn [bind].
  assert (Hex : exists m0, In m0 missing).
  { destruct missing as [|m0 ?]; [congruence | exists m0; now left]. }
  destruct Hex as [m0 Hm0].
  assert (Hm0L : In m0 (range 0 n)).
  { apply In_range. specialize (missing_inside _ Hm0). lia. }
  rewrite (@loc_get_tabulate _ _ _ _ _ _ m0); [| assumption | assumption].
  cbn [bind]. rewrite Hfull. unfold full_state.
  rewrite loc_set_tabulate;
    [| intros l Hl; apply In_range; specialize (missing_inside _ Hl); lia
     | now rewrite length_map].
  cbn [bind]. eexists. split; [reflexivity|].
  exists (fun l => if mem l g then Z.of_nat (List.length g) else BL l).
  cbn [st_sig_str_df st_full_subject_df].
  assert (Hcs : forall l, In l (range 0 n) ->
            copy_sig_after n rowf missing (k :: done) l
            = if mem l g
              then source_at n rowf (l - Z.of_nat (List.length g))
              else copy_sig_after n rowf missing done l).
  { intros l Hl. rewrite copy_sig_after_cons.
    rewrite <- (@mem_group_with k l Hl). fold g.
    rewrite Hk. cbn [Z.eqb Pos.eqb].
    destruct (Nat.leb_spec (List.length g) (5 * 60)); [|lia].
    now rewrite !andb_true_r. }
  split.
  - apply tabulate_ext. intros l Hl.
    rewrite !lookup_combine_map, lookup_combine_repeat, (Hcs l Hl).
    now destruct (mem l g).
  - apply tabulate_ext. intros l Hl.
    rewrite !lookup_combine_map.
    destruct (mem l missing) eqn:Hlm; [|reflexivity].
    apply mem_In in Hl. rewrite Hl.
    apply mem_In in Hl. rewrite (Hcs l Hl).
    rewrite lookup_combine_repeat.
    unfold set_meas_sig_str. cbn [meas_sig_str status date_time].
    now destruct (mem l g).
Qed.


Lemma fill_blocks_fold (ks : list (Z * Z)) :
  forall (done : list (Z * Z)) (st : FillState V),
    loop_invariant n rowf missing done st ->
    (forall k, In k ks -> snd k = -1000 ->
       exists l0, In l0 (group_with n missing k)
                  /\ In (l0 - Z.of_nat (List.length (group_with n missing k)))
                        (range 0 n)) ->
    exists st',
      foldM (fill_block missing)
            (map (fun k => (k, group_with n missing k)) ks) st = Ok st'
      /\ loop_invariant n rowf missing (rev ks ++ done) st'.
Proof.
  induction ks as [|k ks IH]; intros done st Hinv Hsrc.
  - exists st. split; [reflexivity | exact Hinv].
  - destruct (@fill_block_step done st k Hinv) as [st1 [Hstep Hinv1]].
    { apply Hsrc. now left. }
    destruct (IH (k :: done) st1 Hinv1) as [st' [Hfold Hinv']].
    { intros k' Hk'. apply Hsrc. now right. }
    exists st'. split.
    + cbn [map foldM]. rewrite Hstep. exact Hfold.
    + cbn [rev]. rewrite <- app_assoc. exact Hinv'.
Qed.

Lemma list_max_in (l : list Z) :
  l <> [] -> exists x, In x l /\ forall y, In y l -> y <= x.
Proof.
  induction l as [|a l IH]; [congruence|]. intros _.
  destruct l as [|b l'].
  - exists a. split; [now left|]. intros y [<- | []]. lia.
  - destruct IH as [x [Hx Hmax]]; [discriminate|].
    destruct (Z.le_gt_cases a x).
    + exists x. split; [now right|].
      intros y [<- | Hy]; [assumption | now apply Hmax].
    + exists a. split; [now left|].
      intros y [<- | Hy]; [lia | specialize (Hmax y Hy); lia].
Qed.

Lemma NoDup_bounded_length (l : list Z) (a b : Z) :
  NoDup l -> (forall x, In x l -> a <= x < b) ->
  Z.of_nat (List.length l) <= Z.max 0 (b - a).
Proof.
  intros Hnd Hin.
  assert (Hle : (List.length l <= List.length (range a b))%nat).
  { apply NoDup_incl_length; [assumption|].
    intros x Hx. apply In_range. now apply Hin. }
  rewrite length_range in Hle. lia.
Qed.

Lemma newcol_of_missing (l : Z) :
  newcol_of missing l = -1000 <-> In l missing.
Proof.
  unfold newcol_of. rewrite <- mem_In.
  destruct (mem l missing); split; intros; congruence.
Qed.

(** A missing block always has a row in front of it to copy from: the
    label of its last row less its length is in the index. *)
Lemma copy_source_present (k : Z * Z) (l1 : Z) :
  In l1 (range 0 n) -> key_of n missing l1 = k -> snd k = -1000 ->
  exists l0, In l0 (group_with n missing k)
             /\ In (l0 - Z.of_nat (List.length (group_with n missing k)))
                   (range 0 n).
Proof.
  intros Hl1 Hkey Hk.
  assert (Hne : group_with n missing k <> []).
  { intros E. assert (Hin : In l1 (group_with n missing k)).
    { unfold group_with. apply filter_In. split; [assumption|].
      now apply key_eqb_eq. }
    rewrite E in Hin. destruct Hin. }
  destruct (list_max_in Hne) as [l0 [Hl0 Hmax]].
  exists l0. split; [assumption|].
  assert (Hpos : forall l, In l (group_with n missing k) -> 0 < l < n).
  { intros l Hl. unfold group_with in Hl. apply filter_In in Hl.
    destruct Hl as [_ Hl]. apply key_eqb_eq in Hl.
    apply missing_inside. apply newcol_of_missing.
    rewrite <- Hk, <- Hl. reflexivity. }
  assert (Hlen : Z.of_nat (List.length (group_with n missing k))
                 <= Z.max 0 (l0 + 1 - 1)).
  { apply NoDup_bounded_length.
    - unfold group_with. apply NoDup_filter, NoDup_range.
    - intros x Hx. specialize (Hpos x Hx). specialize (Hmax x Hx). lia. }
  specialize (Hpos l0 Hl0). apply In_range. lia.
Qed.

Lemma insert_key_In (k x : Z * Z) (l : list (Z * Z)) :
  In x (insert_key k l) <-> x = k \/ In x l.
Proof.
  induction l as [|y l IH]; simpl.
  - intuition congruence.
  - destruct (key_eqb k y) eqn:E.
    + apply key_eqb_eq in E. subst. simpl. intuition congruence.
    + destruct (key_ltb k y); simpl; [intuition congruence|].
      rewrite IH. intuition congruence.
Qed.

Lemma sorted_keys_In (x : Z * Z) (ks : list (Z * Z)) :
  In x (sorted_keys ks) <-> In x ks.
Proof.
  unfold sorted_keys. induction ks as [|k ks IH]; simpl; [tauto|].
  rewrite insert_key_In, IH. intuition congruence.
Qed.

Lemma make_sig_str_df_dense :
  make_sig_str_df (tabulate rowf (range 0 n)) missing
  = Ok (sig_state n rowf missing [] (fun _ => 0)).
Proof.
  unfold make_sig_str_df, to_frame, loc_set_scalar.
  replace (map (fun lr : Z * Row V =>
                  (fst lr, mkSigRow (meas_sig_str (snd lr)) 0 0 0 None))
               (tabulate rowf (range 0 n)))
    with (tabulate (fun l => mkSigRow (meas_sig_str (rowf l)) 0 0 0 None)
                   (range 0 n))
    by (unfold tabulate; now rewrite map_map).
  rewrite loc_set_tabulate;
    [| intros l Hl; apply In_range; specialize (missing_inside _ Hl); lia
     | now rewrite repeat_length].
  cbn [bind]. f_equal.
  unfold tabulate at 2. rewrite map_map. cbn [snd].
  rewrite (map_ext _ (newcol_of missing)).
  2:{ intros l. rewrite lookup_combine_repeat. unfold newcol_of.
      now destruct (mem l missing). }
  rewrite (@set_column_tabulate _ _ _ _ _ _ 0).
  2:{ now rewrite length_block_ids, length_map, length_range, Z.sub_0_r. }
  unfold sig_state. apply tabulate_ext. intros l _.
  rewrite lookup_combine_repeat. unfold set_block, set_newcol, newcol_of.
  unfold copy_sig_after. cbn [existsb andb].
  destruct (mem l missing); reflexivity.
Qed.

Lemma full_state_initial :
  tabulate rowf (range 0 n) = full_state n rowf missing [].
Proof.
  unfold full_state. apply tabulate_ext. intros l _.
  destruct (mem l missing) eqn:E; [|reflexivity].
  apply mem_In in E. pose proof (missing_nan _ E) as Hnan.
  unfold copy_sig_after, set_meas_sig_str. cbn [existsb andb].
  destruct (rowf l). cbn in *. now subst.
Qed.

Lemma groupby_dense (done : list (Z * Z)) (BL : Z -> Z) :
  groupby (sig_state n rowf missing done BL)
  = map (fun k => (k, group_with n missing k))
        (sorted_keys (map (key_of n missing) (range 0 n))).
Proof.
  unfold groupby, sig_state.
  replace (map (fun lr : Z * SigRow V => key (snd lr)) (tabulate _ _))
    with (map (key_of n missing) (range 0 n))
    by (unfold tabulate; now rewrite map_map).
  apply map_ext. intros k. f_equal.
  rewrite index_filter_tabulate. reflexivity.
Qed.

Lemma fill_missing_signal_values_dense :
  fill_missing_signal_values (tabulate rowf (range 0 n)) missing
  = Ok (tabulate (fun l => if mem l missing
                           then set_meas_sig_str (rowf l)
                                  (filled_value n rowf missing l)
                           else rowf l)
                 (range 0 n)).
Proof.
  unfold fill_missing_signal_values.
  rewrite make_sig_str_df_dense. cbn [bind].
  rewrite groupby_dense.
  set (ks := sorted_keys (map (key_of n missing) (range 0 n))).
  destruct (@fill_blocks_fold ks []
              (mkFillState (sig_state n rowf missing [] (fun _ => 0))
                           (tabulate rowf (range 0 n)) []))
    as [st' [Hfold [BL [_ Hfull]]]].
  { exists (fun _ => 0). split; [reflexivity | apply full_state_initial]. }
  { intros k Hk Hk1000. unfold ks in Hk. apply (proj1 (sorted_keys_In _ _)) in Hk.
    apply in_map_iff in Hk. destruct Hk as [l1 [Hkey Hl1]].
    now apply (@copy_source_present k l1). }
  rewrite Hfold. cbn [bind]. rewrite Hfull. f_equal.
  unfold full_state. apply tabulate_ext. intros l Hl.
  destruct (mem l missing) eqn:E; [|reflexivity].
  f_equal. unfold copy_sig_after, filled_value.
  assert (Hdone : existsb (key_eqb (key_of n missing l)) (rev ks ++ []) = true).
  { apply existsb_exists. exists (key_of n missing l). split.
    - rewrite app_nil_r. apply in_rev. rewrite rev_involutive.
      unfold ks. apply sorted_keys_In. now apply in_map.
    - now apply key_eqb_eq. }
  rewrite Hdone. apply mem_In, newcol_of_missing in E. rewrite E.
  reflexivity.
Qed.

End FillLoop.

(** ** Blocks of the dense timeline *)

Section Runs.
Import sanity_check_module Calendar Pandas preprocessing_module Vocabulary.
Variable n : Z.
Variable missing : list Z.

Lemma nth_map_range (A : Type) (f : Z -> A) (d : A) (i : nat) :
  (i < Z.to_nat n)%nat -> nth i (map f (range 0 n)) d = f (Z.of_nat i).
Proof.
  intros Hi. unfold range. rewrite map_map, Z.sub_0_r.
  rewrite (nth_indep _ d (f (0 + Z.of_nat 0)))
    by now rewrite length_map, length_seq.
  rewrite (map_nth (fun x => f (0 + Z.of_nat x))).
  rewrite seq_nth by assumption. reflexivity.
Qed.

Lemma block_of_succ (l : Z) :
  0 <= l -> l + 1 < n ->
  block_of n missing (l + 1)
  = block_of n missing l
    + (if newcol_of missing l =? newcol_of missing (l + 1) then 0 else 1).
Proof.
  intros H0 H1. unfold block_of.
  replace (Z.to_nat (l + 1)) with (S (Z.to_nat l)) by lia.
  rewrite nth_block_ids_succ
    by (rewrite length_map, length_range; lia).
  rewrite !nth_map_range by lia.
  replace (Z.of_nat (S (Z.to_nat l))) with (l + 1) by lia.
  now rewrite Z2Nat.id by assumption.
Qed.

Lemma block_of_step_le (l : Z) :
  0 <= l -> l + 1 < n -> block_of n missing l <= block_of n missing (l + 1).
Proof.
  intros H0 H1. rewrite block_of_succ by assumption.
  destruct (_ =? _); lia.
Qed.

Lemma block_of_mono_nat (d : nat) : forall a,
  0 <= a -> a + Z.of_nat d < n ->
  block_of n missing a <= block_of n missing (a + Z.of_nat d).
Proof.
  induction d as [|d IH]; intros a H0 H1.
  - replace (a + Z.of_nat 0) with a by lia. lia.
  - replace (a + Z.of_nat (S d)) with (a + Z.of_nat d + 1) by lia.
    specialize (IH a H0 ltac:(lia)).
    pose proof (@block_of_step_le (a + Z.of_nat d) ltac:(lia) ltac:(lia)).
    lia.
Qed.

Lemma block_of_mono (a b : Z) :
  0 <= a -> a <= b -> b < n -> block_of n missing a <= block_of n missing b.
Proof.
  intros H0 H1 H2.
  replace b with (a + Z.of_nat (Z.to_nat (b - a))) by lia.
  apply block_of_mono_nat; lia.
Qed.

Variable m len : Z.
Hypothesis run_start : 0 < m.
Hypothesis run_length : 0 < len.
Hypothesis run_end : m + len <= n.
Hypothesis run_missing : forall l, m <= l < m + len -> In l missing.
Hypothesis run_left : ~ In (m - 1) missing.
Hypothesis run_right : m + len < n -> ~ In (m + len) missing.

Lemma newcol_of_in (l : Z) : In l missing -> newcol_of missing l = -1000.
Proof. intros H. unfold newcol_of. apply mem_In in H. now rewrite H. Qed.

Lemma newcol_of_out (l : Z) : ~ In l missing -> newcol_of missing l = 0.
Proof. intros H. unfold newcol_of. apply mem_false in H. now rewrite H. Qed.

Lemma block_of_run_nat (d : nat) :
  Z.of_nat d < len ->
  block_of n missing (m + Z.of_nat d) = block_of n missing m.
Proof.
  induction d as [|d IH]; intros Hd.
  - f_equal. lia.
  - replace (m + Z.of_nat (S d)) with (m + Z.of_nat d + 1) by lia.
    rewrite block_of_succ by lia.
    rewrite IH by lia.
    rewrite !newcol_of_in by (apply run_missing; lia).
    cbn. lia.
Qed.

Lemma block_of_run (l : Z) :
  m <= l < m + len -> block_of n missing l = block_of n missing m.
Proof.
  intros H. replace l with (m + Z.of_nat (Z.to_nat (l - m))) by lia.
  apply block_of_run_nat. lia.
Qed.

Lemma block_of_before (l : Z) :
  0 <= l < m -> block_of n missing l < block_of n missing m.
Proof.
  intros H.
  assert (H1 : block_of n missing l <= block_of n missing (m - 1))
    by (apply block_of_mono; lia).
  assert (H2 : block_of n missing m = block_of n missing (m - 1) + 1).
  { replace m with (m - 1 + 1) at 1 by lia.
    rewrite block_of_succ by lia.
    replace (m - 1 + 1) with m by lia.
    rewrite (@newcol_of_out (m - 1) run_left).
    rewrite newcol_of_in by (apply run_missing; lia). reflexivity. }
  lia.
Qed.

Lemma block_of_after (l : Z) :
  m + len <= l < n -> block_of n missing m < block_of n missing l.
Proof.
  intros H.
  assert (H1 : block_of n missing (m + len) <= block_of n missing l)
    by (apply block_of_mono; lia).
  assert (H2 : block_of n missing (m + len)
               = block_of n missing (m + len - 1) + 1).
  { replace (m + len) with (m + len - 1 + 1) at 1 by lia.
    rewrite block_of_succ by lia.
    replace (m + len - 1 + 1) with (m + len) by lia.
    rewrite (@newcol_of_out (m + len) (run_right ltac:(lia))).
    rewrite newcol_of_in by (apply run_missing; lia). reflexivity. }
  rewrite (@block_of_run (m + len - 1)) in H2 by lia.
  lia.
Qed.

Lemma map_seq_from (a : Z) (q : nat) : forall p : nat,
  map (fun i => a + Z.of_nat i) (seq p q)
  = map (fun i => a + Z.of_nat p + Z.of_nat i) (seq 0 q).
Proof.
  induction q as [|q IH]; intros p; [reflexivity|].
  cbn [seq map]. f_equal; [lia|].
  rewrite IH, <- seq_shift, map_map. apply map_ext. intros i. lia.
Qed.

Lemma range_split (a b c : Z) :
  a <= b -> b <= c -> range a c = range a b ++ range b c.
Proof.
  intros H1 H2. unfold range.
  replace (Z.to_nat (c - a)) with (Z.to_nat (b - a) + Z.to_nat (c - b))%nat
    by lia.
  rewrite seq_app, map_app. f_equal.
  cbn [Nat.add]. rewrite map_seq_from. apply map_ext. intros i. lia.
Qed.

Lemma filter_none (A : Type) (P : A -> bool) (l : list A) :
  (forall x, In x l -> P x = false) -> filter P l = [].
Proof.
  induction l as [|x l IH]; intros H; [reflexivity|].
  cbn [filter]. rewrite (H x) by now left.
  apply IH. intros y Hy. apply H. now right.
Qed.

Lemma filter_all (A : Type) (P : A -> bool) (l : list A) :
  (forall x, In x l -> P x = true) -> filter P l = l.
Proof.
  induction l as [|x l IH]; intros H; [reflexivity|].
  cbn [filter]. rewrite (H x) by now left.
  f_equal. apply IH. intros y Hy. apply H. now right.
Qed.

Lemma key_eqb_run (l x : Z) :
  m <= x < m + len -> In l (range 0 n) ->
  key_eqb (key_of n missing l) (key_of n missing x)
  = (m <=? l) && (l <? m + len).
Proof.
  intros Hx Hl. apply In_range in Hl.
  unfold key_of, key_eqb. cbn [fst snd].
  rewrite (@block_of_run x Hx), (@newcol_of_in x (run_missing Hx)).
  destruct (Z.leb_spec m l) as [Hml | Hml];
    destruct (Z.ltb_spec l (m + len)) as [Hlm | Hlm]; cbn [andb].
  - rewrite block_of_run by lia.
    rewrite newcol_of_in by (apply run_missing; lia).
    now rewrite !Z.eqb_refl.
  - pose proof (@block_of_after l ltac:(lia)).
    destruct (Z.eqb_spec (block_of n missing l) (block_of n missing m));
      [lia | reflexivity].
  - pose proof (@block_of_before l ltac:(lia)).
    destruct (Z.eqb_spec (block_of n missing l) (block_of n missing m));
      [lia | reflexivity].
  - lia.
Qed.

(** The group of a row of the run is the run. *)
Lemma group_of_run (x : Z) :
  m <= x < m + len -> group_of n missing x = range m (m + len).
Proof.
  intros Hx. unfold group_of, group_with.
  rewrite (filter_ext_in _ (fun l => (m <=? l) && (l <? m + len)))
    by (intros l Hl; now apply key_eqb_run).
  rewrite (@range_split 0 m n) by lia.
  rewrite (@range_split m (m + len) n) by lia.
  rewrite !filter_app.
  rewrite (@filter_none _ _ (range 0 m)),
          (@filter_all _ _ (range m (m + len))),
          (@filter_none _ _ (range (m + len) n)).
  - now rewrite app_nil_r.
  - intros l Hl. apply In_range in Hl.
    destruct (Z.ltb_spec l (m + len)); [lia | apply andb_false_r].
  - intros l Hl. apply In_range in Hl.
    destruct (Z.leb_spec m l); destruct (Z.ltb_spec l (m + len));
      try lia; reflexivity.
  - intros l Hl. apply In_range in Hl.
    destruct (Z.leb_spec m l); [lia | reflexivity].
Qed.

Lemma length_group_of_run (x : Z) :
  m <= x < m + len -> Z.of_nat (List.length (group_of n missing x)) = len.
Proof.
  intros Hx. rewrite group_of_run by assumption.
  rewrite length_range. lia.
Qed.

End Runs.

(** ** Seconds since the start *)

Section Seconds.
Import sanity_check_module Calendar Pandas preprocessing_module Vocabulary.
Variable V : Type.

Lemma mapM_Forall2 (A B : Type) (f : A -> result B) (l : list A) :
  forall ys, mapM f l = Ok ys -> Forall2 (fun x y => f x = Ok y) l ys.
Proof.
  induction l as [|x l IH]; intros ys H; simpl in H.
  - injection H as <-. constructor.
  - destruct (f x) as [y|e] eqn:Hx; [|discriminate]. simpl in H.
    destruct (mapM f l) as [ys'|e] eqn:Hl; [|discriminate]. simpl in H.
    injection H as <-. constructor; [assumption | now apply IH].
Qed.

Lemma fold_min_some (t : list (option Timestamp)) : forall c : Timestamp,
  exists b,
    fold_left (fun cur item => if ts_lt item cur then item else cur)
              t (Some c) = Some b
    /\ (b = c \/ In (Some b) t)
    /\ value b <= value c
    /\ (forall a, In (Some a) t -> value b <= value a).
Proof.
  induction t as [|x t IH]; intros c.
  - exists c. simpl. split; [reflexivity|]. split; [now left|].
    split; [lia|]. intros a [].
  - cbn [fold_left].
    destruct x as [a0|]; cbn [ts_lt].
    + unfold ltb. destruct (Z.ltb_spec (value a0) (value c)) as [Hlt | Hge].
      * destruct (IH a0) as [b [Hf [Hin [Hle Hmin]]]].
        exists b. split; [exact Hf|]. split.
        { right. destruct Hin as [-> | Hin]; [now left | now right]. }
        split; [lia|].
        intros a [[= <-] | Ha]; [assumption | now apply Hmin].
      * destruct (IH c) as [b [Hf [Hin [Hle Hmin]]]].
        exists b. split; [exact Hf|]. split.
        { destruct Hin as [-> | Hin]; [now left | right; now right]. }
        split; [lia|].
        intros a [[= <-] | Ha]; [lia | now apply Hmin].
    + destruct (IH c) as [b [Hf [Hin [Hle Hmin]]]].
      exists b. split; [exact Hf|]. split.
      { destruct Hin as [-> | Hin]; [now left | right; now right]. }
      split; [lia|].
      intros a [[=] | Ha]. now apply Hmin.
Qed.

(** [num_seconds] succeeds only on a non-empty column without [NaT]; the
    seconds are then the offsets from the earliest time stamp. *)
Lemma num_seconds_spec (ts : list (option Timestamp)) (secs : list Z) :
  num_seconds ts = Ok secs ->
  exists b,
    In (Some b) ts
    /\ (forall a, In (Some a) ts -> value b <= value a)
    /\ Forall2 (fun t s => exists a, t = Some a /\ s = value a - value b)
               ts secs.
Proof.
  unfold num_seconds, py_min. destruct ts as [|x t]; [discriminate|].
  cbn [bind]. intros H. apply mapM_Forall2 in H.
  destruct x as [c|].
  2:{ inversion H as [|? ? ? ? Hx _]; subst. discriminate. }
  destruct (fold_min_some t c) as [b [Hf [Hin [Hle Hmin]]]].
  rewrite Hf in H. exists b. split.
  { destruct Hin as [-> | Hin]; [now left | now right]. }
  split.
  { intros a [[= <-] | Ha]; [assumption | now apply Hmin]. }
  revert H. generalize (Some c :: t). intros l H.
  induction H as [|x y l ys Hxy _ IH]; constructor; [|exact IH].
  destruct x as [a|]; [|discriminate].
  injection Hxy as <-. now exists a.
Qed.

Lemma num_seconds_facts (ts : list (option Timestamp)) (secs : list Z) :
  num_seconds ts = Ok secs ->
  List.length secs = List.length ts
  /\ In 0 secs
  /\ (forall s, In s secs -> 0 <= s).
Proof.
  intros H. destruct (num_seconds_spec _ H) as [b [Hb [Hmin HF]]].
  split; [symmetry; now apply (Forall2_length HF)|].
  split.
  - clear Hmin H. induction HF as [|t s ts' secs' [a [-> ->]] _ IH];
      [destruct Hb|].
    destruct Hb as [[= ->] | Hb]; [left; lia | right; now apply IH].
  - intros s Hs. clear Hb H.
    induction HF as [|t s' ts' secs' [a [-> ->]] _ IH]; [destruct Hs|].
    destruct Hs as [<- | Hs].
    + specialize (Hmin a (or_introl eq_refl)). lia.
    + apply IH; [|assumption]. intros a' Ha'. apply Hmin. now right.
Qed.

Lemma fold_max_spec (t : list Z) : forall c,
  (fold_left Z.max t c = c \/ In (fold_left Z.max t c) t)
  /\ c <= fold_left Z.max t c
  /\ (forall s, In s t -> s <= fold_left Z.max t c).
Proof.
  induction t as [|x t IH]; intros c; cbn [fold_left].
  - split; [now left|]. split; [lia|]. intros s [].
  - destruct (IH (Z.max c x)) as [Hin [Hle Hmax]]. split; [|split].
    + destruct Hin as [Heq | Hin]; [|right; now right].
      rewrite Heq. destruct (Z.max_spec c x) as [[_ ->] | [_ ->]];
        [right; now left | now left].
    + lia.
    + intros s [<- | Hs]; [lia | now apply Hmax].
Qed.

Lemma py_max_spec (l : list Z) (mx : Z) :
  py_max l = Ok mx -> In mx l /\ forall s, In s l -> s <= mx.
Proof.
  unfold py_max. destruct l as [|x t]; [discriminate|].
  intros [= <-]. destruct (fold_max_spec t x) as [Hin [Hle Hmax]]. split.
  - destruct Hin as [-> | Hin]; [now left | now right].
  - intros s [<- | Hs]; [assumption | now apply Hmax].
Qed.

Lemma index_combine (R : Type) (secs : list Z) (df : list R) :
  List.length secs = List.length df -> index (combine secs df) = secs.
Proof.
  revert df. induction secs as [|s secs IH]; intros [|r df] H;
    try reflexivity; try discriminate.
  simpl in *. f_equal. apply IH. lia.
Qed.

End Seconds.

(** ** Gap filling, end to end *)

Section GapFiller.
Import sanity_check_module Calendar Pandas preprocessing_module Vocabulary.
Variable V : Type.
Variable subject_df : list (Row V).
Variable secs : list Z.
Variable mx : Z.
Hypothesis seconds : num_seconds (map (@date_time V) subject_df) = Ok secs.
Hypothesis distinct : NoDup secs.
Hypothesis last_second : py_max secs = Ok mx.

Local Abbreviation missing := (missing_secs_of secs mx).

Lemma length_secs : List.length secs = List.length subject_df.
Proof.
  destruct (num_seconds_facts _ seconds) as [H _].
  now rewrite length_map in H.
Qed.

Lemma secs_nonneg (s : Z) : In s secs -> 0 <= s <= mx.
Proof.
  intros H. destruct (num_seconds_facts _ seconds) as [_ [_ Hpos]].
  destruct (py_max_spec _ last_second) as [_ Hmax].
  split; [now apply Hpos | now apply Hmax].
Qed.

Lemma zero_in_secs : In 0 secs.
Proof. now destruct (num_seconds_facts _ seconds) as [_ [H _]]. Qed.

Lemma In_missing (l : Z) : In l missing <-> 0 <= l < mx /\ ~ In l secs.
Proof.
  unfold missing_secs_of. rewrite filter_In, In_range, negb_true_iff.
  now rewrite mem_false.
Qed.

Lemma missing_inside_ok (l : Z) : In l missing -> 0 < l < mx.
Proof.
  intros H. apply In_missing in H. destruct H as [H1 H2].
  assert (l <> 0) by (intros ->; apply H2, zero_in_secs). lia.
Qed.

Lemma row_at_absent (l : Z) : ~ In l secs -> row_at secs subject_df l = nan_row V.
Proof.
  intros H. unfold row_at.
  rewrite (proj2 (at_label_None l (combine secs subject_df))); [reflexivity|].
  now rewrite index_combine by apply length_secs.
Qed.

Lemma measured_at_absent (l : Z) :
  ~ In l secs -> measured_at secs subject_df l = None.
Proof. intros H. unfold measured_at. now rewrite row_at_absent. Qed.

Lemma py_min_nonempty (l : list (option Timestamp)) :
  l <> [] -> exists m, py_min l = Ok m.
Proof. destruct l; [congruence|]. intros _. eexists. reflexivity. Qed.

Lemma validity_tolerated (out : frame (Row V)) :
  out <> [] ->
  try_except (check_if_data_frame_is_valid (Some out))
    DataFrameContainsNans (Ok tt) = Ok tt.
Proof.
  intros H. unfold check_if_data_frame_is_valid.
  cbn [frame_len frame_any_null Frame_FrameLike].
  destruct out; [congruence|]. cbn [List.length Nat.eqb].
  destruct (existsb _ _); reflexivity.
Qed.

(** With a second missing, [fill_missing_data] returns the table over
    [range(0, mx)] whose missing rows carry the values of the loop and
    whose other rows are those of the input. *)
Lemma fill_missing_data_gaps :
  missing <> [] ->
  exists rowf : Z -> Row V,
    (forall l, meas_sig_str (rowf l) = measured_at secs subject_df l)
    /\ (forall l, In l secs -> rowf l = row_at secs subject_df l)
    /\ fill_missing_data subject_df = Ok (filled_frame secs mx rowf).
Proof.
  intros Hne.
  assert (HL : range 0 mx <> []).
  { intros E. apply Hne. unfold missing_secs_of. now rewrite E. }
  unfold fill_missing_data. rewrite seconds. cbn [bind].
  rewrite index_combine by apply length_secs.
  rewrite last_second. cbn [bind].
  unfold reindex. rewrite index_combine by apply length_secs.
  rewrite (proj2 (has_dup_false secs) distinct). cbn [andb bind].
  fold (missing_secs_of secs mx).
  destruct (List.length missing =? 0)%nat eqn:Hlen.
  { apply Nat.eqb_eq in Hlen. destruct missing; [congruence|discriminate]. }
  change (map (fun l => (l, match at_label l (combine secs subject_df) with
                            | Some r => r
                            | None => nan_row V
                            end)) (range 0 mx))
    with (tabulate (row_at secs subject_df) (range 0 mx)).
  unfold fill_missing_time_stamps.
  destruct (@py_min_nonempty
              (map (fun lr : Z * Row V => date_time (snd lr))
                   (tabulate (row_at secs subject_df) (range 0 mx))))
    as [m0 Hm0].
  { unfold tabulate. rewrite map_map. intros E.
    apply map_eq_nil in E. contradiction. }
  rewrite Hm0. cbn [bind].
  rewrite loc_set_tabulate;
    [| intros l Hl; apply In_range; apply missing_inside_ok in Hl; lia
     | now rewrite length_map].
  cbn [bind].
  set (rowf := fun l =>
         match lookup l (combine missing
                           (map (fun s => option_map
                                            (fun t => add_seconds t s) m0)
                                missing)) with
         | Some v => set_date_time (row_at secs subject_df l) v
         | None => row_at secs subject_df l
         end).
  assert (Hmeas : forall l,
            meas_sig_str (rowf l) = measured_at secs subject_df l).
  { intros l. unfold rowf, measured_at.
    now destruct (lookup l _). }
  exists rowf. split; [exact Hmeas|]. split.
  { intros l Hl. unfold rowf. rewrite lookup_combine_map.
    destruct (mem l missing) eqn:E; [|reflexivity].
    apply mem_In, In_missing in E. tauto. }
  rewrite (@fill_missing_signal_values_dense V mx rowf missing).
  - cbn [bind]. fold (filled_frame secs mx rowf).
    rewrite validity_tolerated; [reflexivity|].
    unfold filled_frame, tabulate. intros E. apply map_eq_nil in E.
    contradiction.
  - apply missing_inside_ok.
  - intros l Hl. rewrite Hmeas. apply measured_at_absent.
    apply In_missing in Hl. tauto.
  - assumption.
Qed.

Lemma source_at_measured (rowf : Z -> Row V) (x : Z) :
  (forall l, meas_sig_str (rowf l) = measured_at secs subject_df l) ->
  x < mx ->
  source_at mx rowf x = measured_at secs subject_df x.
Proof.
  intros Hmeas Hx. unfold source_at.
  destruct (mem x (range 0 mx)) eqn:E; [apply Hmeas|].
  apply mem_false in E. rewrite In_range in E.
  symmetry. apply measured_at_absent. intros Hin.
  apply secs_nonneg in Hin. lia.
Qed.

Section Block.
Variable m len : Z.
Hypothesis block : missing_block secs m len.

Lemma block_bounds : 0 < m /\ m + len <= mx /\ 0 < len.
Proof.
  destruct block as [Hlen [Hleft [_ Hright]]].
  apply secs_nonneg in Hleft, Hright. lia.
Qed.

Lemma block_missing (l : Z) : m <= l < m + len -> In l missing.
Proof.
  intros H. apply In_missing. destruct block_bounds as [? [? ?]].
  destruct block as [_ [_ [Hmiss _]]]. split; [lia | now apply Hmiss].
Qed.

Lemma block_nonempty : missing <> [].
Proof.
  intros E. destruct block_bounds as [? [? ?]].
  assert (H2 : In m missing) by (apply block_missing; lia).
  rewrite E in H2. destruct H2.
Qed.

Lemma block_group (l : Z) :
  m <= l < m + len ->
  Z.of_nat (List.length (group_of mx missing l)) = len.
Proof.
  intros Hl. destruct block_bounds as [H1 [H2 H3]].
  destruct block as [_ [Hleft [_ Hright]]].
  apply (@length_group_of_run mx missing m len); try assumption.
  - apply block_missing.
  - intros H. apply In_missing in H. tauto.
  - intros _ H. apply In_missing in H. tauto.
Qed.

(** What the loop writes into the rows of a missing block. *)
Lemma filled_value_block (rowf : Z -> Row V) (l : Z) :
  (forall x, meas_sig_str (rowf x) = measured_at secs subject_df x) ->
  m <= l < m + len ->
  filled_value mx rowf missing l
  = if len <=? 5 * 60 then measured_at secs subject_df (l - len) else None.
Proof.
  intros Hmeas Hl. unfold filled_value.
  pose proof (block_group Hl) as Hg. destruct block_bounds as [H1 [H2 H3]].
  destruct (Nat.leb_spec (List.length (group_of mx missing l)) (5 * 60));
    destruct (Z.leb_spec len (5 * 60)); try lia; [|reflexivity].
  rewrite Hg. apply source_at_measured; [assumption | lia].
Qed.

(** The rows of a missing block in the returned table. *)
Lemma filled_frame_block (rowf : Z -> Row V) (l : Z) :
  (forall x, meas_sig_str (rowf x) = measured_at secs subject_df x) ->
  m <= l < m + len ->
  exists r,
    at_label l (filled_frame secs mx rowf) = Some r
    /\ meas_sig_str r
       = if len <=? 5 * 60 then measured_at secs subject_df (l - len)
         else None.
Proof.
  intros Hmeas Hl. unfold filled_frame. rewrite at_label_tabulate.
  destruct block_bounds as [H1 [H2 H3]].
  rewrite (proj2 (mem_In l (range 0 mx))) by (apply In_range; lia).
  rewrite (proj2 (mem_In l missing)) by now apply block_missing.
  eexists. split; [reflexivity|].
  cbn [set_meas_sig_str meas_sig_str]. now apply filled_value_block.
Qed.

End Block.

(** A recorded second below [mx] keeps its row. *)
Lemma filled_frame_measured (rowf : Z -> Row V) (l : Z) :
  (forall x, In x secs -> rowf x = row_at secs subject_df x) ->
  In l secs -> l < mx ->
  at_label l (filled_frame secs mx rowf) = Some (row_at secs subject_df l).
Proof.
  intros Hrow Hl Hlt. unfold filled_frame. rewrite at_label_tabulate.
  rewrite (proj2 (mem_In l (range 0 mx)))
    by (apply In_range; apply secs_nonneg in Hl; lia).
  rewrite (proj2 (mem_false l missing))
    by (intros H; apply In_missing in H; tauto).
  now rewrite Hrow.
Qed.

(** Without a missing second the input comes back under its index of
    seconds. *)
Lemma fill_missing_data_no_gaps :
  missing = [] -> fill_missing_data subject_df = Ok (combine secs subject_df).
Proof.
  intros Hnone.
  unfold fill_missing_data. rewrite seconds. cbn [bind].
  rewrite index_combine by apply length_secs.
  rewrite last_second. cbn [bind].
  unfold reindex. rewrite index_combine by apply length_secs.
  rewrite (proj2 (has_dup_false secs) distinct). cbn [andb bind].
  fold (missing_secs_of secs mx). rewrite Hnone. cbn [List.length Nat.eqb bind].
  rewrite validity_tolerated; [reflexivity|].
  pose proof zero_in_secs as H0. pose proof length_secs as Hlen.
  destruct secs as [|s ss]; [destruct H0|].
  destruct subject_df; [discriminate | discriminate].
Qed.

End GapFiller.

Section GapFillerClaims.
Import sanity_check_module Calendar Pandas preprocessing_module Vocabulary.
Variable V : Type.

(** C2. A missing block of at most 300 seconds that follows at least as
    many recorded seconds is filled, position for position, with the signal
    of the block of the same length just before it: row [m + k] of the
    result carries the value of row [m - len + k], which is the record the
    input holds for that second. *)
Theorem short_block_copies_preceding_block
    (subject_df : list (Row V)) (secs : list Z) (mx m len : Z) :
  num_seconds (map (@date_time V) subject_df) = Ok secs ->
  NoDup secs ->
  py_max secs = Ok mx ->
  missing_block secs m len ->
  len <= 5 * 60 ->
  (forall k, 0 <= k < len -> In (m - len + k) secs) ->
  exists out,
    fill_missing_data subject_df = Ok out
    /\ forall k, 0 <= k < len ->
         exists filled source,
           at_label (m + k) out = Some filled
           /\ at_label (m - len + k) out = Some source
           /\ at_label (m - len + k) (combine secs subject_df) = Some source
           /\ meas_sig_str filled = meas_sig_str source.
Proof.
  intros Hsecs Hnd Hmax Hblock Hshort Hbefore.
  destruct (@fill_missing_data_gaps V subject_df secs mx Hsecs Hnd Hmax
              (@block_nonempty V subject_df secs mx Hsecs Hmax m len Hblock))
    as [rowf [Hmeas [Hrow Hfill]]].
  exists (filled_frame secs mx rowf). split; [exact Hfill|].
  intros k Hk.
  destruct (@filled_frame_block V subject_df secs mx Hsecs Hmax m len Hblock
              rowf (m + k) Hmeas ltac:(lia)) as [filled [Hat Hval]].
  pose proof (Hbefore k Hk) as Hsrc.
  destruct (@block_bounds V subject_df secs mx Hsecs Hmax m len Hblock)
    as [H1 [H2 H3]].
  assert (Hidx : In (m - len + k) (index (combine secs subject_df))).
  { rewrite index_combine; [assumption|].
    exact (@length_secs V subject_df secs Hsecs). }
  destruct (@at_label_In_index _ _ _ Hidx) as [source Hsource].
  exists filled, source. split; [exact Hat|]. split; [|split].
  - rewrite (@filled_frame_measured V subject_df secs mx Hsecs Hmax rowf
               (m - len + k) Hrow Hsrc ltac:(lia)).
    unfold row_at. now rewrite Hsource.
  - exact Hsource.
  - rewrite Hval.
    destruct (Z.leb_spec len (5 * 60)); [|lia].
    replace (m + k - len) with (m - len + k) by lia.
    unfold measured_at, row_at. now rewrite Hsource.
Qed.

Lemma loc_set_scalar_block_length (df df' : frame (SigRow V))
    (labels : list Z) (v : Z) :
  loc_set_scalar (@set_block_length V) df labels v = Ok df' ->
  map (fun lr : Z * SigRow V =>
         (fst lr, sig_str (snd lr), newcol (snd lr), block (snd lr),
          copy_sig (snd lr))) df'
  = map (fun lr : Z * SigRow V =>
           (fst lr, sig_str (snd lr), newcol (snd lr), block (snd lr),
            copy_sig (snd lr))) df.
Proof.
  unfold loc_set_scalar, loc_set.
  destruct (negb _); [discriminate|].
  destruct (negb _); [discriminate|].
  intros [= <-]. rewrite map_map. apply map_ext. intros [l r]. cbn [fst snd].
  now destruct (lookup l _).
Qed.

(** The round of the loop for a block longer than 300 rows touches the
    column [block_length] of the scratch table and nothing else. *)
Lemma fill_block_long (missing_secs : list Z) (st st' : FillState V)
    (i : Z) (g : list Z) :
  (5 * 60 < List.length g)%nat ->
  fill_block missing_secs st ((i, -1000), g) = Ok st' ->
  st_full_subject_df st' = st_full_subject_df st
  /\ map (fun lr : Z * SigRow V =>
            (fst lr, sig_str (snd lr), newcol (snd lr), block (snd lr),
             copy_sig (snd lr))) (st_sig_str_df st')
     = map (fun lr : Z * SigRow V =>
              (fst lr, sig_str (snd lr), newcol (snd lr), block (snd lr),
               copy_sig (snd lr))) (st_sig_str_df st).
Proof.
  intros Hlong. unfold fill_block. cbn [fst snd Z.eqb Pos.eqb].
  destruct (loc_set_scalar _ _ _ _) as [sig|e] eqn:Hsig; [|discriminate].
  cbn [bind].
  destruct (Nat.leb_spec (List.length g) (5 * 60)); [lia|].
  intros [= <-]. cbn [st_full_subject_df st_sig_str_df].
  split; [reflexivity|]. exact (loc_set_scalar_block_length _ _ _ Hsig).
Qed.

(** C4 (as amended). On an input with distinct seconds a missing block of
    more than 300 seconds stays unset: the run returns a table, every row
    of the block has no signal value, the rows of the seconds recorded
    below the last one are as the re-indexing made them (neither the
    filling of the time stamps nor that of the signal touches them), the
    round of the loop that handles the block changes neither the table nor
    the copied values, and the table is returned although the validity
    check finds nulls in it. *)
Theorem long_block_stays_unset
    (subject_df : list (Row V)) (secs : list Z) (mx m len : Z) :
  num_seconds (map (@date_time V) subject_df) = Ok secs ->
  NoDup secs ->
  py_max secs = Ok mx ->
  missing_block secs m len ->
  5 * 60 < len ->
  exists out,
    fill_missing_data subject_df = Ok out
    /\ (forall k, 0 <= k < len ->
          exists r, at_label (m + k) out = Some r /\ meas_sig_str r = None)
    /\ (exists reindexed,
          reindex (nan_row V) (combine secs subject_df) (range 0 mx)
          = Ok reindexed
          /\ forall l, In l secs -> l < mx ->
                at_label l out = at_label l reindexed)
    /\ check_if_data_frame_is_valid (Some out) = Raise DataFrameContainsNans
    /\ (forall missing_secs st st' i g,
          (5 * 60 < List.length g)%nat ->
          fill_block missing_secs st ((i, -1000), g) = Ok st' ->
          st_full_subject_df st' = st_full_subject_df st
          /\ map (fun lr : Z * SigRow V => (fst lr, copy_sig (snd lr)))
                 (st_sig_str_df st')
             = map (fun lr : Z * SigRow V => (fst lr, copy_sig (snd lr)))
                   (st_sig_str_df st)).
Proof.
  intros Hsecs Hnd Hmax Hblock Hlong.
  destruct (@fill_missing_data_gaps V subject_df secs mx Hsecs Hnd Hmax
              (@block_nonempty V subject_df secs mx Hsecs Hmax m len Hblock))
    as [rowf [Hmeas [Hrow Hfill]]].
  destruct (@block_bounds V subject_df secs mx Hsecs Hmax m len Hblock)
    as [H1 [H2 H3]].
  assert (Hrows : forall k, 0 <= k < len ->
            exists r, at_label (m + k) (filled_frame secs mx rowf) = Some r
                      /\ meas_sig_str r = None).
  { intros k Hk.
    destruct (@filled_frame_block V subject_df secs mx Hsecs Hmax m len
                Hblock rowf (m + k) Hmeas ltac:(lia)) as [r [Hat Hval]].
    exists r. split; [exact Hat|]. rewrite Hval.
    destruct (Z.leb_spec len (5 * 60)); [lia | reflexivity]. }
  exists (filled_frame secs mx rowf). split; [exact Hfill|].
  split; [exact Hrows|]. split; [|split].
  - exists (tabulate (row_at secs subject_df) (range 0 mx)). split.
    + unfold reindex.
      rewrite index_combine by exact (@length_secs V subject_df secs Hsecs).
      rewrite (proj2 (has_dup_false secs) Hnd). reflexivity.
    + intros l Hl Hlt.
      rewrite (@filled_frame_measured V subject_df secs mx Hsecs Hmax rowf
                 l Hrow Hl Hlt).
      rewrite at_label_tabulate.
      rewrite (proj2 (mem_In l (range 0 mx))); [reflexivity|].
      apply In_range.
      pose proof (@secs_nonneg V subject_df secs mx Hsecs Hmax l Hl). lia.
  - destruct (Hrows 0 ltac:(lia)) as [r [Hat Hnone]].
    apply at_label_Some_In in Hat.
    unfold check_if_data_frame_is_valid.
    cbn [frame_len frame_any_null Frame_FrameLike].
    destruct (filled_frame secs mx rowf) as [|x out'] eqn:E; [destruct Hat|].
    cbn [List.length Nat.eqb]. rewrite <- E.
    assert (Hnull : existsb (fun lr : Z * Row V => row_any_null (snd lr))
                      (filled_frame secs mx rowf) = true).
    { apply existsb_exists. exists (m + 0, r). split; [now rewrite E|].
      unfold row_any_null. cbn [snd]. now rewrite Hnone. }
    now rewrite Hnull.
  - intros missing_secs st st' i g Hg Hstep.
    destruct (@fill_block_long missing_secs st st' i g Hg Hstep)
      as [Hfull Hsig].
    split; [exact Hfull|].
    apply (f_equal (map (fun p : Z * option V * Z * Z * option V =>
                           (fst (fst (fst (fst p))), snd p)))) in Hsig.
    rewrite !map_map in Hsig. exact Hsig.
Qed.

(** C5 (as amended). On an input with distinct seconds gap filling always
    returns a table: no copy-source lookup fails.  In a missing block of at
    most 300 seconds, a row whose copy source [m + k - len] lies before the
    start of the timeline stays unset, and every other row receives what
    the signal column held at its copy source before the filling. *)
Theorem gap_filling_total_and_copy_sources
    (subject_df : list (Row V)) (secs : list Z) :
  num_seconds (map (@date_time V) subject_df) = Ok secs ->
  NoDup secs ->
  exists out,
    fill_missing_data subject_df = Ok out
    /\ forall mx m len,
         py_max secs = Ok mx ->
         missing_block secs m len ->
         len <= 5 * 60 ->
         forall k, 0 <= k < len ->
           exists r,
             at_label (m + k) out = Some r
             /\ meas_sig_str r
                = if m + k - len <? 0 then None
                  else measured_at secs subject_df (m + k - len).
Proof.
  intros Hsecs Hnd.
  destruct (py_max secs) as [mx|e] eqn:Hmax.
  2:{ exfalso. unfold py_max in Hmax.
      destruct (num_seconds_facts _ Hsecs) as [_ [H0 _]].
      destruct secs; [destruct H0 | discriminate]. }
  destruct (missing_secs_of secs mx) as [|s0 ss] eqn:Hmiss.
  - exists (combine secs subject_df). split.
    + now apply (@fill_missing_data_no_gaps V subject_df secs mx).
    + intros mx' m len [= <-] Hblock. exfalso.
      apply (@block_nonempty V subject_df secs mx Hsecs Hmax m len Hblock).
      exact Hmiss.
  - destruct (@fill_missing_data_gaps V subject_df secs mx Hsecs Hnd Hmax)
      as [rowf [Hmeas [Hrow Hfill]]].
    { rewrite Hmiss. discriminate. }
    exists (filled_frame secs mx rowf). split; [exact Hfill|].
    intros mx' m len [= <-] Hblock Hshort k Hk.
    destruct (@filled_frame_block V subject_df secs mx Hsecs Hmax m len
                Hblock rowf (m + k) Hmeas ltac:(lia)) as [r [Hat Hval]].
    exists r. split; [exact Hat|]. rewrite Hval.
    destruct (Z.leb_spec len (5 * 60)); [|lia].
    destruct (Z.ltb_spec (m + k - len) 0) as [Hneg | Hpos]; [|reflexivity].
    apply (@measured_at_absent V subject_df secs Hsecs).
    intros Hin. apply (@secs_nonneg V subject_df secs mx Hsecs Hmax) in Hin.
    lia.
Qed.

(** C1, on the code.  With a second missing from the input, the table
    returned is indexed by [range(0, mx)]: contiguous from 0, but stopping
    one short of [mx], the last second of the input, whose record is
    dropped. *)
Theorem last_second_dropped_after_gap
    (subject_df : list (Row V)) (secs : list Z) (mx s : Z) :
  num_seconds (map (@date_time V) subject_df) = Ok secs ->
  NoDup secs ->
  py_max secs = Ok mx ->
  0 <= s < mx ->
  ~ In s secs ->
  exists out,
    fill_missing_data subject_df = Ok out
    /\ index out = range 0 mx
    /\ In mx secs
    /\ ~ In mx (index out).
Proof.
  intros Hsecs Hnd Hmax Hs Hmiss.
  assert (Hne : missing_secs_of secs mx <> []).
  { intros E.
    assert (Hin : In s (missing_secs_of secs mx))
      by (apply In_missing; tauto).
    rewrite E in Hin. destruct Hin. }
  destruct (@fill_missing_data_gaps V subject_df secs mx Hsecs Hnd Hmax Hne)
    as [rowf [_ [_ Hfill]]].
  exists (filled_frame secs mx rowf). split; [exact Hfill|].
  unfold filled_frame. rewrite index_tabulate. split; [reflexivity|].
  split; [now apply py_max_spec|]. rewrite In_range. lia.
Qed.

End GapFillerClaims.

Section GapFillerSamples.
Import sanity_check_module Calendar Pandas preprocessing_module Vocabulary.
Import Samples.

Lemma NoDup_pair (a b : Z) : a <> b -> NoDup [a; b].
Proof.
  intros H. constructor; [intros [E | []]; congruence|].
  constructor; [intros [] | constructor].
Qed.

Lemma last_second_dropped_after_gap_witness :
  num_seconds (map (@date_time Z) gap_at_second_1) = Ok [0; 2]
  /\ NoDup [0; 2]
  /\ py_max [0; 2] = Ok 2
  /\ 0 <= 1 < 2
  /\ ~ In 1 [0; 2]
  /\ (exists out,
        fill_missing_data gap_at_second_1 = Ok out
        /\ index out = [0; 1]
        /\ In 2 [0; 2]
        /\ ~ In 2 (index out))
  /\ (exists out,
        fill_missing_data ends_at_noon = Ok out /\ index out = [0; 1; 2]).
Proof.
  assert (Hmiss : ~ In 1 [0; 2]) by (intros [E | [E | []]]; lia).
  split; [reflexivity|].
  split; [apply NoDup_pair; lia|].
  split; [reflexivity|].
  split; [lia|].
  split; [exact Hmiss|].
  split.
  - apply (@last_second_dropped_after_gap Z gap_at_second_1 [0; 2] 2 1);
      [reflexivity | apply NoDup_pair; lia | reflexivity | lia | exact Hmiss].
  - exists ends_at_noon_dense. split; reflexivity.
Defined.

(** C5, the claim as stated fails.  With readings at seconds 0 and 3, the
    missing block of seconds 1 and 2 has a single row before it; gap
    filling leaves second 1 unset and fills second 2 with the reading of
    second 0.  With a repeated second in the input it raises. *)
Lemma block_near_start_is_partly_filled :
  (exists out,
     fill_missing_data gap_after_first_second = Ok out
     /\ map (fun lr : Z * Row Z => (fst lr, meas_sig_str (snd lr))) out
        = [(0, Some 10); (1, None); (2, Some 10)])
  /\ fill_missing_data repeated_second = Raise ValueError.
Proof.
  split; [|reflexivity].
  eexists. split; [vm_compute; reflexivity | reflexivity].
Qed.

Lemma missing_block_example (a b : Z) :
  a < b - 1 -> 0 <= a -> missing_block [a; b] (a + 1) (b - a - 1).
Proof.
  intros H H0. unfold missing_block. split; [lia|]. split; [|split].
  - left. lia.
  - intros l Hl [E | [E | []]]; lia.
  - right. left. lia.
Qed.

Lemma gap_filling_total_and_copy_sources_witness :
  num_seconds (map (@date_time Z) gap_after_first_second) = Ok [0; 3]
  /\ NoDup [0; 3]
  /\ exists out,
       fill_missing_data gap_after_first_second = Ok out
       /\ (exists r, at_label 1 out = Some r /\ meas_sig_str r = None)
       /\ (exists r, at_label 2 out = Some r /\ meas_sig_str r = Some 10).
Proof.
  split; [reflexivity|].
  split; [apply NoDup_pair; lia|].
  destruct (@gap_filling_total_and_copy_sources Z gap_after_first_second
              [0; 3]) as [out [Hfill Hrows]].
  - reflexivity.
  - apply NoDup_pair; lia.
  - exists out. split; [exact Hfill|].
    assert (Hblock : missing_block [0; 3] 1 2)
      by (apply (@missing_block_example 0 3); lia).
    split.
    + exact (Hrows 3 1 2 eq_refl Hblock ltac:(lia) 0 ltac:(lia)).
    + exact (Hrows 3 1 2 eq_refl Hblock ltac:(lia) 1 ltac:(lia)).
Defined.

(** C4, the claim as stated fails.  With readings at seconds 0, 0 and 302
    the seconds 1 to 301 are a missing block of more than 300 seconds, and
    the run raises: the re-indexing refuses the repeated second. *)
Lemma long_block_after_repeated_second_raises :
  num_seconds (map (@date_time Z) long_gap_after_repeated_second)
  = Ok [0; 0; 302]
  /\ missing_block [0; 0; 302] 1 301
  /\ 5 * 60 < 301
  /\ fill_missing_data long_gap_after_repeated_second = Raise ValueError.
Proof.
  split; [reflexivity|]. split; [|split; [lia | reflexivity]].
  unfold missing_block. split; [lia|]. split; [now left|]. split.
  - intros l Hl [E | [E | [E | []]]]; lia.
  - right. right. now left.
Qed.

Lemma long_block_stays_unset_witness :
  num_seconds (map (@date_time Z) gap_of_301_seconds) = Ok [0; 302]
  /\ NoDup [0; 302]
  /\ py_max [0; 302] = Ok 302
  /\ missing_block [0; 302] 1 301
  /\ 5 * 60 < 301
  /\ (exists out,
        fill_missing_data gap_of_301_seconds = Ok out
        /\ (forall k, 0 <= k < 301 ->
              exists r, at_label (1 + k) out = Some r
                        /\ meas_sig_str r = None))
  /\ (out <- fill_missing_data gap_of_301_seconds ;;
      days <- divide_to_24_hour_periods out ;;
      Ok (List.length days)) = Ok 302%nat.
Proof.
  split; [reflexivity|].
  split; [apply NoDup_pair; lia|].
  split; [reflexivity|].
  split; [apply (@missing_block_example 0 302); lia|].
  split; [lia|].
  split; [|vm_compute; reflexivity].
  destruct (@long_block_stays_unset Z gap_of_301_seconds [0; 302] 302 1 301)
    as [out [Hfill [Hrows _]]].
  - reflexivity.
  - apply NoDup_pair; lia.
  - reflexivity.
  - apply (@missing_block_example 0 302); lia.
  - lia.
  - exists out. split; [exact Hfill | exact Hrows].
Defined.

Lemma short_block_copies_preceding_block_witness :
  num_seconds (map (@date_time Z) gap_after_two_seconds) = Ok [0; 1; 4]
  /\ NoDup [0; 1; 4]
  /\ py_max [0; 1; 4] = Ok 4
  /\ missing_block [0; 1; 4] 2 2
  /\ 2 <= 5 * 60
  /\ (forall k, 0 <= k < 2 -> In (2 - 2 + k) [0; 1; 4])
  /\ exists out,
       fill_missing_data gap_after_two_seconds = Ok out
       /\ forall k, 0 <= k < 2 ->
            exists filled source,
              at_label (2 + k) out = Some filled
              /\ at_label (2 - 2 + k) out = Some source
              /\ at_label (2 - 2 + k) (combine [0; 1; 4] gap_after_two_seconds)
                 = Some source
              /\ meas_sig_str filled = meas_sig_str source.
Proof.
  assert (Hnd : NoDup [0; 1; 4]).
  { constructor; [intros [E | [E | []]]; lia|]. apply NoDup_pair; lia. }
  assert (Hblock : missing_block [0; 1; 4] 2 2).
  { unfold missing_block. split; [lia|]. split; [right; left; lia|].
    split; [intros l Hl [E | [E | [E | []]]]; lia|].
    right; right; left; lia. }
  assert (Hbefore : forall k, 0 <= k < 2 -> In (2 - 2 + k) [0; 1; 4]).
  { intros k Hk. assert (k = 0 \/ k = 1) as [-> | ->] by lia;
      [left | right; left]; reflexivity. }
  split; [reflexivity|].
  split; [exact Hnd|].
  split; [reflexivity|].
  split; [exact Hblock|].
  split; [lia|].
  split; [exact Hbefore|].
  apply (@short_block_copies_preceding_block Z gap_after_two_seconds
           [0; 1; 4] 4 2 2); try assumption; try reflexivity. lia.
Defined.

End GapFillerSamples.

(* ================================================================== *)
(** * Further properties of the code *)

(** ** The subject path guard, exactly *)

Section PathGuardExact.
Import sanity_check_module Vocabulary.
Local Open Scope string_scope.

Lemma substring_split (s : string) : forall n : nat,
  (n <= String.length s)%nat ->
  s = substring 0 n s ++ substring n (String.length s - n) s.
Proof.
  induction s as [|c s IH]; intros n Hn.
  - destruct n; reflexivity.
  - destruct n as [|n].
    + cbn [substring String.append]. cbn [String.length Nat.sub].
      now rewrite substring_all.
    + cbn [substring String.append String.length Nat.sub]. f_equal.
      apply IH. simpl in Hn. lia.
Qed.

Lemma guard_two_outcomes (subject_num : Z) (path : string) :
  check_if_subject_num_matches_subject_files_path subject_num path = Ok tt
  \/ check_if_subject_num_matches_subject_files_path subject_num path
     = Raise Subject_num_does_not_match_subject_files_path.
Proof.
  unfold check_if_subject_num_matches_subject_files_path.
  destruct (String.eqb _ _); auto.
Qed.

Lemma guard_accepts_only_suffix (subject_num : Z) (path : string) :
  check_if_subject_num_matches_subject_files_path subject_num path = Ok tt ->
  exists prefix, path = prefix ++ str subject_num.
Proof.
  unfold check_if_subject_num_matches_subject_files_path, slice_last.
  destruct (String.eqb_spec
              (if (String.length (str subject_num) <=? String.length path)%nat
               then substring
                      (String.length path - String.length (str subject_num))
                      (String.length (str subject_num)) path
               else path) (str subject_num)) as [Heq | Hne]; [|discriminate].
  intros _.
  destruct (Nat.leb_spec (String.length (str subject_num))
                         (String.length path)) as [Hle | Hgt].
  - exists (substring 0 (String.length path
                         - String.length (str subject_num)) path).
    rewrite <- Heq at 2.
    rewrite (substring_split path
               (n := String.length path - String.length (str subject_num)))
      at 1 by lia.
    f_equal. f_equal. lia.
  - exists EmptyString. exact Heq.
Qed.

Lemma guard_accepts_suffix (subject_num : Z) (prefix : string) :
  check_if_subject_num_matches_subject_files_path
    subject_num (prefix ++ str subject_num) = Ok tt.
Proof.
  unfold check_if_subject_num_matches_subject_files_path.
  now rewrite slice_last_append, String.eqb_refl.
Qed.

Lemma last_char_append (a b : string) :
  b <> EmptyString -> last_char (a ++ b) = last_char b.
Proof.
  intros Hb. induction a as [|c a IH]; [reflexivity|].
  cbn [String.append last_char]. rewrite IH.
  destruct (a ++ b) eqn:E; [|reflexivity].
  destruct a; [simpl in E; congruence | discriminate].
Qed.

Lemma last_char_uint (d : Decimal.uint) :
  d <> Decimal.Nil ->
  exists c, last_char (NilEmpty.string_of_uint d) = Some c
            /\ is_digit c = true.
Proof.
  induction d as [|d IH|d IH|d IH|d IH|d IH|d IH|d IH|d IH|d IH|d IH];
    intros Hne; [congruence| | | | | | | | | |];
    cbn [NilEmpty.string_of_uint last_char];
    (destruct d;
     [ eexists; split; reflexivity
     | destruct IH as [c [Hc Hd]]; [discriminate|];
       exists c; split; [|exact Hd];
       cbn [NilEmpty.string_of_uint] in *; exact Hc .. ]).
Qed.

Lemma string_of_uint_nonnil (d : Decimal.uint) :
  d <> Decimal.Nil ->
  NilZero.string_of_uint d = NilEmpty.string_of_uint d
  /\ NilEmpty.string_of_uint d <> EmptyString.
Proof. destruct d; [congruence | split; [reflexivity | discriminate] ..]. Qed.

(** The decimal text of an integer ends in a digit. *)
Lemma last_char_str (n : Z) :
  exists c, last_char (str n) = Some c /\ is_digit c = true.
Proof.
  unfold str. destruct n as [|p|p]; cbn [Z.to_int NilZero.string_of_int].
  - eexists; split; reflexivity.
  - pose proof (Unsigned.to_uint_nonnil p) as Hne.
    destruct (string_of_uint_nonnil Hne) as [-> _].
    now apply last_char_uint.
  - pose proof (Unsigned.to_uint_nonnil p) as Hne.
    destruct (string_of_uint_nonnil Hne) as [-> Hs].
    change (String "-" (NilEmpty.string_of_uint (Pos.to_uint p)))
      with ("-" ++ NilEmpty.string_of_uint (Pos.to_uint p)).
    rewrite last_char_append by assumption.
    now apply last_char_uint.
Qed.

(** X1. The path guard accepts a path exactly
    when the path ends with the decimal text of the subject number, whatever
    comes before it, and it has no outcome other than acceptance and
    [Subject_num_does_not_match_subject_files_path]. *)
Theorem guard_accepts_exactly_suffixes (subject_num : Z) (path : string) :
  (check_if_subject_num_matches_subject_files_path subject_num path = Ok tt
   <-> exists prefix, path = prefix ++ str subject_num)
  /\ (check_if_subject_num_matches_subject_files_path subject_num path
      <> Ok tt ->
      check_if_subject_num_matches_subject_files_path subject_num path
      = Raise Subject_num_does_not_match_subject_files_path).
Proof.
  split.
  - split; [apply guard_accepts_only_suffix|].
    intros [prefix ->]. apply guard_accepts_suffix.
  - intros Hne. destruct (guard_two_outcomes subject_num path) as [H | H];
      [contradiction | exact H].
Qed.

(** X2. A path that does not end in a
    decimal digit (the empty path, a path with a trailing separator) is
    rejected for every subject number. *)
Theorem guard_rejects_path_not_ending_in_digit (subject_num : Z)
    (path : string) :
  (forall c, last_char path = Some c -> is_digit c = false) ->
  check_if_subject_num_matches_subject_files_path subject_num path
  = Raise Subject_num_does_not_match_subject_files_path.
Proof.
  intros Hlast.
  destruct (guard_two_outcomes subject_num path) as [Hok | Hraise];
    [|exact Hraise].
  exfalso. apply guard_accepts_only_suffix in Hok.
  destruct Hok as [prefix Heq].
  destruct (last_char_str subject_num) as [c [Hc Hd]].
  assert (Hne : str subject_num <> EmptyString)
    by (intros E; rewrite E in Hc; discriminate).
  apply (f_equal last_char) in Heq.
  rewrite (last_char_append prefix Hne), Hc in Heq.
  rewrite (Hlast c Heq) in Hd. discriminate.
Qed.

Lemma guard_rejects_path_not_ending_in_digit_witness :
  (forall c, last_char "../data/Subject2/" = Some c -> is_digit c = false)
  /\ check_if_subject_num_matches_subject_files_path 2 "../data/Subject2/"
     = Raise Subject_num_does_not_match_subject_files_path.
Proof.
  assert (H : forall c, last_char "../data/Subject2/" = Some c ->
                        is_digit c = false)
    by (intros c [= <-]; reflexivity).
  split; [exact H|].
  apply (guard_rejects_path_not_ending_in_digit 2 "../data/Subject2/" H).
Defined.

End PathGuardExact.

(** ** Outcomes of the content checks *)

Section Outcomes.
Import sanity_check_module Calendar Pandas preprocessing_module Vocabulary.

Lemma bind_ok (A B : Type) (m : result A) (k : A -> result B) (b : B) :
  bind m k = Ok b -> exists a, m = Ok a /\ k a = Ok b.
Proof. destruct m as [a|e]; [|discriminate]. intros H. now exists a. Qed.

Lemma bind_raise (A B : Type) (m : result A) (k : A -> result B) (e : exn) :
  bind m k = Raise e ->
  m = Raise e \/ exists a, m = Ok a /\ k a = Raise e.
Proof.
  destruct m as [a|e']; intros H.
  - right. now exists a.
  - left. simpl in H. injection H as ->. reflexivity.
Qed.

Lemma validity_ok (F : Type) `{FrameLike F} (df : option F) :
  check_if_data_frame_is_valid df = Ok tt
  <-> exists d, df = Some d /\ frame_len d <> O /\ frame_any_null d = false.
Proof.
  unfold check_if_data_frame_is_valid. destruct df as [d|].
  - destruct (Nat.eqb_spec (frame_len d) 0) as [E | E].
    + split; [discriminate|]. intros [d' [[= <-] [Hn _]]]. congruence.
    + destruct (frame_any_null d) eqn:Hnull.
      * split; [discriminate|]. intros [d' [[= <-] [_ Hn]]]. congruence.
      * split; [|reflexivity]. intros _. now exists d.
  - split; [discriminate|]. intros [d [H0 _]]. discriminate.
Qed.

(** X3. The decision table of
    [check_file_df_content]: a frame that was not read is
    [FailedToReadCSVError]; a frame without rows or with a missing value is
    [DataFileIsDefectiveError], whatever its header; a frame with rows and
    no missing value is accepted when its header is exactly name, time,
    meas_sig_str, status in this order and is
    [FileIsNotCorrectDataFileError] otherwise; nothing else is raised. *)
Theorem check_file_df_content_outcomes (file_df : option RawFrame) :
  (check_file_df_content file_df = Ok tt
   <-> exists d, file_df = Some d /\ raw_rows d <> []
                 /\ frame_any_null d = false
                 /\ raw_columns d = expected_columns)
  /\ (check_file_df_content file_df = Raise FailedToReadCSVError
      <-> file_df = None)
  /\ (check_file_df_content file_df = Raise DataFileIsDefectiveError
      <-> exists d, file_df = Some d
                    /\ (raw_rows d = [] \/ frame_any_null d = true))
  /\ (check_file_df_content file_df = Raise FileIsNotCorrectDataFileError
      <-> exists d, file_df = Some d /\ raw_rows d <> []
                    /\ frame_any_null d = false
                    /\ raw_columns d <> expected_columns)
  /\ (forall e, check_file_df_content file_df = Raise e ->
        e = FailedToReadCSVError \/ e = DataFileIsDefectiveError
        \/ e = FileIsNotCorrectDataFileError).
Proof.
  unfold check_file_df_content, check_if_data_frame_is_valid.
  destruct file_df as [d|].
  2:{ repeat split; try discriminate; auto.
      - intros [d [H0 _]]; discriminate.
      - intros [d [H0 _]]; discriminate.
      - intros [d [H0 _]]; discriminate.
      - intros e [= <-]. auto. }
  cbn [frame_len frame_any_null RawFrame_FrameLike].
  destruct (raw_rows d) as [|r rows] eqn:Hrows.
  { cbn [List.length Nat.eqb]. repeat split; try discriminate.
    - intros [d' [[= <-] [Hne _]]]. congruence.
    - intros _. exists d. split; [reflexivity|]. left. exact Hrows.
    - intros [d' [[= <-] [Hne _]]]. congruence.
    - intros e [= <-]. auto. }
  cbn [List.length Nat.eqb]. rewrite <- Hrows.
  destruct (existsb (existsb (@is_null string)) (raw_rows d)) eqn:Hnull.
  { repeat split; try discriminate.
    - intros [d' [[= <-] [_ [Hn _]]]]. congruence.
    - intros _. exists d. split; [reflexivity|]. now right.
    - intros [d' [[= <-] [_ [Hn _]]]]. congruence.
    - intros e [= <-]. auto. }
  destruct (list_eq_dec string_dec (raw_columns d) expected_columns)
    as [Hcols | Hcols].
  - repeat split; try discriminate.
    + intros _. exists d. repeat split; try assumption.
      rewrite Hrows. discriminate.
    + intros [d' [[= <-] [H | H]]]; [rewrite Hrows in H|]; congruence.
    + intros [d' [[= <-] [_ [_ Hc]]]]. congruence.
  - repeat split; try discriminate.
    + intros [d' [[= <-] [_ [_ Hc]]]]. congruence.
    + intros [d' [[= <-] [H | H]]]; [rewrite Hrows in H|]; congruence.
    + intros _. exists d. repeat split; try assumption.
      rewrite Hrows. discriminate.
    + intros e [= <-]. auto.
Qed.

End Outcomes.

(** ** [num_seconds], in full *)

Section SecondsMore.
Import sanity_check_module Calendar Pandas preprocessing_module Vocabulary.

Lemma Forall2_In_l (A B : Type) (P : A -> B -> Prop) (l : list A)
    (l' : list B) (x : A) :
  Forall2 P l l' -> In x l -> exists y, In y l' /\ P x y.
Proof.
  induction 1 as [|a b l l' Hab _ IH]; intros Hin; [destruct Hin|].
  destruct Hin as [<- | Hin].
  - exists b. split; [now left | assumption].
  - destruct (IH Hin) as [y [Hy HP]]. exists y. split; [now right | assumption].
Qed.

(** X4. When [num_seconds] returns, every record has
    its distance in seconds from the earliest time stamp of the column
    (wherever in the column that one stands): the result has one entry per
    record, in order, none negative, and the entry 0 occurs. *)
Theorem num_seconds_offsets (ts : list (option Timestamp)) (secs : list Z) :
  num_seconds ts = Ok secs ->
  exists earliest,
    In (Some earliest) ts
    /\ (forall a, In (Some a) ts -> value earliest <= value a)
    /\ Forall2 (fun t s => exists a, t = Some a
                                     /\ s = value a - value earliest)
               ts secs
    /\ In 0 secs
    /\ (forall s, In s secs -> 0 <= s).
Proof.
  intros H. destruct (num_seconds_spec _ H) as [b [Hb [Hmin HF]]].
  destruct (num_seconds_facts _ H) as [_ [H0 Hpos]].
  exists b. repeat split; assumption.
Qed.

Lemma num_seconds_some (stamps : list Timestamp) :
  stamps <> [] ->
  exists secs, num_seconds (map Some stamps) = Ok secs.
Proof.
  destruct stamps as [|c t]; [congruence|]. intros _.
  unfold num_seconds, py_min. cbn [map bind].
  destruct (fold_min_some (map Some t) c) as [b [Hf _]].
  rewrite Hf.
  exists (map (fun a => seconds_between a b) (c :: t)).
  change (Some c :: map Some t) with (map Some (c :: t)).
  generalize (c :: t). intros l.
  induction l as [|a l IH]; [reflexivity|].
  cbn [map mapM bind]. rewrite IH. reflexivity.
Qed.

Lemma all_some (A : Type) (l : list (option A)) :
  ~ In None l -> exists l', l = map Some l'.
Proof.
  induction l as [|x l IH]; intros H; [now exists []|].
  destruct IH as [l' ->]; [intros Hin; apply H; now right|].
  destruct x as [a|]; [|exfalso; apply H; now left].
  now exists (a :: l').
Qed.

Lemma num_seconds_nat (ts : list (option Timestamp)) :
  In None ts -> num_seconds ts = Raise ValueError.
Proof.
  intros Hin. unfold num_seconds.
  destruct ts as [|x t]; [destruct Hin|].
  cbn [py_min bind].
  set (m := fold_left _ t x). clearbody m.
  apply mapM_raise.
  - intros y _. destruct y as [a|]; [|now left].
    destruct m as [b|]; [right; eexists; reflexivity | now left].
  - exists None. split; [assumption | reflexivity].
Qed.

Lemma In_None_dec (A : Type) (l : list (option A)) :
  In None l \/ ~ In None l.
Proof.
  induction l as [|x l [IH | IH]].
  - right. intros [].
  - left. now right.
  - destruct x as [a|]; [|left; now left].
    right. intros [E | E]; [discriminate | exact (IH E)].
Qed.

(** X5. [num_seconds] returns exactly when the column
    is not empty and holds no [NaT]; on an empty column and on a column
    with a [NaT] it raises [ValueError], and it raises nothing else. *)
Theorem num_seconds_outcomes (ts : list (option Timestamp)) :
  ((exists secs, num_seconds ts = Ok secs) <-> ts <> [] /\ ~ In None ts)
  /\ (num_seconds ts = Raise ValueError <-> ts = [] \/ In None ts)
  /\ (forall e, num_seconds ts = Raise e -> e = ValueError).
Proof.
  assert (Hbad : ts = [] \/ In None ts -> num_seconds ts = Raise ValueError).
  { intros [-> | Hin]; [reflexivity | now apply num_seconds_nat]. }
  assert (Hgood : ts <> [] /\ ~ In None ts ->
                  exists secs, num_seconds ts = Ok secs).
  { intros [Hne Hnone]. destruct (@all_some _ ts Hnone) as [stamps ->].
    apply num_seconds_some. intros ->. now apply Hne. }
  assert (Hdec : (ts <> [] /\ ~ In None ts) \/ (ts = [] \/ In None ts)).
  { destruct ts as [|x t]; [right; now left|].
    destruct (In_None_dec (x :: t)) as [Hin | Hin]; [right; now right|].
    left. split; [discriminate | assumption]. }
  split; [|split].
  - split; [|exact Hgood]. intros [secs Hok].
    destruct Hdec as [Hd | Hd]; [exact Hd|].
    rewrite (Hbad Hd) in Hok. discriminate.
  - split; [|exact Hbad]. intros Hr.
    destruct Hdec as [Hd | Hd]; [|exact Hd].
    destruct (Hgood Hd) as [secs Hok]. rewrite Hok in Hr. discriminate.
  - intros e Hr. destruct Hdec as [Hd | Hd].
    + destruct (Hgood Hd) as [secs Hok]. rewrite Hok in Hr. discriminate.
    + rewrite (Hbad Hd) in Hr. now injection Hr as <-.
Qed.

Lemma num_seconds_offsets_witness :
  num_seconds [Some (mkTimestamp 5 None); Some (mkTimestamp 3 None)]
  = Ok [2; 0]
  /\ exists earliest,
       In (Some earliest) [Some (mkTimestamp 5 None); Some (mkTimestamp 3 None)]
       /\ (forall a, In (Some a) [Some (mkTimestamp 5 None);
                                  Some (mkTimestamp 3 None)] ->
                     value earliest <= value a)
       /\ Forall2 (fun t s => exists a, t = Some a
                                        /\ s = value a - value earliest)
                  [Some (mkTimestamp 5 None); Some (mkTimestamp 3 None)]
                  [2; 0]
       /\ In 0 [2; 0]
       /\ (forall s, In s [2; 0] -> 0 <= s).
Proof.
  split; [reflexivity|].
  apply (@num_seconds_offsets
           [Some (mkTimestamp 5 None); Some (mkTimestamp 3 None)] [2; 0]).
  reflexivity.
Defined.

End SecondsMore.

(** ** Time normalization, exactly *)

Section TimeNormalizerExact.
Import sanity_check_module Calendar Pandas preprocessing_module Vocabulary.

Variable to_datetime_scalar : string -> option Z.

Lemma parsed_or_defective (time_stamps : list string) :
  (exists instants,
     Forall2 (fun x t => to_datetime_scalar (strip_ZT x) = Some t)
             time_stamps instants)
  \/ (exists x, In x time_stamps /\ to_datetime_scalar (strip_ZT x) = None).
Proof.
  induction time_stamps as [|x xs [[instants IH] | [y [Hy Hn]]]].
  - left. exists []. constructor.
  - destruct (to_datetime_scalar (strip_ZT x)) as [t|] eqn:Hx.
    + left. exists (t :: instants). now constructor.
    + right. exists x. split; [now left | assumption].
  - right. exists y. split; [now right | assumption].
Qed.

(** X6. On a column none of whose cleaned
    texts is one pandas reads as [NaT], [convert_to_local_time] either
    converts every row or refuses the whole column: it returns exactly when
    the parser reads every cleaned text, and then with one US/Pacific-aware
    time stamp per row, in order, at the instant the parser read as UTC;
    it raises exactly when some cleaned text is refused, and then
    [DateTimeColumnIsDefectiveError] and nothing else. *)
Theorem convert_to_local_time_outcomes (time_stamps : list string) :
  Forall (fun x => nat_text (strip_ZT x) = false) time_stamps ->
  (forall out,
     convert_to_local_time to_datetime_scalar time_stamps = Ok out
     <-> Forall2 (fun x d => exists t,
                    to_datetime_scalar (strip_ZT x) = Some t
                    /\ d = mkTimestamp t (Some US_Pacific))
                 time_stamps out)
  /\ (forall e,
        convert_to_local_time to_datetime_scalar time_stamps = Raise e
        <-> e = DateTimeColumnIsDefectiveError
            /\ exists x, In x time_stamps
                         /\ to_datetime_scalar (strip_ZT x) = None).
Proof.
  intros _.
  assert (Hrel : forall instants out,
            Forall2 (fun x t => to_datetime_scalar (strip_ZT x) = Some t)
                    time_stamps instants ->
            (out = map (fun t => mkTimestamp t (Some US_Pacific)) instants
             <-> Forall2 (fun x d => exists t,
                            to_datetime_scalar (strip_ZT x) = Some t
                            /\ d = mkTimestamp t (Some US_Pacific))
                         time_stamps out)).
  { intros instants out H. revert out.
    induction H as [|x t xs ts Hx _ IH]; intros out.
    - split; [intros ->; constructor | intros H; now inversion H].
    - split.
      + intros ->. cbn [map]. constructor; [now exists t | now apply IH].
      + intros H. inversion H as [|? d ? out' [t' [Ht' ->]] Hrest]; subst.
        cbn [map]. rewrite Hx in Ht'. injection Ht' as <-.
        f_equal. now apply IH. }
  destruct (parsed_or_defective time_stamps)
    as [[instants Hall] | [x [Hin Hx]]].
  - rewrite (convert_parsed to_datetime_scalar Hall). split.
    + intros out. rewrite <- (Hrel instants out Hall).
      split; [now intros [= <-] | now intros ->].
    + intros e. split; [discriminate|]. intros [_ [y [Hy Hn]]].
      exfalso. clear Hrel. induction Hall as [|x t xs ts Hx _ IH];
        [destruct Hy|].
      destruct Hy as [<- | Hy]; [congruence | now apply IH].
  - assert (Hr : convert_to_local_time to_datetime_scalar time_stamps
                 = Raise DateTimeColumnIsDefectiveError).
    { unfold convert_to_local_time.
      rewrite (@to_datetime_defective to_datetime_scalar
                 (map strip_ZT time_stamps) (strip_ZT x));
        [reflexivity | now apply in_map | assumption]. }
    rewrite Hr. split.
    + intros out. split; [discriminate|]. intros H. exfalso.
      clear Hr Hrel. induction H as [|y d ys ds [t [Ht _]] _ IH];
        [destruct Hin|].
      destruct Hin as [<- | Hin]; [congruence | now apply IH].
    + intros e. split.
      * intros [= <-]. split; [reflexivity|]. now exists x.
      * now intros [-> _].
Qed.

End TimeNormalizerExact.

Section TimeNormalizerExactSamples.
Import sanity_check_module Calendar Pandas preprocessing_module Vocabulary.
Local Open Scope string_scope.

Lemma convert_to_local_time_outcomes_witness :
  Forall (fun x => nat_text (strip_ZT x) = false) ["2017-05-25T18:59:58Z"]
  /\ (forall out,
        convert_to_local_time to_datetime_iso ["2017-05-25T18:59:58Z"]
        = Ok out
        <-> Forall2 (fun x d => exists t,
                       to_datetime_iso (strip_ZT x) = Some t
                       /\ d = mkTimestamp t (Some US_Pacific))
                    ["2017-05-25T18:59:58Z"] out)
  /\ (forall e,
        convert_to_local_time to_datetime_iso ["2017-05-25T18:59:58Z"]
        = Raise e
        <-> e = DateTimeColumnIsDefectiveError
            /\ exists x, In x ["2017-05-25T18:59:58Z"]
                         /\ to_datetime_iso (strip_ZT x) = None).
Proof.
  assert (H : Forall (fun x => nat_text (strip_ZT x) = false)
                ["2017-05-25T18:59:58Z"]) by (repeat constructor).
  split; [exact H|].
  apply (@convert_to_local_time_outcomes to_datetime_iso
           ["2017-05-25T18:59:58Z"] H).
Defined.

End TimeNormalizerExactSamples.

Section Cleaning.
Import sanity_check_module Calendar Pandas preprocessing_module Vocabulary.
Local Open Scope string_scope.

Lemma replace_absent (old : ascii) (new x : string) :
  occurs old x = false -> replace old new x = x.
Proof.
  induction x as [|c x IH]; [reflexivity|]. cbn [occurs replace].
  intros H. apply orb_false_iff in H. destruct H as [Hc Hx].
  rewrite Hc. f_equal. now apply IH.
Qed.

Lemma occurs_append (c : ascii) (a b : string) :
  occurs c (a ++ b) = occurs c a || occurs c b.
Proof.
  induction a as [|c' a IH]; [reflexivity|]. cbn [String.append occurs].
  now rewrite IH, orb_assoc.
Qed.

Lemma occurs_replace_same (old : ascii) (new x : string) :
  occurs old new = false -> occurs old (replace old new x) = false.
Proof.
  intros Hnew. induction x as [|c x IH]; [reflexivity|]. cbn [replace].
  destruct (Ascii.eqb c old) eqn:E.
  - now rewrite occurs_append, Hnew, IH.
  - cbn [occurs]. now rewrite E, IH.
Qed.

Lemma occurs_replace_other (c old : ascii) (new x : string) :
  occurs c new = false -> occurs c x = false ->
  occurs c (replace old new x) = false.
Proof.
  intros Hnew. induction x as [|c' x IH]; [reflexivity|]. cbn [replace occurs].
  intros H. apply orb_false_iff in H. destruct H as [Hc Hx].
  destruct (Ascii.eqb c' old) eqn:E.
  - now rewrite occurs_append, Hnew, IH.
  - cbn [occurs]. now rewrite Hc, IH.
Qed.

Lemma strip_ZT_clean (x : string) :
  occurs "Z" (strip_ZT x) = false /\ occurs "T" (strip_ZT x) = false.
Proof.
  unfold strip_ZT. split.
  - apply occurs_replace_other; [reflexivity|].
    now apply occurs_replace_same.
  - now apply occurs_replace_same.
Qed.

Lemma strip_ZT_fixed (x : string) :
  occurs "Z" x = false -> occurs "T" x = false -> strip_ZT x = x.
Proof.
  intros HZ HT. unfold strip_ZT.
  rewrite (replace_absent "Z" EmptyString x HZ).
  now apply replace_absent.
Qed.

(** X7. The cleaning of a raw time stamp leaves no
    [Z] and no [T] in the text, wherever they stood, and changes nothing in
    a text that has neither; so cleaning twice is cleaning once, and
    [convert_to_local_time] gives the same result on a column that was
    already cleaned. *)
Theorem strip_ZT_idempotent
    (to_datetime_scalar : string -> option Z) (time_stamps : list string) :
  (forall x, occurs "Z" (strip_ZT x) = false
             /\ occurs "T" (strip_ZT x) = false)
  /\ (forall x, occurs "Z" x = false -> occurs "T" x = false ->
                strip_ZT x = x)
  /\ (forall x, strip_ZT (strip_ZT x) = strip_ZT x)
  /\ convert_to_local_time to_datetime_scalar (map strip_ZT time_stamps)
     = convert_to_local_time to_datetime_scalar time_stamps.
Proof.
  assert (Hidem : forall x, strip_ZT (strip_ZT x) = strip_ZT x).
  { intros x. destruct (strip_ZT_clean x) as [HZ HT].
    now apply strip_ZT_fixed. }
  split; [exact strip_ZT_clean|].
  split; [exact strip_ZT_fixed|].
  split; [exact Hidem|].
  unfold convert_to_local_time. rewrite map_map.
  now rewrite (map_ext (fun x => strip_ZT (strip_ZT x)) strip_ZT Hidem).
Qed.

End Cleaning.

(** ** Outcomes of [fill_missing_data] *)

Section FillOutcomes.
Import sanity_check_module Calendar Pandas preprocessing_module Vocabulary.
Variable V : Type.
Variable subject_df : list (Row V).
Variable secs : list Z.
Hypothesis seconds : num_seconds (map (@date_time V) subject_df) = Ok secs.

Lemma secs_nonempty : secs <> [].
Proof.
  destruct (num_seconds_facts _ seconds) as [_ [H0 _]].
  intros E. rewrite E in H0. destruct H0.
Qed.

Lemma py_max_total : exists mx, py_max secs = Ok mx.
Proof.
  pose proof secs_nonempty as H. destruct secs; [congruence|].
  eexists. reflexivity.
Qed.

Lemma combine_nonempty : combine secs subject_df <> [].
Proof.
  pose proof secs_nonempty as H.
  pose proof (@length_secs V subject_df secs seconds) as Hlen.
  destruct secs; [congruence|]. destruct subject_df; discriminate.
Qed.

Lemma fill_missing_data_distinct :
  NoDup secs -> exists out, fill_missing_data subject_df = Ok out.
Proof.
  intros Hnd. destruct py_max_total as [mx Hmx].
  destruct (missing_secs_of secs mx) eqn:E.
  - eexists. now apply (@fill_missing_data_no_gaps V subject_df secs mx).
  - destruct (@fill_missing_data_gaps V subject_df secs mx seconds Hnd Hmx)
      as [rowf [_ [_ H]]]; [rewrite E; discriminate|].
    eexists. exact H.
Qed.

Lemma fill_missing_data_repeated (mx : Z) :
  py_max secs = Ok mx -> ~ NoDup secs -> 0 < mx ->
  fill_missing_data subject_df = Raise ValueError.
Proof.
  intros Hmx Hdup Hpos.
  unfold fill_missing_data. rewrite seconds. cbn [bind].
  rewrite index_combine by apply (@length_secs V subject_df secs seconds).
  rewrite Hmx. cbn [bind].
  unfold reindex. rewrite index_combine by apply (@length_secs V subject_df secs seconds).
  destruct (has_dup secs) eqn:Hd.
  2:{ apply has_dup_false in Hd. contradiction. }
  rewrite length_range.
  destruct (Z.to_nat (mx - 0)) eqn:En; [lia|]. reflexivity.
Qed.

Lemma fill_missing_data_one_instant :
  py_max secs = Ok 0 ->
  fill_missing_data subject_df = Ok (combine secs subject_df).
Proof.
  intros Hmx.
  unfold fill_missing_data. rewrite seconds. cbn [bind].
  rewrite index_combine by apply (@length_secs V subject_df secs seconds).
  rewrite Hmx. cbn [bind].
  unfold reindex. change (range 0 0) with (@nil Z).
  cbn [List.length Nat.eqb negb filter bind]. rewrite andb_false_r.
  cbn [bind List.length Nat.eqb].
  rewrite validity_tolerated; [reflexivity | apply combine_nonempty].
Qed.

End FillOutcomes.

Section FillOutcomesTheorems.
Import sanity_check_module Calendar Pandas preprocessing_module Vocabulary.
Variable V : Type.

Lemma num_seconds_only_value_error (ts : list (option Timestamp)) (e : exn) :
  num_seconds ts = Raise e -> e = ValueError.
Proof.
  intros Hr. destruct ts as [|x t]; [now injection Hr as <-|].
  destruct (In_None_dec (x :: t)) as [Hin | Hnone].
  - rewrite (num_seconds_nat _ Hin) in Hr. now injection Hr as <-.
  - destruct (@all_some _ (x :: t) Hnone) as [stamps E].
    rewrite E in Hr.
    destruct (@num_seconds_some stamps) as [secs Hok];
      [intros ->; discriminate|].
    congruence.
Qed.

Lemma NoDup_dec_Z (l : list Z) : NoDup l \/ ~ NoDup l.
Proof.
  destruct (has_dup l) eqn:E.
  - right. intros H. apply has_dup_false in H. congruence.
  - left. now apply has_dup_false.
Qed.

Lemma py_max_zero_or_positive (subject_df : list (Row V)) (secs : list Z) :
  num_seconds (map (@date_time V) subject_df) = Ok secs ->
  exists mx, py_max secs = Ok mx
             /\ ((exists s, In s secs /\ s <> 0) <-> 0 < mx)
             /\ 0 <= mx.
Proof.
  intros Hs. destruct (@py_max_total V subject_df secs Hs) as [mx Hmx].
  exists mx. split; [exact Hmx|].
  destruct (py_max_spec _ Hmx) as [Hin Hmax].
  destruct (num_seconds_facts _ Hs) as [_ [H0 Hpos]].
  split; [split|].
  - intros [s [Hs1 Hs2]]. specialize (Hmax s Hs1).
    specialize (Hpos s Hs1). lia.
  - intros H. exists mx. split; [assumption | lia].
  - now apply Hmax.
Qed.

Lemma fill_missing_data_cases (subject_df : list (Row V)) (secs : list Z) :
  num_seconds (map (@date_time V) subject_df) = Ok secs ->
  (~ NoDup secs /\ (exists s, In s secs /\ s <> 0)
   /\ fill_missing_data subject_df = Raise ValueError)
  \/ ((NoDup secs \/ forall s, In s secs -> s = 0)
      /\ exists out, fill_missing_data subject_df = Ok out).
Proof.
  intros Hs.
  destruct (py_max_zero_or_positive _ Hs) as [mx [Hmx [Hiff Hge]]].
  destruct (NoDup_dec_Z secs) as [Hnd | Hdup].
  - right. split; [now left|].
    now apply (@fill_missing_data_distinct V _ secs).
  - destruct (Z.eq_dec mx 0) as [-> | Hne].
    + right. split.
      * right. intros s Hin. destruct (Z.eq_dec s 0) as [E | E]; [exact E|].
        assert (0 < 0) by (apply Hiff; now exists s). lia.
      * eexists. now apply (@fill_missing_data_one_instant V _ secs).
    + left. split; [exact Hdup|]. split; [apply Hiff; lia|].
      apply (@fill_missing_data_repeated V _ secs Hs mx); try assumption.
      lia.
Qed.

(** X8. Whatever its input,
    [fill_missing_data] raises nothing but [ValueError]; it does so on a
    table without rows and on a table with a [NaT] time stamp, which end in
    [min] and [int] before the validity check at the end is reached. *)
Theorem fill_missing_data_raises_only_ValueError
    (subject_df : list (Row V)) :
  (forall e, fill_missing_data subject_df = Raise e -> e = ValueError)
  /\ (subject_df = [] \/ In None (map (@date_time V) subject_df) ->
      fill_missing_data subject_df = Raise ValueError).
Proof.
  split.
  - intros e He.
    destruct (num_seconds (map (@date_time V) subject_df)) as [secs|e0] eqn:Hs.
    + destruct (fill_missing_data_cases _ Hs)
        as [[_ [_ Hr]] | [_ [out Hok]]]; congruence.
    + unfold fill_missing_data in He. rewrite Hs in He. cbn [bind] in He.
      injection He as <-.
      now apply (@num_seconds_only_value_error
                   (map (@date_time V) subject_df)).
  - intros H. unfold fill_missing_data.
    assert (Hn : num_seconds (map (@date_time V) subject_df)
                 = Raise ValueError).
    { destruct H as [-> | H]; [reflexivity|]. now apply num_seconds_nat. }
    now rewrite Hn.
Qed.

(** X9. On a table whose time stamps are
    all present, [fill_missing_data] raises [ValueError] when two records
    share a time stamp and the recording spans more than one instant (the
    re-indexing refuses the repeated label); it returns when the seconds
    are distinct, and also when all records share one time stamp, in which
    case the table comes back with every row labelled 0. *)
Theorem repeated_time_stamp_is_refused
    (subject_df : list (Row V)) (secs : list Z) :
  num_seconds (map (@date_time V) subject_df) = Ok secs ->
  (~ NoDup secs /\ (exists s, In s secs /\ s <> 0) ->
   fill_missing_data subject_df = Raise ValueError)
  /\ (NoDup secs \/ (forall s, In s secs -> s = 0) ->
      exists out, fill_missing_data subject_df = Ok out)
  /\ ((forall s, In s secs -> s = 0) ->
      fill_missing_data subject_df = Ok (combine secs subject_df)).
Proof.
  intros Hs. split; [|split].
  - intros [Hdup [s [Hin Hne]]].
    destruct (fill_missing_data_cases _ Hs)
      as [[_ [_ Hr]] | [[Hnd | Hz] _]];
      [exact Hr | contradiction | specialize (Hz s Hin); contradiction].
  - intros H.
    destruct (fill_missing_data_cases _ Hs)
      as [[Hdup [[s [Hin Hne]] _]] | [_ Hok]]; [|exact Hok].
    destruct H as [Hnd | Hz];
      [contradiction | specialize (Hz s Hin); contradiction].
  - intros Hz.
    destruct (py_max_zero_or_positive _ Hs) as [mx [Hmx [Hiff Hge]]].
    assert (mx = 0).
    { destruct (Z.eq_dec mx 0) as [E | E]; [exact E|].
      destruct (proj2 Hiff ltac:(lia)) as [s [Hin Hne]].
      specialize (Hz s Hin). contradiction. }
    subst mx. now apply (@fill_missing_data_one_instant V _ secs).
Qed.

End FillOutcomesTheorems.

Section FillOutcomesSamples.
Import sanity_check_module Calendar Pandas preprocessing_module Vocabulary.
Import Samples.

Lemma repeated_time_stamp_is_refused_witness :
  num_seconds (map (@date_time Z) repeated_second) = Ok [0; 0; 3]
  /\ (~ NoDup [0; 0; 3] /\ (exists s, In s [0; 0; 3] /\ s <> 0))
  /\ fill_missing_data repeated_second = Raise ValueError.
Proof.
  assert (Hdup : ~ NoDup [0; 0; 3]).
  { intros H. inversion H as [|? ? Hn _]; subst. apply Hn. now left. }
  assert (Hne : exists s, In s [0; 0; 3] /\ s <> 0).
  { exists 3. split; [right; right; now left | lia]. }
  split; [reflexivity|]. split; [now split|].
  apply (proj1 (@repeated_time_stamp_is_refused
                  Z repeated_second [0; 0; 3] eq_refl)).
  now split.
Defined.

End FillOutcomesSamples.

(** ** The timeline [fill_missing_data] returns *)

Section StampOfSecond.
Import sanity_check_module Calendar Pandas preprocessing_module Vocabulary.

(** A recorded second carries the time stamp that lies so many seconds
    after the earliest one. *)
Lemma row_at_stamp (V : Type) (earliest : Timestamp)
    (subject_df : list (Row V)) :
  forall secs,
  Forall2 (fun t s => exists a, t = Some a /\ s = value a - value earliest)
          (map (@date_time V) subject_df) secs ->
  forall l, In l secs ->
    exists a, date_time (row_at secs subject_df l) = Some a
              /\ value a = value earliest + l.
Proof.
  unfold row_at.
  induction subject_df as [|r df IH]; intros ss HF l Hin.
  - inversion HF; subst. destruct Hin.
  - cbn [map] in HF. inversion HF as [|? s ? ss' [a [Ha Hs]] HF']; subst.
    cbn [combine at_label].
    destruct (Z.eqb_spec l (value a - value earliest)) as [-> | Hne].
    + exists a. split; [exact Ha | lia].
    + destruct Hin as [E | Hin]; [congruence|]. now apply IH.
Qed.

Lemma fold_min_values (t : list (option Timestamp)) (lo : Z) :
  forall c : Timestamp,
    value c = lo ->
    (forall a, In (Some a) t -> lo <= value a) ->
    exists b,
      fold_left (fun cur item => if ts_lt item cur then item else cur)
                t (Some c) = Some b
      /\ value b = lo.
Proof.
  intros c Hc Hlo. destruct (fold_min_some t c) as [b [Hf [Hin [Hle _]]]].
  exists b. split; [exact Hf|].
  destruct Hin as [-> | Hin]; [exact Hc|].
  specialize (Hlo b Hin). lia.
Qed.

End StampOfSecond.

Section DenseTimeline.
Import sanity_check_module Calendar Pandas preprocessing_module Vocabulary.
Variable V : Type.
Variable subject_df : list (Row V).
Variable secs : list Z.
Variable mx : Z.
Hypothesis seconds : num_seconds (map (@date_time V) subject_df) = Ok secs.
Hypothesis distinct : NoDup secs.
Hypothesis last_second : py_max secs = Ok mx.

Local Abbreviation missing := (missing_secs_of secs mx).

Lemma fill_missing_data_gap_rows (earliest : Timestamp) :
  Forall2 (fun t s => exists a, t = Some a /\ s = value a - value earliest)
          (map (@date_time V) subject_df) secs ->
  missing <> [] ->
  exists (m0 : Timestamp) (rowf : Z -> Row V),
    value m0 = value earliest
    /\ (forall l, In l secs -> rowf l = row_at secs subject_df l)
    /\ (forall l, In l missing ->
          rowf l = mkRow None None (Some (add_seconds m0 l)))
    /\ fill_missing_data subject_df = Ok (filled_frame secs mx rowf).
Proof.
  intros HF Hne.
  assert (HL : range 0 mx <> []).
  { intros E. apply Hne. unfold missing_secs_of. now rewrite E. }
  unfold fill_missing_data. rewrite seconds. cbn [bind].
  rewrite index_combine by apply (@length_secs V subject_df secs seconds).
  rewrite last_second. cbn [bind].
  unfold reindex.
  rewrite index_combine by apply (@length_secs V subject_df secs seconds).
  rewrite (proj2 (has_dup_false secs) distinct). cbn [andb bind].
  fold (missing_secs_of secs mx).
  destruct (List.length missing =? 0)%nat eqn:Hlen.
  { apply Nat.eqb_eq in Hlen. destruct missing; [congruence|discriminate]. }
  change (map (fun l => (l, match at_label l (combine secs subject_df) with
                            | Some r => r
                            | None => nan_row V
                            end)) (range 0 mx))
    with (tabulate (row_at secs subject_df) (range 0 mx)).
  unfold fill_missing_time_stamps.
  assert (Hm0 : exists m0,
            py_min (map (fun lr : Z * Row V => date_time (snd lr))
                        (tabulate (row_at secs subject_df) (range 0 mx)))
            = Ok (Some m0)
            /\ value m0 = value earliest).
  { unfold tabulate. rewrite map_map. cbn [snd].
    assert (Hmx : 0 < mx).
    { destruct (range 0 mx) eqn:E; [congruence|].
      assert (Hin : In z (range 0 mx)) by (rewrite E; now left).
      apply In_range in Hin. lia. }
    assert (Hall : forall l a,
              In l (range 0 mx) ->
              date_time (row_at secs subject_df l) = Some a ->
              value earliest <= value a).
    { intros l a Hl Ha. apply In_range in Hl.
      destruct (in_dec Z.eq_dec l secs) as [Hin | Hout].
      - destruct (@row_at_stamp V earliest subject_df secs HF l Hin) as [a' [Ha' Hv]].
        rewrite Ha in Ha'. injection Ha' as <-. lia.
      - rewrite (@row_at_absent V subject_df secs seconds l Hout) in Ha.
        discriminate. }
    unfold range in *. replace (Z.to_nat (mx - 0)) with (S (Z.to_nat (mx - 1)))
      in * by lia.
    cbn [seq map py_min]. change (0 + Z.of_nat 0) with 0.
    destruct (@row_at_stamp V earliest subject_df secs HF 0
                (@zero_in_secs V subject_df secs seconds)) as [c [Hc Hv]].
    rewrite Hc.
    destruct (@fold_min_values
                (map (fun x => date_time (row_at secs subject_df x))
                     (map (fun i => 0 + Z.of_nat i)
                          (seq 1 (Z.to_nat (mx - 1)))))
                (value earliest) c) as [b [Hb Hvb]].
    { lia. }
    { intros a Ha. apply in_map_iff in Ha. destruct Ha as [l [Hl Hin]].
      apply (Hall l a); [|exact Hl]. cbn [seq map]. now right. }
    exists b. split; [now rewrite Hb | exact Hvb]. }
  destruct Hm0 as [m0 [Hm0 Hv0]].
  rewrite Hm0. cbn [bind].
  rewrite loc_set_tabulate;
    [| intros l Hl; apply In_range;
       apply (@missing_inside_ok V subject_df secs mx seconds) in Hl; lia
     | now rewrite length_map].
  cbn [bind].
  set (rowf := fun l =>
         match lookup l (combine missing
                           (map (fun s => option_map
                                            (fun t => add_seconds t s)
                                            (Some m0))
                                missing)) with
         | Some v => set_date_time (row_at secs subject_df l) v
         | None => row_at secs subject_df l
         end).
  assert (Hmeas : forall l,
            meas_sig_str (rowf l) = measured_at secs subject_df l).
  { intros l. unfold rowf, measured_at.
    now destruct (lookup l _). }
  exists m0, rowf. split; [exact Hv0|]. split; [|split].
  { intros l Hl. unfold rowf. rewrite lookup_combine_map.
    destruct (mem l missing) eqn:E; [|reflexivity].
    apply mem_In, (@In_missing secs mx) in E. tauto. }
  { intros l Hl. unfold rowf. rewrite lookup_combine_map.
    rewrite (proj2 (mem_In l missing) Hl).
    apply (@In_missing secs mx) in Hl.
    rewrite (@row_at_absent V subject_df secs seconds l) by tauto.
    reflexivity. }
  rewrite (@fill_missing_signal_values_dense V mx rowf missing).
  - cbn [bind]. fold (filled_frame secs mx rowf).
    rewrite validity_tolerated; [reflexivity|].
    unfold filled_frame, tabulate. intros E. apply map_eq_nil in E.
    contradiction.
  - apply (@missing_inside_ok V subject_df secs mx seconds).
  - intros l Hl. rewrite Hmeas. apply (@measured_at_absent V subject_df secs seconds).
    apply (@In_missing secs mx) in Hl. tauto.
  - assumption.
Qed.

End DenseTimeline.

Section TimelineTheorems.
Import sanity_check_module Calendar Pandas preprocessing_module Vocabulary.
Variable V : Type.

(** X10. When a second is
    missing from a recording with distinct time stamps, the returned table
    has, for every second [l] below the last, a row whose time stamp lies
    [l] seconds after the earliest time stamp of the input: for a recorded
    second the row has the time stamp and the status of the input's row,
    and for a missing second it has no status.  Nothing is said of the
    signal values here. *)
Theorem gap_filling_gives_every_second_its_time_stamp
    (subject_df : list (Row V)) (secs : list Z) (mx : Z) :
  num_seconds (map (@date_time V) subject_df) = Ok secs ->
  NoDup secs ->
  py_max secs = Ok mx ->
  (exists l, 0 <= l < mx /\ ~ In l secs) ->
  exists earliest out,
    In (Some earliest) (map (@date_time V) subject_df)
    /\ (forall a, In (Some a) (map (@date_time V) subject_df) ->
                  value earliest <= value a)
    /\ fill_missing_data subject_df = Ok out
    /\ forall l, 0 <= l < mx ->
         exists r t,
           at_label l out = Some r
           /\ date_time r = Some t
           /\ value t = value earliest + l
           /\ (In l secs ->
               exists r0,
                 at_label l (combine secs subject_df) = Some r0
                 /\ date_time r = date_time r0
                 /\ status r = status r0)
           /\ (~ In l secs -> status r = None).
Proof.
  intros Hs Hnd Hmx [l0 [Hl0 Hout0]].
  destruct (num_seconds_spec _ Hs) as [earliest [Hin [Hmin HF]]].
  assert (Hne : missing_secs_of secs mx <> []).
  { intros E. assert (H : In l0 (missing_secs_of secs mx))
      by (apply In_missing; now split).
    rewrite E in H. destruct H. }
  destruct (@fill_missing_data_gap_rows V subject_df secs mx Hs Hnd Hmx
              earliest HF Hne) as [m0 [rowf [Hv [Hrec [Hmiss Hout]]]]].
  exists earliest, (filled_frame secs mx rowf).
  split; [exact Hin|]. split; [exact Hmin|]. split; [exact Hout|].
  intros l Hl. unfold filled_frame. rewrite at_label_tabulate.
  rewrite (proj2 (mem_In l (range 0 mx))) by (apply In_range; lia).
  destruct (in_dec Z.eq_dec l secs) as [Hrecd | Habs].
  - rewrite (proj2 (mem_false l (missing_secs_of secs mx)))
      by (intros H; apply In_missing in H; tauto).
    rewrite (Hrec l Hrecd).
    destruct (@row_at_stamp V earliest subject_df secs HF l Hrecd)
      as [a [Ha Hva]].
    exists (row_at secs subject_df l), a.
    split; [reflexivity|]. split; [exact Ha|]. split; [exact Hva|].
    split; [|contradiction].
    intros _. unfold row_at.
    destruct (@at_label_In_index _ l (combine secs subject_df)) as [r Hr].
    { rewrite index_combine; [assumption|].
      apply (@length_secs V subject_df secs Hs). }
    exists r. rewrite Hr. now repeat split.
  - assert (Hm : In l (missing_secs_of secs mx))
      by (apply In_missing; now split).
    rewrite (proj2 (mem_In l (missing_secs_of secs mx)) Hm).
    rewrite (Hmiss l Hm).
    eexists. exists (add_seconds m0 l).
    split; [reflexivity|]. split; [reflexivity|].
    split; [cbn [add_seconds value]; lia|].
    split; [intros Hrecd; contradiction | reflexivity].
Qed.


Lemma seconds_up_to_last
    (subject_df : list (Row V)) (secs : list Z) (mx : Z) :
  num_seconds (map (@date_time V) subject_df) = Ok secs ->
  py_max secs = Ok mx ->
  (forall l, 0 <= l < mx -> In l secs) ->
  forall l, In l secs <-> 0 <= l <= mx.
Proof.
  intros Hs Hmx Hall l. split.
  - apply (@secs_nonneg V subject_df secs mx Hs Hmx).
  - intros Hl. destruct (Z.eq_dec l mx) as [-> | Hne].
    + now destruct (py_max_spec _ Hmx).
    + apply Hall. lia.
Qed.

(** Distinct seconds that fill [0 .. mx] are [mx + 1] many. *)
Lemma complete_recording_length
    (subject_df : list (Row V)) (secs : list Z) (mx : Z) :
  num_seconds (map (@date_time V) subject_df) = Ok secs ->
  NoDup secs ->
  py_max secs = Ok mx ->
  (forall l, 0 <= l < mx -> In l secs) ->
  Z.of_nat (List.length subject_df) = mx + 1.
Proof.
  intros Hs Hnd Hmx Hall.
  pose proof (seconds_up_to_last _ Hs Hmx Hall) as Hiff.
  rewrite <- (@length_secs V subject_df secs Hs).
  assert (H1 : (List.length secs <= List.length (range 0 (mx + 1)))%nat).
  { apply NoDup_incl_length; [exact Hnd|].
    intros l Hl. apply In_range. apply Hiff in Hl. lia. }
  assert (H2 : (List.length (range 0 (mx + 1)) <= List.length secs)%nat).
  { apply NoDup_incl_length; [apply NoDup_range|].
    intros l Hl. apply In_range in Hl. apply Hiff. lia. }
  rewrite length_range in H1, H2.
  assert (0 <= mx) by (apply (Hiff mx); now destruct (py_max_spec _ Hmx)).
  lia.
Qed.

Lemma no_missing_second
    (secs : list Z) (mx : Z) :
  (forall l, 0 <= l < mx -> In l secs) -> missing_secs_of secs mx = [].
Proof.
  intros Hall.
  destruct (missing_secs_of secs mx) as [|l t] eqn:E; [reflexivity|].
  assert (H : In l (missing_secs_of secs mx)) by (rewrite E; now left).
  apply In_missing in H. destruct H as [H1 H2]. now specialize (Hall l H1).
Qed.

(** X11. When no second up to
    the last is missing and the time stamps are distinct,
    [fill_missing_data] returns the input rows unchanged and in their input
    order (not sorted by time), each labelled with its second; the labels
    are exactly the seconds from 0 to the last one, each once. *)
Theorem complete_recording_is_returned_in_input_order
    (subject_df : list (Row V)) (secs : list Z) (mx : Z) :
  num_seconds (map (@date_time V) subject_df) = Ok secs ->
  NoDup secs ->
  py_max secs = Ok mx ->
  (forall l, 0 <= l < mx -> In l secs) ->
  fill_missing_data subject_df = Ok (combine secs subject_df)
  /\ map snd (combine secs subject_df) = subject_df
  /\ index (combine secs subject_df) = secs
  /\ (forall l, In l secs <-> 0 <= l <= mx)
  /\ Z.of_nat (List.length subject_df) = mx + 1.
Proof.
  intros Hs Hnd Hmx Hall.
  pose proof (@length_secs V subject_df secs Hs) as Hlen.
  split.
  { apply (@fill_missing_data_no_gaps V subject_df secs mx); try assumption.
    now apply no_missing_second. }
  split; [apply map_snd_combine; lia|].
  split; [now apply index_combine|].
  split; [now apply (seconds_up_to_last subject_df)|].
  now apply (complete_recording_length subject_df Hs).
Qed.


End TimelineTheorems.

Section TimelineSamples.
Import sanity_check_module Calendar Pandas preprocessing_module Vocabulary.
Import Samples.

Lemma gap_filling_gives_every_second_its_time_stamp_witness :
  num_seconds (map (@date_time Z) gap_at_second_1) = Ok [0; 2]
  /\ NoDup [0; 2]
  /\ py_max [0; 2] = Ok 2
  /\ (exists l, 0 <= l < 2 /\ ~ In l [0; 2])
  /\ exists earliest out,
       In (Some earliest) (map (@date_time Z) gap_at_second_1)
       /\ (forall a, In (Some a) (map (@date_time Z) gap_at_second_1) ->
                     value earliest <= value a)
       /\ fill_missing_data gap_at_second_1 = Ok out
       /\ forall l, 0 <= l < 2 ->
            exists r t,
              at_label l out = Some r
              /\ date_time r = Some t
              /\ value t = value earliest + l
              /\ (In l [0; 2] ->
                  exists r0,
                    at_label l (combine [0; 2] gap_at_second_1) = Some r0
                    /\ date_time r = date_time r0
                    /\ status r = status r0)
              /\ (~ In l [0; 2] -> status r = None).
Proof.
  assert (Hnd : NoDup [0; 2]).
  { constructor; [intros [E | []]; lia|].
    constructor; [intros [] | constructor]. }
  assert (Hgap : exists l, 0 <= l < 2 /\ ~ In l [0; 2]).
  { exists 1. split; [lia|]. intros [E | [E | []]]; lia. }
  split; [reflexivity|]. split; [exact Hnd|]. split; [reflexivity|].
  split; [exact Hgap|].
  apply (@gap_filling_gives_every_second_its_time_stamp
           Z gap_at_second_1 [0; 2] 2); [reflexivity | exact Hnd
                                         | reflexivity | exact Hgap].
Defined.

Lemma complete_recording_is_returned_in_input_order_witness :
  num_seconds (map (@date_time Z) ends_at_noon) = Ok [0; 1; 2]
  /\ NoDup [0; 1; 2]
  /\ py_max [0; 1; 2] = Ok 2
  /\ (forall l, 0 <= l < 2 -> In l [0; 1; 2])
  /\ fill_missing_data ends_at_noon = Ok (combine [0; 1; 2] ends_at_noon)
  /\ map snd (combine [0; 1; 2] ends_at_noon) = ends_at_noon
  /\ index (combine [0; 1; 2] ends_at_noon) = [0; 1; 2]
  /\ (forall l, In l [0; 1; 2] <-> 0 <= l <= 2)
  /\ Z.of_nat (List.length ends_at_noon) = 2 + 1.
Proof.
  assert (Hnd : NoDup [0; 1; 2]).
  { constructor; [intros [E | [E | []]]; lia|].
    constructor; [intros [E | []]; lia|].
    constructor; [intros [] | constructor]. }
  assert (Hall : forall l, 0 <= l < 2 -> In l [0; 1; 2]).
  { intros l Hl. assert (l = 0 \/ l = 1) as [-> | ->] by lia;
      [left | right; left]; reflexivity. }
  split; [reflexivity|]. split; [exact Hnd|]. split; [reflexivity|].
  split; [exact Hall|].
  apply (@complete_recording_is_returned_in_input_order
           Z ends_at_noon [0; 1; 2] 2);
    [reflexivity | exact Hnd | reflexivity | exact Hall].
Defined.

End TimelineSamples.

(** ** Day numbers, exactly *)


Section DayNumberFormula.
Import sanity_check_module Calendar Pandas preprocessing_module Vocabulary.
Variable V : Type.
Variable first noon : Timestamp.
Variable k : nat.

Local Abbreviation onsets :=
  (first :: map (fun i => add_seconds noon (Z.of_nat i * day)) (seq 0 k)).
Local Abbreviation next := (add_seconds noon (Z.of_nat k * day)).

Lemma nth_onsets (i : nat) :
  (i < k)%nat -> value (nth (S i) onsets next) = value noon + Z.of_nat i * day.
Proof.
  intros Hi. cbn [nth].
  rewrite (nth_indep _ next (add_seconds noon (Z.of_nat 0 * day)))
    by (rewrite length_map, length_seq; lia).
  rewrite (map_nth (fun i => add_seconds noon (Z.of_nat i * day))).
  rewrite seq_nth by assumption. reflexivity.
Qed.

Lemma length_onsets : List.length onsets = S k.
Proof. cbn [List.length]. now rewrite length_map, length_seq. Qed.

Lemma in_mask_first (t : Timestamp) :
  in_mask onsets next 0 t
  = (value first <=? value t)
    && (value t <? (if (1 <? k)%nat then value noon
                    else value noon + Z.of_nat k * day)).
Proof.
  unfold in_mask, geb, ltb. rewrite length_onsets.
  change (nth 0 onsets next) with first. f_equal.
  destruct (Z.ltb_spec (Z.of_nat 0 + 1) (Z.of_nat (S k) - 1));
    destruct (Nat.ltb_spec 1 k); try lia; [|reflexivity].
  change (0 + 1)%nat with 1%nat. rewrite (nth_onsets (i := 0)) by lia.
  f_equal. lia.
Qed.

Lemma in_mask_later (t : Timestamp) (i : nat) :
  (i < k)%nat ->
  in_mask onsets next (S i) t
  = (value noon + Z.of_nat i * day <=? value t)
    && (value t <? (if (i + 2 <? k)%nat
                    then value noon + Z.of_nat (S i) * day
                    else value noon + Z.of_nat k * day)).
Proof.
  intros Hi. unfold in_mask, geb, ltb. rewrite length_onsets.
  rewrite nth_onsets by assumption. f_equal.
  destruct (Z.ltb_spec (Z.of_nat (S i) + 1) (Z.of_nat (S k) - 1));
    destruct (Nat.ltb_spec (i + 2) k); try lia; [|reflexivity].
  replace (S i + 1)%nat with (S (S i)) by lia.
  now rewrite (nth_onsets (i := S i)) by lia.
Qed.

Lemma day_step_unmasked (t : Timestamp) (ds : list nat) :
  (forall d, In d ds -> in_mask onsets next d t = false) ->
  forall cur, fold_left (day_step onsets next (Some t)) ds cur = cur.
Proof.
  induction ds as [|d ds IH]; intros H cur; [reflexivity|].
  cbn [fold_left]. rewrite IH by (intros d' Hd'; apply H; now right).
  unfold day_step. now rewrite (H d (or_introl eq_refl)).
Qed.

(** The last round whose mask holds the record decides its number. *)
Lemma day_step_last (t : Timestamp) (ds1 ds2 : list nat) (d : nat) :
  in_mask onsets next d t = true ->
  (forall d', In d' ds2 -> in_mask onsets next d' t = false) ->
  forall cur,
    fold_left (day_step onsets next (Some t)) (ds1 ++ d :: ds2) cur
    = Some (Z.of_nat d + 1).
Proof.
  intros Hd Hrest cur. rewrite fold_left_app. cbn [fold_left].
  rewrite day_step_unmasked by assumption.
  unfold day_step. now rewrite Hd.
Qed.

Lemma seq_split_at (d n : nat) :
  (d < n)%nat -> seq 0 n = seq 0 d ++ d :: seq (S d) (n - S d).
Proof.
  intros H. replace n with (d + S (n - S d))%nat at 1 by lia.
  rewrite seq_app. reflexivity.
Qed.

Hypothesis noon_after_start : value first < value noon.

Lemma day_number_fold (t : option Timestamp) :
  fold_left (day_step onsets next t) (seq 0 (S k)) None
  = day_number_of first noon k t.
Proof.
  assert (Hday : 0 < day) by (unfold day; lia).
  destruct t as [t|]; cbn [day_number_of].
  2:{ generalize (seq 0 (S k)). intros ds.
      induction ds as [|d ds IH]; [reflexivity | exact IH]. }
  destruct (Z.leb_spec (value first) (value t)) as [Hlo | Hlo];
    [destruct (Z.ltb_spec (value t) (value noon + Z.of_nat k * day))
       as [Hhi | Hhi]|]; cbn [andb].
  - destruct (Z.ltb_spec (value t) (value noon)) as [Hbefore | Hafter].
    + rewrite (@seq_split_at 0 (S k)) by lia. cbn [seq app].
      apply (@day_step_last t [] (seq 1 (S k - 1)) 0).
      * rewrite in_mask_first. apply andb_true_iff.
        split; [apply Z.leb_le; lia|]. apply Z.ltb_lt.
        destruct (1 <? k)%nat; lia.
      * intros d' Hd'. apply in_seq in Hd'.
        destruct d' as [|i]; [lia|].
        rewrite in_mask_later by lia.
        apply andb_false_iff. left. apply Z.leb_gt. nia.
    + set (i := (value t - value noon) / day).
      assert (Hi : 0 <= i /\ value noon + i * day <= value t
                              < value noon + (i + 1) * day).
      { unfold i. split; [apply Z.div_pos; lia|].
        pose proof (Z.div_mod (value t - value noon) day ltac:(lia)).
        pose proof (Z.mod_pos_bound (value t - value noon) day Hday). nia. }
      assert (Hik : i < Z.of_nat k) by nia.
      rewrite (@seq_split_at (S (Z.to_nat i)) (S k)) by lia.
      rewrite (@day_step_last t _ _ (S (Z.to_nat i))).
      * f_equal. lia.
      * rewrite in_mask_later by lia. rewrite Z2Nat.id by lia.
        apply andb_true_iff. split; [apply Z.leb_le; lia|]. apply Z.ltb_lt.
        destruct (Z.to_nat i + 2 <? k)%nat; [lia | nia].
      * intros d' Hd'. apply in_seq in Hd'.
        destruct d' as [|j]; [lia|].
        rewrite in_mask_later by lia.
        apply andb_false_iff. left. apply Z.leb_gt. nia.
  - apply day_step_unmasked. intros d Hd. apply in_seq in Hd.
    destruct d as [|i].
    + rewrite in_mask_first. apply andb_false_iff. right. apply Z.ltb_ge.
      destruct (1 <? k)%nat; nia.
    + rewrite in_mask_later by lia. apply andb_false_iff. right.
      apply Z.ltb_ge. destruct (i + 2 <? k)%nat; nia.
  - apply day_step_unmasked. intros d Hd. apply in_seq in Hd.
    destruct d as [|i].
    + rewrite in_mask_first. apply andb_false_iff. left. apply Z.leb_gt. lia.
    + rewrite in_mask_later by lia. apply andb_false_iff. left.
      apply Z.leb_gt. nia.
Qed.

End DayNumberFormula.

Section DayNumbersExact.
Import sanity_check_module Calendar Pandas preprocessing_module Vocabulary.
Variable V : Type.

Lemma combine_map_repeat (A B C D : Type) (f : A -> B) (c : C)
    (h : B * C -> D) (l : list A) :
  combine l (map h (combine (map f l) (repeat c (List.length l))))
  = map (fun x => (x, h (f x, c))) l.
Proof.
  induction l as [|a l IH]; [reflexivity|].
  cbn [List.length repeat map combine]. now rewrite IH.
Qed.

Lemma divide_of_onsets (full : frame (Row V)) (first noon : Timestamp)
    (k : nat) :
  value first < value noon ->
  day_onsets_of full
  = Ok (first :: map (fun i => add_seconds noon (Z.of_nat i * day)) (seq 0 k),
        add_seconds noon (Z.of_nat k * day)) ->
  divide_to_24_hour_periods full
  = Ok (map (fun lr => (lr, day_number_of first noon k (date_time (snd lr))))
            full).
Proof.
  intros Hnoon Heq.
  unfold divide_to_24_hour_periods. rewrite Heq. cbn [bind fst snd].
  f_equal.
  rewrite assign_days_pointwise by apply repeat_length.
  rewrite length_map.
  rewrite (combine_map_repeat (fun lr : Z * Row V => date_time (snd lr))
             (@None Z)
             (fun p => fold_left (day_step _ _ (fst p)) _ (snd p))).
  apply map_ext. intros lr. f_equal. cbn [fst snd].
  rewrite (@length_onsets first noon k).
  now apply day_number_fold.
Qed.

(** X12. The day numbers in closed form. On a
    table whose labels 0 and [len - 1] carry time stamps, the first of them
    US/Pacific-aware and from 2007 on, the first noon boundary lies after
    the start and at most 25 hours after it, and the result is the input
    table, row for row, with this number beside each row: none for a row
    without time stamp, for a time stamp before the start and for one at or
    after the boundary the onset loop stops at; 1 for a time stamp before
    the first noon; and for a later one 2 plus the number of whole 24-hour
    spans between the first noon and the time stamp. *)
Theorem day_numbers_closed_form (full : frame (Row V))
    (first last : Timestamp) :
  lookup 0 (map (fun lr : Z * Row V => (fst lr, date_time (snd lr))) full)
  = Some (Some first) ->
  lookup (Z.of_nat (List.length full) - 1)
         (map (fun lr : Z * Row V => (fst lr, date_time (snd lr))) full)
  = Some (Some last) ->
  tz first = Some US_Pacific ->
  pacific_2007 <= value first ->
  exists (noon : Timestamp) (k : nat),
    tz noon = Some US_Pacific
    /\ wall noon
       = (date first + (if hour first <? 12 then 0 else 1)) * secs_per_day
         + 12 * 3600
    /\ value first < value noon <= value first + 25 * 3600
    /\ (forall i, (i < k)%nat -> value noon + Z.of_nat i * day < value last)
    /\ value last <= value noon + Z.of_nat k * day
    /\ divide_to_24_hour_periods full
       = Ok (map (fun lr => (lr, day_number_of first noon k
                                   (date_time (snd lr)))) full).
Proof.
  intros Hfirst Hlast Htz _.
  destruct (day_onsets_of_eq full Hfirst Hlast)
    as [t [k [Hloc [Hwall [Heq [Hlo Hhi]]]]]].
  pose proof (first_noon_after_start first Htz Hloc) as Hnoon.
  exists (mkTimestamp t (Some US_Pacific)), k.
  split; [reflexivity|]. split; [exact Hwall|]. split; [exact Hnoon|].
  split; [exact Hlo|]. split; [exact Hhi|].
  apply divide_of_onsets; [cbn [value]; lia | exact Heq].
Qed.

Lemma day_number_of_some (first noon : Timestamp) (k : nat)
    (t : Timestamp) (a : Z) :
  day_number_of first noon k (Some t) = Some a ->
  value first <= value t < value noon + Z.of_nat k * day
  /\ a = if value t <? value noon then 1
         else (value t - value noon) / day + 2.
Proof.
  cbn [day_number_of].
  destruct (Z.leb_spec (value first) (value t));
    destruct (Z.ltb_spec (value t) (value noon + Z.of_nat k * day));
    cbn [andb]; try discriminate.
  intros [= <-]. split; [lia | reflexivity].
Qed.

Lemma day_number_bounds (noon t : Z) :
  noon <= t ->
  noon + ((t - noon) / day) * day <= t < noon + ((t - noon) / day + 1) * day
  /\ 0 <= (t - noon) / day.
Proof.
  intros H. assert (Hday : 0 < day) by (unfold day; lia).
  pose proof (Z.div_mod (t - noon) day ltac:(lia)).
  pose proof (Z.mod_pos_bound (t - noon) day Hday).
  split; [nia | apply Z.div_pos; lia].
Qed.

(** X13. Day numbers follow time. Under the same
    conditions the partition keeps the rows as they are, numbers from 1
    on, gives number 1 to a record at the instant of the start, gives a
    later record a number at least as large as an earlier one's, and puts
    two records in one period only when they are less than 25 hours
    apart. *)
Theorem day_numbers_follow_time (full : frame (Row V))
    (first last : Timestamp) :
  lookup 0 (map (fun lr : Z * Row V => (fst lr, date_time (snd lr))) full)
  = Some (Some first) ->
  lookup (Z.of_nat (List.length full) - 1)
         (map (fun lr : Z * Row V => (fst lr, date_time (snd lr))) full)
  = Some (Some last) ->
  tz first = Some US_Pacific ->
  exists days,
    divide_to_24_hour_periods full = Ok days
    /\ map fst days = full
    /\ (forall lr dn t,
          In (lr, dn) days -> date_time (snd lr) = Some t ->
          value t = value first -> dn = Some 1)
    /\ (forall lr a, In (lr, Some a) days -> 1 <= a)
    /\ (forall lr1 lr2 a b t1 t2,
          In (lr1, Some a) days -> In (lr2, Some b) days ->
          date_time (snd lr1) = Some t1 -> date_time (snd lr2) = Some t2 ->
          (value t1 <= value t2 -> a <= b)
          /\ (a = b -> Z.abs (value t2 - value t1) < 25 * 3600)).
Proof.
  intros Hfirst Hlast Htz.
  destruct (day_onsets_of_eq full Hfirst Hlast)
    as [t0 [k [Hloc [_ [Honsets _]]]]].
  pose proof (first_noon_after_start first Htz Hloc) as Hnoon.
  set (noon := mkTimestamp t0 (Some US_Pacific)) in *.
  change t0 with (value noon) in Hnoon.
  assert (Heq := @divide_of_onsets full first noon k (proj1 Hnoon) Honsets).
  assert (Hday : day = 24 * 3600) by reflexivity.
  eexists. split; [exact Heq|]. split; [|split; [|split]].
  - rewrite map_map. cbn [fst]. apply map_id.
  - intros lr dn t Hin Ht Hv. apply in_map_iff in Hin.
    destruct Hin as [lr' [[= <- <-] _]]. rewrite Ht. cbn [day_number_of].
    rewrite Hv.
    rewrite (proj2 (Z.leb_le _ _)) by lia.
    rewrite (proj2 (Z.ltb_lt (value first) (value noon + Z.of_nat k * day)))
      by nia.
    rewrite (proj2 (Z.ltb_lt (value first) (value noon))) by lia.
    reflexivity.
  - intros lr a Hin. apply in_map_iff in Hin.
    destruct Hin as [lr' [[= <- Ha] _]].
    destruct (date_time (snd lr')) as [t|]; [|discriminate].
    apply day_number_of_some in Ha. destruct Ha as [_ ->].
    destruct (Z.ltb_spec (value t) (value noon)); [lia|].
    pose proof (@day_number_bounds (value noon) (value t)). lia.
  - intros lr1 lr2 a b t1 t2 H1 H2 Ht1 Ht2.
    apply in_map_iff in H1, H2.
    destruct H1 as [lr1' [[= <- Ha] _]]. destruct H2 as [lr2' [[= <- Hb] _]].
    rewrite Ht1 in Ha. rewrite Ht2 in Hb.
    apply day_number_of_some in Ha, Hb.
    destruct Ha as [Hr1 ->]. destruct Hb as [Hr2 ->].
    destruct (Z.ltb_spec (value t1) (value noon)) as [B1 | B1];
      destruct (Z.ltb_spec (value t2) (value noon)) as [B2 | B2].
    + split; [lia|]. intros _. lia.
    + pose proof (@day_number_bounds (value noon) (value t2)).
      split; [lia|]. intros E. lia.
    + pose proof (@day_number_bounds (value noon) (value t1)).
      split; [lia|]. intros E. lia.
    + pose proof (@day_number_bounds (value noon) (value t1)) as D1.
      pose proof (@day_number_bounds (value noon) (value t2)) as D2.
      split.
      * intros Hle.
        assert ((value t1 - value noon) / day
                <= (value t2 - value noon) / day)
          by (apply Z.div_le_mono; lia).
        lia.
      * intros E.
        assert (E' : (value t1 - value noon) / day
                     = (value t2 - value noon) / day) by lia.
        rewrite E' in D1. lia.
Qed.

End DayNumbersExact.

Section DayNumbersSamples.
Import sanity_check_module Calendar Pandas preprocessing_module Vocabulary.
Import Samples.

Lemma day_numbers_closed_form_witness :
  lookup 0 (map (fun lr : Z * Row Z => (fst lr, date_time (snd lr)))
                ends_after_noon)
  = Some (Some (mkTimestamp 1495738798 (Some US_Pacific)))
  /\ lookup (Z.of_nat (List.length ends_after_noon) - 1)
            (map (fun lr : Z * Row Z => (fst lr, date_time (snd lr)))
                 ends_after_noon)
     = Some (Some (mkTimestamp 1495738801 (Some US_Pacific)))
  /\ tz (mkTimestamp 1495738798 (Some US_Pacific)) = Some US_Pacific
  /\ pacific_2007 <= 1495738798
  /\ exists (noon : Timestamp) (k : nat),
       tz noon = Some US_Pacific
       /\ wall noon
          = (date (mkTimestamp 1495738798 (Some US_Pacific))
             + (if hour (mkTimestamp 1495738798 (Some US_Pacific)) <? 12
                then 0 else 1)) * secs_per_day + 12 * 3600
       /\ 1495738798 < value noon <= 1495738798 + 25 * 3600
       /\ (forall i, (i < k)%nat ->
             value noon + Z.of_nat i * day < 1495738801)
       /\ 1495738801 <= value noon + Z.of_nat k * day
       /\ divide_to_24_hour_periods ends_after_noon
          = Ok (map (fun lr =>
                       (lr, day_number_of
                              (mkTimestamp 1495738798 (Some US_Pacific))
                              noon k (date_time (snd lr))))
                    ends_after_noon).
Proof.
  assert (Hera : pacific_2007 <= 1495738798) by (vm_compute; discriminate).
  split; [reflexivity|]. split; [reflexivity|]. split; [reflexivity|].
  split; [exact Hera|].
  apply (@day_numbers_closed_form Z ends_after_noon
           (mkTimestamp 1495738798 (Some US_Pacific))
           (mkTimestamp 1495738801 (Some US_Pacific)));
    [reflexivity | reflexivity | reflexivity | exact Hera].
Defined.

Lemma day_numbers_follow_time_witness :
  lookup 0 (map (fun lr : Z * Row Z => (fst lr, date_time (snd lr)))
                ends_after_noon)
  = Some (Some (mkTimestamp 1495738798 (Some US_Pacific)))
  /\ lookup (Z.of_nat (List.length ends_after_noon) - 1)
            (map (fun lr : Z * Row Z => (fst lr, date_time (snd lr)))
                 ends_after_noon)
     = Some (Some (mkTimestamp 1495738801 (Some US_Pacific)))
  /\ tz (mkTimestamp 1495738798 (Some US_Pacific)) = Some US_Pacific
  /\ exists days,
       divide_to_24_hour_periods ends_after_noon = Ok days
       /\ map fst days = ends_after_noon
       /\ (forall lr dn t,
             In (lr, dn) days -> date_time (snd lr) = Some t ->
             value t = 1495738798 -> dn = Some 1)
       /\ (forall lr a, In (lr, Some a) days -> 1 <= a)
       /\ (forall lr1 lr2 a b t1 t2,
             In (lr1, Some a) days -> In (lr2, Some b) days ->
             date_time (snd lr1) = Some t1 ->
             date_time (snd lr2) = Some t2 ->
             (value t1 <= value t2 -> a <= b)
             /\ (a = b -> Z.abs (value t2 - value t1) < 25 * 3600)).
Proof.
  split; [reflexivity|]. split; [reflexivity|]. split; [reflexivity|].
  apply (@day_numbers_follow_time Z ends_after_noon
           (mkTimestamp 1495738798 (Some US_Pacific))
           (mkTimestamp 1495738801 (Some US_Pacific)));
    reflexivity.
Defined.

End DayNumbersSamples.

(** ** The stages, one after the other *)

Section StagesCompose.
Import sanity_check_module Calendar Pandas preprocessing_module Vocabulary.
Variable V : Type.

Lemma lookup_date_time (full : frame (Row V)) (l : Z) :
  lookup l (map (fun lr : Z * Row V => (fst lr, date_time (snd lr))) full)
  = option_map (@date_time V) (at_label l full).
Proof.
  induction full as [|[l' r] full IH]; [reflexivity|].
  cbn [map lookup at_label fst snd].
  destruct (l =? l'); [reflexivity | exact IH].
Qed.

Lemma row_at_input_stamp (subject_df : list (Row V)) (secs : list Z)
    (earliest : Timestamp) (l : Z) :
  List.length secs = List.length subject_df ->
  Forall2 (fun t s => exists a, t = Some a /\ s = value a - value earliest)
          (map (@date_time V) subject_df) secs ->
  In l secs ->
  exists r a,
    at_label l (combine secs subject_df) = Some r
    /\ row_at secs subject_df l = r
    /\ date_time r = Some a
    /\ In (Some a) (map (@date_time V) subject_df).
Proof.
  intros Hlen HF Hin.
  destruct (@row_at_stamp V earliest subject_df secs HF l Hin) as [a [Ha _]].
  destruct (@at_label_In_index _ l (combine secs subject_df)) as [r Hr];
    [now rewrite index_combine|].
  unfold row_at in *. rewrite Hr in *. exists r, a.
  split; [reflexivity|]. split; [reflexivity|]. split; [exact Ha|].
  rewrite <- Ha. apply in_map.
  apply at_label_Some_In in Hr. now apply in_combine_r in Hr.
Qed.

(** On a table that starts with a US/Pacific-aware time stamp the partition
    returns the rows it was given and puts the row of label 0 in period
    1. *)
Lemma divide_start_day (full : frame (Row V)) (first last : Timestamp) :
  lookup 0 (map (fun lr : Z * Row V => (fst lr, date_time (snd lr))) full)
  = Some (Some first) ->
  lookup (Z.of_nat (List.length full) - 1)
         (map (fun lr : Z * Row V => (fst lr, date_time (snd lr))) full)
  = Some (Some last) ->
  tz first = Some US_Pacific ->
  exists days,
    divide_to_24_hour_periods full = Ok days
    /\ map fst days = full
    /\ forall r, at_label 0 full = Some r -> In ((0, r), Some 1) days.
Proof.
  intros Hfirst Hlast Htz.
  destruct (day_onsets_of_eq full Hfirst Hlast)
    as [t [k [Hloc [_ [Heq _]]]]].
  pose proof (first_noon_after_start first Htz Hloc) as Hnoon.
  set (noon := mkTimestamp t (Some US_Pacific)) in *.
  assert (Hlt : value first < value noon) by (cbn [noon value]; lia).
  rewrite (@divide_of_onsets V full first noon k Hlt Heq).
  eexists. split; [reflexivity|]. split.
  - rewrite map_map. cbn [fst]. apply map_id.
  - intros r Hr.
    assert (Hdt : date_time r = Some first).
    { rewrite lookup_date_time, Hr in Hfirst. cbn [option_map] in Hfirst.
      now injection Hfirst. }
    apply at_label_Some_In in Hr.
    apply (in_map (fun lr => (lr, day_number_of first noon k
                                    (date_time (snd lr))))) in Hr.
    cbn [snd] in Hr. rewrite Hdt in Hr. cbn [day_number_of] in Hr.
    rewrite (proj2 (Z.leb_le (value first) (value first))) in Hr by lia.
    rewrite (proj2 (Z.ltb_lt (value first)
                             (value noon + Z.of_nat k * day))) in Hr
      by (unfold day; lia).
    rewrite (proj2 (Z.ltb_lt (value first) (value noon)) Hlt) in Hr.
    exact Hr.
Qed.

(** X14. The gap filler hands the partition a
    table it accepts: for a table of US/Pacific-aware time stamps from 2007
    on with distinct seconds, [fill_missing_data] returns,
    [divide_to_24_hour_periods] returns on its result (the labels 0 and
    [len - 1] it reads exist and carry time stamps, with or without gaps),
    the partition's rows are those of the filled table, in order, and the
    row of second 0 is in period 1. *)
Theorem filled_table_is_partitioned
    (subject_df : list (Row V)) (secs : list Z) :
  num_seconds (map (@date_time V) subject_df) = Ok secs ->
  NoDup secs ->
  (forall a, In (Some a) (map (@date_time V) subject_df) ->
             tz a = Some US_Pacific /\ pacific_2007 <= value a) ->
  exists full days,
    fill_missing_data subject_df = Ok full
    /\ divide_to_24_hour_periods full = Ok days
    /\ map fst days = full
    /\ exists r, at_label 0 full = Some r /\ In ((0, r), Some 1) days.
Proof.
  intros Hs Hnd Haware.
  destruct (num_seconds_spec _ Hs) as [earliest [_ [_ HF]]].
  destruct (@py_max_total V subject_df secs Hs) as [mx Hmx].
  pose proof (@length_secs V subject_df secs Hs) as Hlen.
  destruct (py_max_spec _ Hmx) as [Hmxin _].
  pose proof (@zero_in_secs V subject_df secs Hs) as Hzero.
  destruct (@row_at_input_stamp subject_df secs earliest 0 Hlen HF Hzero)
    as [r0 [first [Hr0 [Hrow0 [Hd0 Hin0]]]]].
  pose proof (proj1 (Haware first Hin0)) as Htz.
  destruct (missing_secs_of secs mx) as [|l0 rest] eqn:E.
  - assert (Hall : forall l, 0 <= l < mx -> In l secs).
    { intros l Hl.
      destruct (in_dec Z.eq_dec l secs) as [H | H]; [exact H|].
      assert (Hm : In l (missing_secs_of secs mx))
        by (apply In_missing; now split).
      rewrite E in Hm. destruct Hm. }
    pose proof (complete_recording_length subject_df Hs Hnd Hmx Hall) as Hn.
    exists (combine secs subject_df).
    destruct (@row_at_input_stamp subject_df secs earliest mx Hlen HF Hmxin)
      as [r1 [last [Hr1 [_ [Hd1 _]]]]].
    destruct (@divide_start_day (combine secs subject_df) first last)
      as [days [Hd [Hrows Hstart]]].
    + rewrite lookup_date_time, Hr0. cbn [option_map]. now rewrite Hd0.
    + rewrite lookup_date_time, length_combine, Hlen, Nat.min_id.
      replace (Z.of_nat (List.length subject_df) - 1) with mx by lia.
      rewrite Hr1. cbn [option_map]. now rewrite Hd1.
    + exact Htz.
    + exists days. split.
      { now apply (@fill_missing_data_no_gaps V subject_df secs mx). }
      split; [exact Hd|]. split; [exact Hrows|].
      exists r0. split; [exact Hr0 | now apply Hstart].
  - assert (Hne : missing_secs_of secs mx <> []) by (rewrite E; discriminate).
    destruct (@fill_missing_data_gap_rows V subject_df secs mx Hs Hnd Hmx
                earliest HF Hne) as [m0 [rowf [_ [Hrec [Hmiss Hout]]]]].
    exists (filled_frame secs mx rowf).
    assert (Hmxpos : 0 < mx).
    { assert (Hm : In l0 (missing_secs_of secs mx)) by (rewrite E; now left).
      apply In_missing in Hm. lia. }
    assert (Hstamp : forall l, 0 <= l < mx ->
              exists a,
                option_map (@date_time V)
                  (at_label l (filled_frame secs mx rowf))
                = Some (Some a)).
    { intros l Hl. unfold filled_frame. rewrite at_label_tabulate.
      rewrite (proj2 (mem_In l (range 0 mx))) by (apply In_range; lia).
      cbn [option_map].
      destruct (mem l (missing_secs_of secs mx)) eqn:Em.
      - apply mem_In in Em. rewrite (Hmiss l Em).
        eexists. reflexivity.
      - apply mem_false in Em.
        assert (Hin : In l secs).
        { destruct (in_dec Z.eq_dec l secs) as [H | H]; [exact H|].
          exfalso. apply Em. apply In_missing. now split. }
        rewrite (Hrec l Hin).
        destruct (@row_at_stamp V earliest subject_df secs HF l Hin)
          as [a [Ha _]].
        exists a. now rewrite Ha. }
    assert (Hzero_row : at_label 0 (filled_frame secs mx rowf) = Some r0).
    { unfold filled_frame. rewrite at_label_tabulate.
      rewrite (proj2 (mem_In 0 (range 0 mx))) by (apply In_range; lia).
      rewrite (proj2 (mem_false 0 (missing_secs_of secs mx)))
        by (intros H; apply In_missing in H; tauto).
      now rewrite (Hrec 0 Hzero), Hrow0. }
    destruct (Hstamp (mx - 1) ltac:(lia)) as [last Hlast].
    destruct (@divide_start_day (filled_frame secs mx rowf) first last)
      as [days [Hd [Hrows Hstart]]].
    + rewrite lookup_date_time, Hzero_row. cbn [option_map]. now rewrite Hd0.
    + rewrite lookup_date_time.
      unfold filled_frame at 1, tabulate. rewrite length_map, length_range.
      replace (Z.of_nat (Z.to_nat (mx - 0)) - 1) with (mx - 1) by lia.
      exact Hlast.
    + exact Htz.
    + exists days. split; [exact Hout|]. split; [exact Hd|].
      split; [exact Hrows|].
      exists r0. split; [exact Hzero_row | now apply Hstart].
Qed.

(** X15. Two or more records
    that all carry one time stamp pass the gap filler, every row labelled
    0, and then fail in the partition: the label [len - 1] it reads for
    the end of the recording does not exist, which is a [KeyError]. *)
Theorem single_instant_recording_is_not_partitioned
    (subject_df : list (Row V)) (secs : list Z) :
  num_seconds (map (@date_time V) subject_df) = Ok secs ->
  (forall s, In s secs -> s = 0) ->
  (2 <= List.length subject_df)%nat ->
  fill_missing_data subject_df = Ok (combine secs subject_df)
  /\ divide_to_24_hour_periods (combine secs subject_df) = Raise KeyError.
Proof.
  intros Hs Hz Hn.
  pose proof (@length_secs V subject_df secs Hs) as Hlen.
  destruct (py_max_zero_or_positive _ Hs) as [mx [Hmx [Hiff Hge]]].
  assert (mx = 0).
  { destruct (Z.eq_dec mx 0) as [E | E]; [exact E|].
    destruct (proj2 Hiff ltac:(lia)) as [s [Hin Hne]].
    specialize (Hz s Hin). contradiction. }
  subst mx. split.
  { now apply (@fill_missing_data_one_instant V _ secs). }
  unfold divide_to_24_hour_periods, day_onsets_of.
  rewrite !lookup_date_time.
  destruct (@at_label_In_index _ 0 (combine secs subject_df)) as [r Hr].
  { rewrite index_combine by assumption.
    apply (@zero_in_secs V subject_df secs Hs). }
  rewrite Hr. cbn [option_map bind].
  rewrite length_map, length_combine, Hlen, Nat.min_id.
  rewrite (proj2 (at_label_None _ _)); [reflexivity|].
  rewrite index_combine by assumption.
  intros Hin. apply Hz in Hin. lia.
Qed.

End StagesCompose.

Section StagesComposeSamples.
Import sanity_check_module Calendar Pandas preprocessing_module Vocabulary.
Import Samples.


Lemma filled_table_is_partitioned_witness :
  num_seconds (map (@date_time Z) gap_at_second_1) = Ok [0; 2]
  /\ NoDup [0; 2]
  /\ (forall a, In (Some a) (map (@date_time Z) gap_at_second_1) ->
                tz a = Some US_Pacific /\ pacific_2007 <= value a)
  /\ exists full days,
       fill_missing_data gap_at_second_1 = Ok full
       /\ divide_to_24_hour_periods full = Ok days
       /\ map fst days = full
       /\ exists r, at_label 0 full = Some r /\ In ((0, r), Some 1) days.
Proof.
  assert (Hnd : NoDup [0; 2]).
  { constructor; [intros [E | []]; lia|].
    constructor; [intros [] | constructor]. }
  assert (Haware : forall a,
            In (Some a) (map (@date_time Z) gap_at_second_1) ->
            tz a = Some US_Pacific /\ pacific_2007 <= value a).
  { intros a [[= <-] | [[= <-] | []]];
      (split; [reflexivity | vm_compute; discriminate]). }
  split; [reflexivity|]. split; [exact Hnd|]. split; [exact Haware|].
  apply (@filled_table_is_partitioned Z gap_at_second_1 [0; 2]);
    [reflexivity | exact Hnd | exact Haware].
Defined.

Lemma single_instant_recording_is_not_partitioned_witness :
  num_seconds (map (@date_time Z) one_instant) = Ok [0; 0]
  /\ (forall s, In s [0; 0] -> s = 0)
  /\ (2 <= List.length one_instant)%nat
  /\ fill_missing_data one_instant = Ok (combine [0; 0] one_instant)
  /\ divide_to_24_hour_periods (combine [0; 0] one_instant)
     = Raise KeyError.
Proof.
  assert (Hz : forall s, In s [0; 0] -> s = 0).
  { intros s [E | [E | []]]; now symmetry. }
  split; [reflexivity|]. split; [exact Hz|]. split; [simpl; lia|].
  apply (@single_instant_recording_is_not_partitioned Z one_instant [0; 0]);
    [reflexivity | exact Hz | simpl; lia].
Defined.

End StagesComposeSamples.

(** ** [clean_up], exactly *)

Section CleanUp.
Import sanity_check_module Calendar Pandas preprocessing_module Vocabulary.
Local Open Scope string_scope.

Lemma filter_by_mask (A : Type) (f : A -> bool) (l : list A) :
  map snd (filter fst (combine (map f l) l)) = filter f l.
Proof.
  induction l as [|x l IH]; [reflexivity|].
  cbn [map combine filter fst]. destruct (f x); cbn [map snd]; now rewrite IH.
Qed.

Lemma remove_first (A : Type) (l : list A) : remove_nth 0 l = tl l.
Proof. now destruct l. Qed.

Lemma nth_tl (A : Type) (n : nat) (l : list A) (d : A) :
  nth n (tl l) d = nth (S n) l d.
Proof. destruct l; [now destruct n | reflexivity]. Qed.

Lemma filter_map_tl (rows : list (list cell)) :
  filter (fun r => negb (cell_is "time" (nth 0 r None))) (map (@tl cell) rows)
  = map (@tl cell) (data_rows rows).
Proof.
  unfold data_rows, repeats_header.
  induction rows as [|r rows IH]; [reflexivity|].
  cbn [map filter]. rewrite nth_tl.
  destruct (cell_is "time" (nth 1 r None)); cbn [negb map]; now rewrite IH.
Qed.

(** [clean_up] on a frame with the expected header, in one step. *)
Lemma clean_up_expected (df : RawFrame) :
  raw_columns df = expected_columns ->
  clean_up df
  = (check_if_data_frame_is_valid
       (Some (mkRawFrame ["time"; "meas_sig_str"; "status"]
                         (map (@tl cell) (data_rows (raw_rows df))))) ;;;
     Ok (mkRawFrame ["time"; "meas_sig_str"; "status"]
                    (map (@tl cell) (data_rows (raw_rows df))))).
Proof.
  intros Hcols. unfold clean_up, del_column, get_column. rewrite Hcols.
  cbn [expected_columns col_index String.eqb Ascii.eqb Bool.eqb option_map
       bind raw_columns raw_rows remove_nth firstn skipn app].
  rewrite map_map.
  rewrite (map_ext (fun r : list cell => remove_nth 0 r) (@tl cell))
    by apply remove_first.
  rewrite <- (map_map (fun r => nth 0 r None)
                (fun c => negb (cell_is "time" c))).
  rewrite (map_map (fun r => nth 0 r None)), filter_by_mask.
  now rewrite filter_map_tl.
Qed.

Lemma any_null_tl (rows : list (list cell)) :
  existsb (existsb (@is_null string)) rows = false ->
  existsb (existsb (@is_null string)) (map (@tl cell) (data_rows rows))
  = false.
Proof.
  unfold data_rows. induction rows as [|r rows IH]; [reflexivity|].
  cbn [existsb filter]. intros H. apply orb_false_iff in H.
  destruct H as [Hr Hrows].
  destruct (negb (repeats_header r)); [|now apply IH].
  cbn [map existsb]. rewrite IH by assumption.
  destruct r as [|c r]; [reflexivity|]. cbn [existsb tl] in *.
  apply orb_false_iff in Hr. now rewrite (proj2 Hr).
Qed.

(** X16. On a frame with the expected header,
    [clean_up] returns the rows whose [time] cell does not read "time", in
    their order, each without its [name] cell, under the header time,
    meas_sig_str, status; what it returns has a row and no missing value.
    It raises [DataFrameIsEmpty] exactly when every row repeats the header
    (or there is none), and otherwise only [DataFrameContainsNans], which
    cannot happen on a frame without missing values. *)
Theorem clean_up_keeps_the_data_rows (df : RawFrame) :
  raw_columns df = expected_columns ->
  (forall out,
     clean_up df = Ok out ->
     raw_columns out = ["time"; "meas_sig_str"; "status"]
     /\ raw_rows out = map (@tl cell) (data_rows (raw_rows df))
     /\ raw_rows out <> []
     /\ frame_any_null out = false)
  /\ (clean_up df = Raise DataFrameIsEmpty
      <-> forall r, In r (raw_rows df) -> repeats_header r = true)
  /\ (forall e, clean_up df = Raise e ->
        e = DataFrameIsEmpty \/ e = DataFrameContainsNans)
  /\ (frame_any_null df = false ->
      clean_up df <> Raise DataFrameContainsNans).
Proof.
  intros Hcols. rewrite (clean_up_expected df Hcols).
  unfold check_if_data_frame_is_valid.
  cbn [frame_len frame_any_null RawFrame_FrameLike raw_rows raw_columns].
  rewrite length_map.
  assert (Hempty : data_rows (raw_rows df) = []
                   <-> forall r, In r (raw_rows df) ->
                                 repeats_header r = true).
  { unfold data_rows. split.
    - intros E r Hin. destruct (repeats_header r) eqn:Hr; [reflexivity|].
      assert (H : In r (filter (fun r => negb (repeats_header r))
                          (raw_rows df)))
        by (apply filter_In; split; [assumption | now rewrite Hr]).
      rewrite E in H. destruct H.
    - intros H. destruct (filter _ _) as [|r t] eqn:E; [reflexivity|].
      assert (Hin : In r (filter (fun r => negb (repeats_header r))
                            (raw_rows df))) by (rewrite E; now left).
      apply filter_In in Hin. destruct Hin as [Hin Hr].
      rewrite (H r Hin) in Hr. discriminate. }
  destruct (data_rows (raw_rows df)) as [|r kept] eqn:E.
  - cbn [List.length Nat.eqb bind]. split; [discriminate|].
    split; [split; [intros _; now apply Hempty | reflexivity]|].
    split; [intros e [= <-]; now left | discriminate].
  - cbn [List.length Nat.eqb].
    destruct (existsb (existsb (@is_null string)) (map (@tl cell) (r :: kept)))
      eqn:Hnull; cbn [bind].
    + split; [discriminate|].
      split; [split; [discriminate|]|].
      { intros H. apply Hempty in H. discriminate. }
      split; [intros e [= <-]; now right|].
      intros Hdf. rewrite <- E in Hnull.
      rewrite (any_null_tl _ Hdf) in Hnull. discriminate.
    + split.
      { intros out [= <-]. cbn [raw_columns raw_rows].
        split; [reflexivity|]. split; [reflexivity|].
        split; [discriminate | exact Hnull]. }
      split; [split; [discriminate|]|].
      { intros H. apply Hempty in H. discriminate. }
      split; discriminate.
Qed.

End CleanUp.

Section CleanUpSamples.
Import sanity_check_module Calendar Pandas preprocessing_module Vocabulary.
Import Samples.
Local Open Scope string_scope.

Lemma clean_up_keeps_the_data_rows_witness :
  raw_columns good_batch = expected_columns
  /\ clean_up good_batch
     = Ok (mkRawFrame ["time"; "meas_sig_str"; "status"]
             [ [Some "2017-05-25T18:59:58Z"; Some "10"; Some "ok"];
               [Some "2017-05-25T18:59:59Z"; Some "11"; Some "ok"] ])
  /\ clean_up good_batch <> Raise DataFrameContainsNans.
Proof.
  split; [reflexivity|]. split; [reflexivity|].
  apply (proj2 (proj2 (proj2
           (@clean_up_keeps_the_data_rows good_batch eq_refl)))).
  reflexivity.
Defined.

End CleanUpSamples.
